(** * govee: build-time version records

    A shallow embedding of [govee.go] (package [govee]): the record
    [Version], its constructor [NewVersion] and its accessors.

    [NewVersion] and the accessors run through three dependencies, which
    are embedded as far as they are reached: [github.com/blang/semver]
    ([Make], [PRVersion.String], [Version.String]), [strconv]
    ([ParseUint] and [FormatUint] in base 10), [fmt] (the verbs applied to
    pre-release identifiers) and [time] ([Parse] with the [UnixDate]
    layout, [Format] and [Parse] with the [RFC3339] layout).  Each
    definition carries the name of the function it transcribes.

    Go strings are byte sequences; they are modelled as [string], i.e. as
    lists of 8-bit characters.  Every separator and character class used by
    the code is ASCII, so working on bytes instead of runes changes nothing.
    Unsigned 64-bit integers are modelled as [Z] with the overflow tests of
    the code written out; [int] is the 64-bit signed integer of the amd64
    targets the package is built and tested for.  The absolute times of
    package [time] stay far below 2^64 for the years its layouts can show,
    and are plain [Z].

    What the process's environment decides, the zone database behind
    [time.Local], is a parameter [zones] of every function that consults
    it.

    Beside [govee.go] the file embeds the tests of the package, the older
    package [appver] with the interface [appv.Versioner] it implements,
    and, for what a caller can do with the slice that [Warnings] returns,
    the record as it lies in memory, its warnings a slice header that
    points into a store (modules [slice] and [heap]).  Two notions are
    written from the words of the specification and then compared with the
    parsers: the grammar of semantic versions and the Unix date
    format. *)

From Stdlib Require Import ZArith List String Ascii Bool Lia.
Import ListNotations.

Open Scope string_scope.
Open Scope Z_scope.

(** ** Bytes *)

Definition byte_val (c : ascii) : Z := Z.of_N (N_of_ascii c).

Definition byte_of (n : Z) : ascii := ascii_of_N (Z.to_N n).

Definition isDigitByte (c : ascii) : bool :=
  (48 <=? byte_val c) && (byte_val c <=? 57).

Definition digitVal (c : ascii) : Z := byte_val c - 48.

Definition digitByte (d : Z) : ascii := byte_of (48 + d).

(** [s[i:]] and [s[:i]] for an index within bounds. *)
Fixpoint sliceFrom (i : nat) (s : string) : string :=
  match i, s with
  | O, _ => s
  | S i', String _ s' => sliceFrom i' s'
  | S _, EmptyString => EmptyString
  end.

Fixpoint sliceTo (i : nat) (s : string) : string :=
  match i, s with
  | O, _ => EmptyString
  | S i', String c s' => String c (sliceTo i' s')
  | S _, EmptyString => EmptyString
  end.

(** ** Package strings *)

Module strings.

(** [strings.IndexByte]; [IndexRune] with an ASCII rune is the same
    search.  [None] stands for the result -1. *)
Fixpoint IndexByte (s : string) (c : ascii) : option nat :=
  match s with
  | EmptyString => None
  | String a s' =>
      if Ascii.eqb a c then Some O
      else match IndexByte s' c with
           | Some i => Some (S i)
           | None => None
           end
  end.

(** [strings.ContainsRune(chars, r)] for a byte [r]. *)
Definition ContainsByte (chars : string) (c : ascii) : bool :=
  match IndexByte chars c with Some _ => true | None => false end.

(** [strings.SplitN(s, sep, n)] for a one-byte separator and [n > 0]:
    at most [n] pieces, the last one holding the unsplit remainder. *)
Fixpoint SplitN (s : string) (sep : ascii) (n : nat) : list string :=
  match n with
  | O => []
  | S O => [s]
  | S n' =>
      match IndexByte s sep with
      | None => [s]
      | Some m => sliceTo m s :: SplitN (sliceFrom (S m) s) sep n'
      end
  end.

(** [strings.Split(s, sep)] for a one-byte separator: every piece. *)
Fixpoint Split (s : string) (sep : ascii) : list string :=
  match s with
  | EmptyString => [EmptyString]
  | String c s' =>
      if Ascii.eqb c sep then EmptyString :: Split s' sep
      else match Split s' sep with
           | p :: ps => String c p :: ps
           | [] => [String c EmptyString]
           end
  end.

(** [strings.Join(elems, sep)]. *)
Fixpoint Join (elems : list string) (sep : string) : string :=
  match elems with
  | [] => EmptyString
  | [e] => e
  | e :: rest => e ++ sep ++ Join rest sep
  end.

End strings.

(** ** Package strconv *)

Module strconv.

Inductive NumError := ErrSyntax (s : string) | ErrRange (s : string).

Definition maxUint64 : Z := 2 ^ 64 - 1.

(** The digit loop of [ParseUint(s, 10, 64)]: [cutoff] is the smallest
    number whose tenfold exceeds [maxUint64]; the sum [n1] wraps around at
    64 bits and the wrap is detected by [n1 < n]. *)
Fixpoint parseUintLoop (s0 s : string) (n : Z) : Z + NumError :=
  match s with
  | EmptyString => inl n
  | String c s' =>
      if isDigitByte c then
        let d := digitVal c in
        let cutoff := maxUint64 / 10 + 1 in
        if cutoff <=? n then inr (ErrRange s0)
        else
          let n := n * 10 in
          let n1 := (n + d) mod 2 ^ 64 in
          if (n1 <? n) || (maxUint64 <? n1) then inr (ErrRange s0)
          else parseUintLoop s0 s' n1
      else inr (ErrSyntax s0)
  end.

Definition ParseUint (s : string) : Z + NumError :=
  match s with
  | EmptyString => inr (ErrSyntax s)
  | _ => parseUintLoop s s 0
  end.

(** [FormatUint(u, 10)]: the decimal digits of [u], most significant
    first, no leading zero.  The library emits two digits per iteration;
    here one digit is emitted per iteration, twenty being enough for a
    64-bit value. *)
Fixpoint formatBits (fuel : nat) (u : Z) (acc : string) : string :=
  match fuel with
  | O => acc
  | S fuel' =>
      let acc' := String (digitByte (u mod 10)) acc in
      if u <? 10 then acc' else formatBits fuel' (u / 10) acc'
  end.

Definition FormatUint (u : Z) : string := formatBits 20 u EmptyString.

End strconv.

(** ** Package github.com/blang/semver *)

Module semver.

Definition numbers : string := "0123456789".
Definition alphas : string :=
  "abcdefghijklmnopqrstuvwxyzABCDEFGHIJKLMNOPQRSTUVWXYZ-".
Definition alphanum : string := alphas ++ numbers.

(** [PRVersion]: one pre-release identifier, numeric or alphanumeric. *)
Record PRVersion := mkPRVersion {
  VersionStr : string;
  VersionNum : Z;
  IsNum : bool
}.

Record Version := mkVersion {
  Major : Z;
  Minor : Z;
  Patch : Z;
  Pre : list PRVersion;
  Build : list string
}.

Inductive part := MajorPart | MinorPart | PatchPart.

Inductive error :=
| ErrVersionEmpty
| ErrNoElements
| ErrInvalidChars (p : part) (s : string)
| ErrLeadingZeroes (p : part) (s : string)
| ErrNum (e : strconv.NumError)
| ErrPreEmpty
| ErrPreLeadingZeroes (s : string)
| ErrPreInvalidChars (s : string)
| ErrBuildEmpty
| ErrBuildInvalidChars (s : string).

Fixpoint containsOnly (s : string) (set : string) : bool :=
  match s with
  | EmptyString => true
  | String c s' => strings.ContainsByte set c && containsOnly s' set
  end.

Definition hasLeadingZeroes (s : string) : bool :=
  match s with
  | String c (String _ _) => Ascii.eqb c "0"
  | _ => false
  end.

Definition NewPRVersion (s : string) : PRVersion + error :=
  match s with
  | EmptyString => inr ErrPreEmpty
  | _ =>
      if containsOnly s numbers then
        if hasLeadingZeroes s then inr (ErrPreLeadingZeroes s)
        else match strconv.ParseUint s with
             | inr e => inr (ErrNum e)
             | inl num => inl (mkPRVersion EmptyString num true)
             end
      else if containsOnly s alphanum then
        inl (mkPRVersion s 0 false)
      else inr (ErrPreInvalidChars s)
  end.

(** The loop over the pre-release pieces: stops at the first error. *)
Fixpoint parsePre (prerelease : list string) (acc : list PRVersion)
  : list PRVersion + error :=
  match prerelease with
  | [] => inl acc
  | prstr :: rest =>
      match NewPRVersion prstr with
      | inr e => inr e
      | inl parsedPR => parsePre rest (acc ++ [parsedPR])
      end
  end.

(** The loop over the build meta data pieces. *)
Fixpoint parseBuild (build : list string) (acc : list string)
  : list string + error :=
  match build with
  | [] => inl acc
  | str :: rest =>
      match str with
      | EmptyString => inr ErrBuildEmpty
      | _ =>
          if containsOnly str alphanum then parseBuild rest (acc ++ [str])
          else inr (ErrBuildInvalidChars str)
      end
  end.

(** One of the three numeric components. *)
Definition parseNumber (p : part) (s : string) : Z + error :=
  if negb (containsOnly s numbers) then inr (ErrInvalidChars p s)
  else if hasLeadingZeroes s then inr (ErrLeadingZeroes p s)
  else match strconv.ParseUint s with
       | inr e => inr (ErrNum e)
       | inl n => inl n
       end.

Definition Parse (s : string) : Version + error :=
  match s with
  | EmptyString => inr ErrVersionEmpty
  | _ =>
      match strings.SplitN s "." 3 with
      | [p0; p1; p2] =>
          match parseNumber MajorPart p0 with
          | inr e => inr e
          | inl major =>
          match parseNumber MinorPart p1 with
          | inr e => inr e
          | inl minor =>
              let patchStr := p2 in
              let '(build, patchStr) :=
                match strings.IndexByte patchStr "+" with
                | Some buildIndex =>
                    (strings.Split (sliceFrom (S buildIndex) patchStr) ".",
                     sliceTo buildIndex patchStr)
                | None => ([], patchStr)
                end in
              let '(prerelease, patchStr) :=
                match strings.IndexByte patchStr "-" with
                | Some preIndex =>
                    (strings.Split (sliceFrom (S preIndex) patchStr) ".",
                     sliceTo preIndex patchStr)
                | None => ([], patchStr)
                end in
              match parseNumber PatchPart patchStr with
              | inr e => inr e
              | inl patch =>
              match parsePre prerelease [] with
              | inr e => inr e
              | inl pre =>
              match parseBuild build [] with
              | inr e => inr e
              | inl bld => inl (mkVersion major minor patch pre bld)
              end end end
          end end
      | _ => inr ErrNoElements
      end
  end.

(** [Make] is an alias of [Parse]. *)
Definition Make (s : string) : Version + error := Parse s.

(** [PRVersion.String]. *)
Definition PRVersion_String (v : PRVersion) : string :=
  if IsNum v then strconv.FormatUint (VersionNum v) else VersionStr v.

(** [Version.String]. *)
Definition String_ (v : Version) : string :=
  let b := strconv.FormatUint (Major v) ++ "." ++
           strconv.FormatUint (Minor v) ++ "." ++
           strconv.FormatUint (Patch v) in
  let b :=
    match Pre v with
    | [] => b
    | _ => b ++ "-" ++ strings.Join (map PRVersion_String (Pre v)) "."
    end in
  match Build v with
  | [] => b
  | _ => b ++ "+" ++ strings.Join (Build v) "."
  end.

End semver.

(** ** Package time *)

Module time.

(** A location is UTC, the process's local zone, or a zone made by
    [FixedZone]. *)
Inductive Location :=
| UTC
| Local
| FixedZone (name : string) (offset : Z).

(** What the local zone database answers: [lookup] gives the zone name
    and the offset in seconds east of UTC in use at an instant,
    [lookupName] the offset that goes with an abbreviation, if the local
    zone knows it. *)
Record Zones := mkZones {
  lookup : Z -> string * Z;
  lookupName : string -> Z -> option Z
}.

(** A [Time] is an instant, seconds and nanoseconds since the Unix epoch,
    and the location it is presented in. *)
Record Time := mkTime {
  unixSec : Z;
  nsec : Z;
  loc : Location
}.

Definition secondsPerMinute : Z := 60.
Definition secondsPerHour : Z := 60 * secondsPerMinute.
Definition secondsPerDay : Z := 24 * secondsPerHour.
Definition daysPer400Years : Z := 365 * 400 + 97.
Definition daysPer100Years : Z := 365 * 100 + 24.
Definition daysPer4Years : Z := 365 * 4 + 1.

Definition absoluteZeroYear : Z := -292277022399.
Definition internalYear : Z := 1.
Definition absoluteToInternal : Z :=
  (absoluteZeroYear - internalYear) * 31556952.
Definition internalToAbsolute : Z := - absoluteToInternal.
Definition unixToInternal : Z :=
  (1969 * 365 + 1969 / 4 - 1969 / 100 + 1969 / 400) * secondsPerDay.
Definition internalToUnix : Z := - unixToInternal.

(** The zero [Time]: January 1, year 1, 00:00:00 UTC. *)
Definition zeroTime : Time := mkTime internalToUnix 0 UTC.

Definition addSec (t : Time) (d : Z) : Time :=
  mkTime (unixSec t + d) (nsec t) (loc t).

Definition setLoc (t : Time) (l : Location) : Time :=
  mkTime (unixSec t) (nsec t) l.

(** [t.Equal(u)]: the same instant, whatever the locations. *)
Definition Equal (t u : Time) : Prop :=
  unixSec t = unixSec u /\ nsec t = nsec u.

(** *** The calendar *)

Definition daysBefore : list Z :=
  [0; 31; 59; 90; 120; 151; 181; 212; 243; 273; 304; 334; 365].

Definition daysBeforeAt (m : Z) : Z := nth (Z.to_nat m) daysBefore 0.

Definition isLeap (year : Z) : bool :=
  (Z.rem year 4 =? 0) &&
  (negb (Z.rem year 100 =? 0) || (Z.rem year 400 =? 0)).

Definition daysIn (m year : Z) : Z :=
  if (m =? 2) && isLeap year then 29
  else daysBeforeAt m - daysBeforeAt (m - 1).

Definition norm (hi lo base : Z) : Z * Z :=
  let '(hi, lo) :=
    if lo <? 0 then
      let n := Z.quot (- lo - 1) base + 1 in (hi - n, lo + n * base)
    else (hi, lo) in
  if base <=? lo then
    let n := Z.quot lo base in (hi + n, lo - n * base)
  else (hi, lo).

(** Days from the absolute epoch to January 1 of [year]. *)
Definition daysSinceEpoch (year : Z) : Z :=
  let y := year - absoluteZeroYear in
  let n := y / 400 in
  let y := y - 400 * n in
  let d := daysPer400Years * n in
  let n := y / 100 in
  let y := y - 100 * n in
  let d := d + daysPer100Years * n in
  let n := y / 4 in
  let y := y - 4 * n in
  let d := d + daysPer4Years * n in
  let n := y in
  d + 365 * n.

(** [Date(year, month, day, hour, min, sec, nsec, UTC)]: the parser only
    ever builds a time in UTC and shifts it afterwards. *)
Definition Date (year month day hour min sec nsec : Z) : Time :=
  let m := month - 1 in
  let '(year, m) := norm year m 12 in
  let month := m + 1 in
  let '(sec, nsec) := norm sec nsec 1000000000 in
  let '(min, sec) := norm min sec 60 in
  let '(hour, min) := norm hour min 60 in
  let '(day, hour) := norm day hour 24 in
  let d := daysSinceEpoch year in
  let d := d + daysBeforeAt (month - 1) in
  let d := if isLeap year && (3 <=? month) then d + 1 else d in
  let d := d + (day - 1) in
  let abs := d * secondsPerDay in
  let abs := abs + (hour * secondsPerHour + min * secondsPerMinute + sec) in
  let unix := abs + (absoluteToInternal + internalToUnix) in
  mkTime unix nsec UTC.

(** [absDate(abs, false)]: the year of an absolute time and the day
    within that year, counted from 0. *)
Definition absYearDay (abs : Z) : Z * Z :=
  let d := abs / secondsPerDay in
  let n := d / daysPer400Years in
  let y := 400 * n in
  let d := d - daysPer400Years * n in
  let n := d / daysPer100Years in
  let n := n - Z.shiftr n 2 in
  let y := y + 100 * n in
  let d := d - daysPer100Years * n in
  let n := d / daysPer4Years in
  let y := y + 4 * n in
  let d := d - daysPer4Years * n in
  let n := d / 365 in
  let n := n - Z.shiftr n 2 in
  let y := y + n in
  let d := d - 365 * n in
  (y + absoluteZeroYear, d).

(** What [absDate(abs, true)] goes on with: month and day of the month for
    a day of the year, in a leap year or not. *)
Definition monthDay (leap : bool) (yday : Z) : Z * Z :=
  let day := yday in
  if leap && (day =? 31 + 29 - 1) then (2, 29)
  else
    let day := if leap && (31 + 29 - 1 <? day) then day - 1 else day in
    let month := Z.quot day 31 in
    let end_ := daysBeforeAt (month + 1) in
    let '(month, begin) :=
      if end_ <=? day then (month + 1, end_)
      else (month, daysBeforeAt month) in
    (month + 1, day - begin + 1).

(** [absDate(abs, true)]: year, month and day of an absolute time. *)
Definition absDate (abs : Z) : Z * Z * Z :=
  let '(year, yday) := absYearDay abs in
  let '(month, day) := monthDay (isLeap year) yday in
  (year, month, day).

Definition absClock (abs : Z) : Z * Z * Z :=
  let sec := abs mod secondsPerDay in
  let hour := Z.quot sec secondsPerHour in
  let sec := sec - hour * secondsPerHour in
  let min := Z.quot sec secondsPerMinute in
  let sec := sec - min * secondsPerMinute in
  (hour, min, sec).

(** [t.locabs()]: the offset in use at [t] and the absolute time shifted
    by it. *)
Definition locabs (zones : Zones) (t : Time) : Z * Z :=
  let sec := unixSec t in
  let offset :=
    match loc t with
    | UTC => 0
    | Local => snd (lookup zones sec)
    | FixedZone _ off => off
    end in
  (offset, sec + offset + (unixToInternal + internalToAbsolute)).

(** *** Parsing *)

Inductive ParseError :=
| ErrBad (layoutElem valueElem : string)
| ErrOutOfRange (what : string)
| ErrExtraText (rest : string).

(** The elements of the two layouts in use:
    [UnixDate = "Mon Jan _2 15:04:05 MST 2006"] and
    [RFC3339 = "2006-01-02T15:04:05Z07:00"]. *)
Inductive std :=
| stdLongYear | stdMonth | stdZeroMonth | stdWeekDay
| stdUnderDay | stdZeroDay | stdHour | stdZeroMinute | stdZeroSecond
| stdTZ | stdISO8601ColonTZ.

(** A layout as [nextStdChunk] cuts it: literal prefix and element, in
    order; nothing follows the last element of either layout. *)
Definition UnixDate : list (string * std) :=
  [("", stdWeekDay); (" ", stdMonth); (" ", stdUnderDay); (" ", stdHour);
   (":", stdZeroMinute); (":", stdZeroSecond); (" ", stdTZ);
   (" ", stdLongYear)].

Definition RFC3339 : list (string * std) :=
  [("", stdLongYear); ("-", stdZeroMonth); ("-", stdZeroDay);
   ("T", stdHour); (":", stdZeroMinute); (":", stdZeroSecond);
   ("", stdISO8601ColonTZ)].

Definition stdName (s : std) : string :=
  match s with
  | stdLongYear => "2006" | stdMonth => "Jan" | stdZeroMonth => "01"
  | stdWeekDay => "Mon" | stdUnderDay => "_2" | stdZeroDay => "02"
  | stdHour => "15" | stdZeroMinute => "04" | stdZeroSecond => "05"
  | stdTZ => "MST" | stdISO8601ColonTZ => "Z07:00"
  end.

Definition shortDayNames : list string :=
  ["Sun"; "Mon"; "Tue"; "Wed"; "Thu"; "Fri"; "Sat"].

Definition shortMonthNames : list string :=
  ["Jan"; "Feb"; "Mar"; "Apr"; "May"; "Jun";
   "Jul"; "Aug"; "Sep"; "Oct"; "Nov"; "Dec"].

(** [isDigit(s, i)]. *)
Definition isDigit (s : string) (i : nat) : bool :=
  match String.get i s with
  | Some c => isDigitByte c
  | None => false
  end.

Definition isUpper (c : ascii) : bool :=
  (65 <=? byte_val c) && (byte_val c <=? 90).

Definition commaOrPeriod (c : ascii) : bool :=
  Ascii.eqb c "." || Ascii.eqb c ",".

(** [match(s1, s2)]: equal up to the case of ASCII letters; the lengths
    are equal at every call. *)
Fixpoint match_ (s1 s2 : string) : bool :=
  match s1, s2 with
  | String c1 r1, String c2 r2 =>
      (if Ascii.eqb c1 c2 then true
       else
         let c1 := Z.lor (byte_val c1) 32 in
         let c2 := Z.lor (byte_val c2) 32 in
         (c1 =? c2) && (97 <=? c1) && (c1 <=? 122))
      && match_ r1 r2
  | _, _ => true
  end.

(** [lookup(tab, val)]: index of the first name [val] starts with. *)
Fixpoint lookupTab (tab : list string) (i : Z) (val : string)
  : option (Z * string) :=
  match tab with
  | [] => None
  | v :: tab' =>
      let n := String.length v in
      if (Nat.leb n (String.length val)) && match_ (sliceTo n val) v
      then Some (i, sliceFrom n val)
      else lookupTab tab' (i + 1) val
  end.

Fixpoint cutspace (s : string) : string :=
  match s with
  | String " " s' => cutspace s'
  | _ => s
  end.

(** [skip(value, prefix)]: a space of the prefix stands for any run of
    spaces of the value.  [fuel] bounds the iterations by the length of
    the prefix. *)
Fixpoint skip (fuel : nat) (value prefix : string) : option string :=
  match fuel with
  | O => match prefix with EmptyString => Some value | _ => None end
  | S fuel' =>
      match prefix with
      | EmptyString => Some value
      | String " " _ =>
          match value with
          | String c _ =>
              if Ascii.eqb c " "
              then skip fuel' (cutspace value) (cutspace prefix)
              else None
          | EmptyString => skip fuel' (cutspace value) (cutspace prefix)
          end
      | String p prefix' =>
          match value with
          | String c value' =>
              if Ascii.eqb c p then skip fuel' value' prefix' else None
          | EmptyString => None
          end
      end
  end.

(** [getnum(s, fixed)]: one or two digits, exactly two when [fixed]. *)
Definition getnum (s : string) (fixed : bool) : option (Z * string) :=
  if negb (isDigit s 0) then None
  else if negb (isDigit s 1) then
    if fixed then None
    else match s with
         | String c0 r => Some (digitVal c0, r)
         | EmptyString => None
         end
  else match s with
       | String c0 (String c1 r) => Some (digitVal c0 * 10 + digitVal c1, r)
       | _ => None
       end.

(** [leadingInt(s)]: the leading digits of [s] as a number and the rest;
    fails when the number passes 2^63. *)
Fixpoint leadingInt (s : string) (x : Z) : option (Z * string) :=
  match s with
  | String c s' =>
      if isDigitByte c then
        if 2 ^ 63 / 10 <? x then None
        else
          let x := x * 10 + byte_val c - 48 in
          if 2 ^ 63 <? x then None else leadingInt s' x
      else Some (x, s)
  | EmptyString => Some (x, s)
  end.

Definition atoi (s : string) : option Z :=
  let '(neg, s) :=
    match s with
    | String c s' =>
        if Ascii.eqb c "-" || Ascii.eqb c "+"
        then (Ascii.eqb c "-", s') else (false, s)
    | EmptyString => (false, s)
    end in
  match leadingInt s 0 with
  | Some (q, EmptyString) => Some (if neg then - q else q)
  | _ => None
  end.

(** [parseSignedOffset(value)] for a non-empty [value]: the length of a
    sign followed by a number of hours up to 23, or 0. *)
Definition parseSignedOffset (value : string) : nat :=
  match value with
  | String sign rest =>
      if negb (Ascii.eqb sign "-" || Ascii.eqb sign "+") then O
      else match leadingInt rest 0 with
           | None => O
           | Some (x, rem) =>
               if String.eqb rest rem then O
               else if 23 <? x then O
               else (String.length value - String.length rem)%nat
           end
  | EmptyString => O
  end.

Definition parseGMT (value : string) : nat :=
  let value := sliceFrom 3 value in
  match value with
  | EmptyString => 3%nat
  | _ => (3 + parseSignedOffset value)%nat
  end.

(** The number of leading upper-case letters, counted up to six. *)
Fixpoint countUpper (fuel : nat) (value : string) : nat :=
  match fuel, value with
  | S fuel', String c value' =>
      if isUpper c then S (countUpper fuel' value') else O
  | _, _ => O
  end.

(** [parseTimeZone(value)]: the length of the zone abbreviation [value]
    starts with, if it starts with one. *)
Definition parseTimeZone (value : string) : option nat :=
  if Nat.ltb (String.length value) 3 then None
  else if Nat.leb 4 (String.length value)
          && (String.eqb (sliceTo 4 value) "ChST"
              || String.eqb (sliceTo 4 value) "MeST")
  then Some 4%nat
  else if String.eqb (sliceTo 3 value) "GMT" then Some (parseGMT value)
  else
    match value with
    | String c _ =>
        if Ascii.eqb c "+" || Ascii.eqb c "-" then
          let length := parseSignedOffset value in
          if Nat.ltb 0 length then Some length else None
        else
          match countUpper 6 value with
          | 5%nat =>
              match String.get 4 value with
              | Some "T"%char => Some 5%nat
              | _ => None
              end
          | 4%nat =>
              match String.get 3 value with
              | Some c3 =>
                  if Ascii.eqb c3 "T" || String.eqb (sliceTo 4 value) "WITA"
                  then Some 4%nat else None
              | None => None
              end
          | 3%nat => Some 3%nat
          | _ => None
          end
    | EmptyString => None
    end.

(** The length of the fractional second [value] starts with: a separator
    and the digits after it. *)
Fixpoint digitsRun (s : string) : nat :=
  match s with
  | String c s' => if isDigitByte c then S (digitsRun s') else O
  | EmptyString => O
  end.

Fixpoint scale10 (n : nat) (x : Z) : Z :=
  match n with
  | O => x
  | S n' => scale10 n' (x * 10)
  end.

(** [parseNanoseconds(value, nbytes)]: at most nine digits count. *)
Definition parseNanoseconds (value : string) (nbytes : nat)
  : option Z :=
  match value with
  | String c _ =>
      if negb (commaOrPeriod c) then None
      else
        let '(value, nbytes) :=
          if Nat.ltb 10 nbytes then (sliceTo 10 value, 10%nat)
          else (value, nbytes) in
        match atoi (sliceFrom 1 (sliceTo nbytes value)) with
        | None => None
        | Some ns => Some (scale10 (10 - nbytes) ns)
        end
  | EmptyString => None
  end.

(** The variables [parse] fills in while it walks the layout. *)
Record parsed := mkParsed {
  p_year : Z;
  p_month : Z;
  p_day : Z;
  p_hour : Z;
  p_min : Z;
  p_sec : Z;
  p_nsec : Z;
  p_z : option Location;
  p_zoneOffset : Z;
  p_zoneName : string
}.

Definition parsed0 : parsed :=
  mkParsed 0 (-1) (-1) 0 0 0 0 None (-1) EmptyString.

Definition set_year v (p : parsed) :=
  mkParsed v (p_month p) (p_day p) (p_hour p) (p_min p) (p_sec p)
           (p_nsec p) (p_z p) (p_zoneOffset p) (p_zoneName p).
Definition set_month v (p : parsed) :=
  mkParsed (p_year p) v (p_day p) (p_hour p) (p_min p) (p_sec p)
           (p_nsec p) (p_z p) (p_zoneOffset p) (p_zoneName p).
Definition set_day v (p : parsed) :=
  mkParsed (p_year p) (p_month p) v (p_hour p) (p_min p) (p_sec p)
           (p_nsec p) (p_z p) (p_zoneOffset p) (p_zoneName p).
Definition set_hour v (p : parsed) :=
  mkParsed (p_year p) (p_month p) (p_day p) v (p_min p) (p_sec p)
           (p_nsec p) (p_z p) (p_zoneOffset p) (p_zoneName p).
Definition set_min v (p : parsed) :=
  mkParsed (p_year p) (p_month p) (p_day p) (p_hour p) v (p_sec p)
           (p_nsec p) (p_z p) (p_zoneOffset p) (p_zoneName p).
Definition set_sec v (p : parsed) :=
  mkParsed (p_year p) (p_month p) (p_day p) (p_hour p) (p_min p) v
           (p_nsec p) (p_z p) (p_zoneOffset p) (p_zoneName p).
Definition set_nsec v (p : parsed) :=
  mkParsed (p_year p) (p_month p) (p_day p) (p_hour p) (p_min p) (p_sec p)
           v (p_z p) (p_zoneOffset p) (p_zoneName p).
Definition set_z v (p : parsed) :=
  mkParsed (p_year p) (p_month p) (p_day p) (p_hour p) (p_min p) (p_sec p)
           (p_nsec p) v (p_zoneOffset p) (p_zoneName p).
Definition set_zoneOffset v (p : parsed) :=
  mkParsed (p_year p) (p_month p) (p_day p) (p_hour p) (p_min p) (p_sec p)
           (p_nsec p) (p_z p) v (p_zoneName p).
Definition set_zoneName v (p : parsed) :=
  mkParsed (p_year p) (p_month p) (p_day p) (p_hour p) (p_min p) (p_sec p)
           (p_nsec p) (p_z p) (p_zoneOffset p) v.

(** One layout element against the head of [value]: the [switch] of the
    parsing loop.  A range error is reported before a syntax error, as
    the two tests after the [switch] do. *)
Definition parseStd (s : std) (value : string) (p : parsed)
  : parsed * string + ParseError :=
  let bad := inr (ErrBad (stdName s) value) in
  match s with
  | stdLongYear =>
      if Nat.ltb (String.length value) 4 || negb (isDigit value 0) then bad
      else match atoi (sliceTo 4 value) with
           | Some year => inl (set_year year p, sliceFrom 4 value)
           | None => bad
           end
  | stdMonth =>
      match lookupTab shortMonthNames 0 value with
      | Some (month, value') => inl (set_month (month + 1) p, value')
      | None => bad
      end
  | stdZeroMonth =>
      match getnum value true with
      | Some (month, value') =>
          if (month <=? 0) || (12 <? month)
          then inr (ErrOutOfRange "month")
          else inl (set_month month p, value')
      | None => bad
      end
  | stdWeekDay =>
      match lookupTab shortDayNames 0 value with
      | Some (_, value') => inl (p, value')
      | None => bad
      end
  | stdUnderDay | stdZeroDay =>
      let value1 :=
        match s, value with
        | stdUnderDay, String " " value' => value'
        | _, _ => value
        end in
      match getnum value1 (match s with stdZeroDay => true | _ => false end)
      with
      | Some (day, value') => inl (set_day day p, value')
      | None => bad
      end
  | stdHour =>
      match getnum value false with
      | Some (hour, value') =>
          if (hour <? 0) || (24 <=? hour) then inr (ErrOutOfRange "hour")
          else inl (set_hour hour p, value')
      | None => bad
      end
  | stdZeroMinute =>
      match getnum value true with
      | Some (min, value') =>
          if (min <? 0) || (60 <=? min) then inr (ErrOutOfRange "minute")
          else inl (set_min min p, value')
      | None => bad
      end
  | stdZeroSecond =>
      match getnum value true with
      | Some (sec, value') =>
          if (sec <? 0) || (60 <=? sec) then inr (ErrOutOfRange "second")
          else
            (* a fractional second the layout does not announce *)
            match value' with
            | String c0 rest =>
                if commaOrPeriod c0 && isDigit value' 1 then
                  let n := S (digitsRun rest) in
                  match parseNanoseconds value' n with
                  | Some nsec =>
                      inl (set_nsec nsec (set_sec sec p),
                           sliceFrom n value')
                  | None => bad
                  end
                else inl (set_sec sec p, value')
            | EmptyString => inl (set_sec sec p, value')
            end
      | None => bad
      end
  | stdTZ =>
      if Nat.leb 3 (String.length value)
         && String.eqb (sliceTo 3 value) "UTC"
      then inl (set_z (Some UTC) p, sliceFrom 3 value)
      else match parseTimeZone value with
           | Some n => inl (set_zoneName (sliceTo n value) p,
                            sliceFrom n value)
           | None => bad
           end
  | stdISO8601ColonTZ =>
      match value with
      | String "Z" value' => inl (set_z (Some UTC) p, value')
      | _ =>
          if Nat.ltb (String.length value) 6 then bad
          else match String.get 3 value with
          | Some ":"%char =>
              let sign := sliceTo 1 value in
              let hour := sliceTo 2 (sliceFrom 1 value) in
              let min := sliceTo 2 (sliceFrom 4 value) in
              let value' := sliceFrom 6 value in
              (* [getnum] returns 0 with its error, and the minutes are
                 read only when the hours were *)
              let '(hr, err) :=
                match getnum hour true with
                | Some (hr, _) => (hr, false)
                | None => (0, true)
                end in
              let '(mm, err) :=
                if err then (0, true)
                else match getnum min true with
                     | Some (mm, _) => (mm, false)
                     | None => (0, true)
                     end in
              (* the range tests run one after the other, the last one
                 that fails names the error; the seconds are "00" *)
              let rangeErr :=
                if 24 <? hr then Some "time zone offset hour" else None in
              let rangeErr :=
                if 60 <? mm then Some "time zone offset minute"
                else rangeErr in
              let zoneOffset := (hr * 60 + mm) * 60 + 0 in
              let '(zoneOffset, err) :=
                if String.eqb sign "+" then (zoneOffset, err)
                else if String.eqb sign "-" then (- zoneOffset, err)
                else (zoneOffset, true) in
              match rangeErr with
              | Some what => inr (ErrOutOfRange what)
              | None =>
                  if err then bad
                  else inl (set_zoneOffset zoneOffset p, value')
              end
          | _ => bad
          end
      end
  end.

(** The loop of [parse]: skip the literal prefix, read the element. *)
Fixpoint parseLoop (layout : list (string * std)) (value : string)
                   (p : parsed) : parsed + ParseError :=
  match layout with
  | [] =>
      match value with
      | EmptyString => inl p
      | _ => inr (ErrExtraText value)
      end
  | (prefix, s) :: layout' =>
      match skip (S (String.length prefix)) value prefix with
      | None => inr (ErrBad prefix value)
      | Some value1 =>
          match parseStd s value1 p with
          | inr e => inr e
          | inl (p', value2) => parseLoop layout' value2 p'
          end
      end
  end.

(** [Parse(layout, value)]: what follows the loop.  The default location
    of [Parse] is UTC. *)
Definition Parse (zones : Zones) (layout : list (string * std))
                 (value : string) : Time + ParseError :=
  match parseLoop layout value parsed0 with
  | inr e => inr e
  | inl p =>
      let month := if p_month p <? 0 then 1 else p_month p in
      let day := if p_day p <? 0 then 1 else p_day p in
      if (day <? 1) || (daysIn month (p_year p) <? day)
      then inr (ErrOutOfRange "day")
      else
        let t := Date (p_year p) month day (p_hour p) (p_min p) (p_sec p)
                      (p_nsec p) in
        match p_z p with
        | Some _ => inl t
        | None =>
            if negb (p_zoneOffset p =? -1) then
              let t := addSec t (- p_zoneOffset p) in
              let '(name, offset) := lookup zones (unixSec t) in
              if (offset =? p_zoneOffset p)
                 && (String.eqb (p_zoneName p) EmptyString
                     || String.eqb name (p_zoneName p))
              then inl (setLoc t Local)
              else inl (setLoc t (FixedZone (p_zoneName p) (p_zoneOffset p)))
            else if negb (String.eqb (p_zoneName p) EmptyString) then
              match lookupName zones (p_zoneName p) (unixSec t) with
              | Some offset => inl (setLoc (addSec t (- offset)) Local)
              | None =>
                  let offset :=
                    if Nat.ltb 3 (String.length (p_zoneName p))
                       && String.eqb (sliceTo 3 (p_zoneName p)) "GMT"
                    then match atoi (sliceFrom 3 (p_zoneName p)) with
                         | Some h => h * 3600
                         | None => 0
                         end
                    else 0 in
                  inl (setLoc t (FixedZone (p_zoneName p) offset))
              end
            else inl t
        end
  end.

(** *** Formatting *)

(** [appendInt(b, x, width)]: the decimal digits of [x], padded with
    zeros to [width], after a minus sign when [x] is negative. *)
Fixpoint zeros (n : nat) : string :=
  match n with
  | O => EmptyString
  | S n' => String "0" (zeros n')
  end.

Definition appendInt (x : Z) (width : nat) : string :=
  let u := Z.abs x in
  let digits := strconv.FormatUint u in
  (if x <? 0 then "-" else "")
    ++ zeros (width - String.length digits) ++ digits.

(** [t.Format(RFC3339)]. *)
Definition FormatRFC3339 (zones : Zones) (t : Time) : string :=
  let '(offset, abs) := locabs zones t in
  let '(year, month, day) := absDate abs in
  let '(hour, min, sec) := absClock abs in
  let b := appendInt year 4 ++ "-" ++ appendInt month 2 ++ "-"
           ++ appendInt day 2 ++ "T" ++ appendInt hour 2 ++ ":"
           ++ appendInt min 2 ++ ":" ++ appendInt sec 2 in
  if offset =? 0 then b ++ "Z"
  else
    let zone := Z.quot offset 60 in
    let '(b, zone) :=
      if zone <? 0 then (b ++ "-", - zone) else (b ++ "+", zone) in
    b ++ appendInt (Z.quot zone 60) 2 ++ ":" ++ appendInt (Z.rem zone 60) 2.

End time.


(** ** Package fmt, as far as [NewVersion] and [Pre] use it *)

Module fmt.

Definition dquote : string := String "034"%char EmptyString.

(** [Sprintf("%v", x)] for a [PRVersion]: the type has a [String] method,
    which the verb calls. *)
Definition Sprint_PRVersion (x : semver.PRVersion) : string :=
  semver.PRVersion_String x.

(** [Sprintf("%+v", xs)] for a slice of [PRVersion]: the elements, each
    printed through its [String] method, between brackets with one space
    between two of them. *)
Definition Sprint_Pre (xs : list semver.PRVersion) : string :=
  "[" ++ strings.Join (map Sprint_PRVersion xs) " " ++ "]".

End fmt.

(** ** Package govee *)

(** What a call yields: a value, or a run-time panic. *)
Inductive outcome (A : Type) :=
| Returns (a : A)
| Panics (msg : string).

Arguments Returns {A} a.
Arguments Panics {A} msg.

(** [int(x)] for an unsigned 64-bit [x], [int] being 64 bits wide: the
    same bits read as a two's complement number. *)
Definition int_of_uint64 (x : Z) : Z := (x + 2 ^ 63) mod 2 ^ 64 - 2 ^ 63.

Module VersionConfig.

Record t := mk {
  VersionString : string;
  GitHash : string;
  GitBranch : string;
  GitUser : string;
  OS : string;
  Arch : string;
  Compiler : string;
  Release : string;
  TStamp : string
}.

End VersionConfig.

Module govee.

(** The value an [error] returned by [NewVersion] can hold: what
    [semver.Make] or what [time.Parse] returned. *)
Inductive error :=
| SemverError (e : semver.error)
| TimeError (e : time.ParseError).

Record Version := mkVersion {
  semver : semver.Version;
  githash : string;
  gitbranch : string;
  gituser : string;
  os : string;
  arch : string;
  compiler : string;
  release : string;
  timestamp : time.Time;
  warnings : list string;
  err : option error
}.

(** The zero value [Version{}]. *)
Definition zeroVersion : Version :=
  mkVersion (semver.mkVersion 0 0 0 [] []) "" "" "" "" "" "" ""
            time.zeroTime [] None.

Definition preWarning (pre : list semver.PRVersion) : string :=
  "This version is tagged as a pre-release " ++ fmt.dquote
    ++ fmt.Sprint_Pre pre ++ fmt.dquote
    ++ ". Please don't use in production.".

Definition releaseWarning (release : string) : string :=
  "This version is tagged as release " ++ fmt.dquote
    ++ release ++ fmt.dquote
    ++ ". Please don't use in production.".

(** Assignments to the fields of the record under construction. *)
Definition set_strings (c : VersionConfig.t) (v : Version) : Version :=
  mkVersion (semver v)
            (VersionConfig.GitHash c) (VersionConfig.GitBranch c)
            (VersionConfig.GitUser c) (VersionConfig.OS c)
            (VersionConfig.Arch c) (VersionConfig.Compiler c)
            (VersionConfig.Release c)
            (timestamp v) (warnings v) (err v).

Definition set_semver (sv : semver.Version) (v : Version) : Version :=
  mkVersion sv (githash v) (gitbranch v) (gituser v) (os v)
            (arch v) (compiler v) (release v) (timestamp v) (warnings v)
            (err v).

Definition set_timestamp (ts : time.Time) (v : Version) : Version :=
  mkVersion (semver v) (githash v) (gitbranch v) (gituser v) (os v)
            (arch v) (compiler v) (release v) ts (warnings v) (err v).

Definition set_warnings (w : list string) (v : Version) : Version :=
  mkVersion (semver v) (githash v) (gitbranch v) (gituser v) (os v)
            (arch v) (compiler v) (release v) (timestamp v) w (err v).

Section NewVersion.

(** The zone database of the running process, which [time.Parse]
    consults for zone abbreviations. *)
Variable zones : time.Zones.

Definition NewVersion (c : VersionConfig.t) : Version * option error :=
  let v := zeroVersion in
  let v := set_strings c v in
  match semver.Make (VersionConfig.VersionString c) with
  | inr e => (zeroVersion, Some (SemverError e))
  | inl sv =>
      let v := set_semver sv v in
      match time.Parse zones time.UnixDate (VersionConfig.TStamp c) with
      | inr e => (zeroVersion, Some (TimeError e))
      | inl ts =>
          let v := set_timestamp ts v in
          let v :=
            if 0 <? Z.of_nat (List.length (semver.Pre (semver v)))
            then set_warnings
                   (warnings v ++ [preWarning (semver.Pre (semver v))]) v
            else v in
          let v :=
            if negb (String.eqb (release v) "production")
               && negb (String.eqb (release v) "prod")
            then set_warnings
                   (warnings v ++ [releaseWarning (release v)]) v
            else v in
          (v, None)
      end
  end.

(** [TStamp]: the timestamp in the RFC 3339 layout. *)
Definition TStamp (v : Version) : string :=
  time.FormatRFC3339 zones (timestamp v).

End NewVersion.

Definition String_ (v : Version) : string := semver.String_ (semver v).
Definition Semver (v : Version) : string := semver.String_ (semver v).
Definition Major (v : Version) : Z := int_of_uint64 (semver.Major (semver v)).
Definition Minor (v : Version) : Z := int_of_uint64 (semver.Minor (semver v)).
Definition Patch (v : Version) : Z := int_of_uint64 (semver.Patch (semver v)).

(** [Pre] indexes the pre-release sequence at 0: an empty sequence makes
    the index expression panic. *)
Definition Pre (v : Version) : outcome string :=
  match semver.Pre (semver v) with
  | x :: _ => Returns (fmt.Sprint_PRVersion x)
  | [] => Panics "runtime error: index out of range [0] with length 0"
  end.

Definition Warnings (v : Version) : list string := warnings v.
Definition Err (v : Version) : option error := err v.
Definition GitHash (v : Version) : string := githash v.
Definition GitBranch (v : Version) : string := gitbranch v.
Definition GitUser (v : Version) : string := gituser v.
Definition OS (v : Version) : string := os v.
Definition Arch (v : Version) : string := arch v.
Definition Release (v : Version) : string := release v.
Definition Compiler (v : Version) : string := compiler v.

End govee.

(** ** The configurations of the package's tests *)

(** A process whose local zone is UTC: no abbreviation but "UTC" is known,
    and that one the parser handles before asking. *)
Definition utcZones : time.Zones :=
  time.mkZones (fun _ => ("UTC", 0)) (fun _ _ => None).

Definition testConfig (version release : string) : VersionConfig.t :=
  VersionConfig.mk version "1234567890abcdef" "testing" "Jane Doe" "linux"
                   "amd64" "go1.11.1" release
                   "Thu Feb 14 15:04:05 SAST 2019".

Definition testConfigAt (version release tstamp : string)
  : VersionConfig.t :=
  VersionConfig.mk version "1234567890abcdef" "testing" "Jane Doe" "linux"
                   "amd64" "go1.11.1" release tstamp.

(** A process in South Africa: the local zone is SAST, two hours east of
    UTC, all year round. *)
Definition sastZones : time.Zones :=
  time.mkZones (fun _ => ("SAST", 7200))
               (fun name _ => if String.eqb name "SAST" then Some 7200
                              else None).

(** A process whose local zone shows local mean time, 1 h 52 min 8 s east
    of UTC, under the abbreviation LMT. *)
Definition lmtZones : time.Zones :=
  time.mkZones (fun _ => ("LMT", 6728))
               (fun name _ => if String.eqb name "LMT" then Some 6728
                              else None).

(** The record [NewVersion] returns for a test configuration, in a process
    whose local zone is UTC. *)
Definition built (version release : string) : govee.Version :=
  fst (govee.NewVersion utcZones (testConfig version release)).

(** The two kinds of construction failure. *)
Inductive errorKind := InvalidSemver | InvalidTimestamp.

Definition kindOf (e : govee.error) : errorKind :=
  match e with
  | govee.SemverError _ => InvalidSemver
  | govee.TimeError _ => InvalidTimestamp
  end.

(** The two checks of [NewVersion] that append a warning. *)
Definition preCheck (v : govee.Version) : bool :=
  negb (Nat.eqb (List.length (semver.Pre (govee.semver v))) 0).

Definition releaseCheck (v : govee.Version) : bool :=
  negb (String.eqb (govee.release v) "production")
  && negb (String.eqb (govee.release v) "prod").

(** A string of decimal digits only. *)
Fixpoint allDigits (s : string) : bool :=
  match s with
  | EmptyString => true
  | String c s' => isDigitByte c && allDigits s'
  end.

(** The version string "X.Y.Z" of three numbers. *)
Definition versionXYZ (x y z : Z) : string :=
  strconv.FormatUint x ++ "." ++ strconv.FormatUint y ++ "."
    ++ strconv.FormatUint z.

(** A numeral the parser takes as the number [x]: digits only, no leading
    zero, read as [x] by [ParseUint]. *)
Definition numeral (s : string) (x : Z) : Prop :=
  allDigits s = true /\
  semver.hasLeadingZeroes s = false /\
  strconv.ParseUint s = inl x.

(** The rendering of the pre-release identifiers as the specification
    words it: between brackets, the identifiers separated by [sep], a
    separator with a comma in it. *)
Definition commaSeparatedPre (sep : string) (xs : list semver.PRVersion)
  : string :=
  "[" ++ strings.Join (map semver.PRVersion_String xs) sep ++ "]".

Definition preWarningText (rendering : string) : string :=
  "This version is tagged as a pre-release " ++ fmt.dquote
    ++ rendering ++ fmt.dquote ++ ". Please don't use in production.".

(** ** Notions used to state the round trip of the timestamp *)

(** [f] holds of the [n] numbers from [start] on. *)
Fixpoint allFrom (f : Z -> bool) (n : nat) (start : Z) : bool :=
  match n with
  | O => true
  | S n' => f start && allFrom f n' (start + 1)
  end.

(** The day number [Date] computes for a calendar date, counted from the
    absolute epoch. *)
Definition daysOfDate (year month day : Z) : Z :=
  time.daysSinceEpoch year + time.daysBeforeAt (month - 1)
  + (if time.isLeap year && (3 <=? month) then 1 else 0) + (day - 1).

Definition validDate (year month day : Z) : bool :=
  (1 <=? month) && (month <=? 12) && (1 <=? day)
  && (day <=? time.daysIn month year).

(** The days of a year, as many as it has. *)
Definition daysInYear (leap : bool) : Z := if leap then 366 else 365.

(** [monthDay] gives a day of a month of the calendar, and that day is the
    day of the year it was given. *)
Definition monthDayOk (leap : bool) (yday : Z) : bool :=
  let '(m, d) := time.monthDay leap yday in
  (1 <=? m) && (m <=? 12) && (1 <=? d)
  && (d <=? (if (m =? 2) && leap then 29
             else time.daysBeforeAt m - time.daysBeforeAt (m - 1)))
  && (time.daysBeforeAt (m - 1) + (if leap && (3 <=? m) then 1 else 0)
      + (d - 1) =? yday).

(** A number below 100 in two digits, a number below 10000 in four. *)
Definition twoDigits (x : Z) : string :=
  String (digitByte (x / 10)) (String (digitByte (x mod 10)) EmptyString).

Definition fourDigits (x : Z) : string :=
  String (digitByte (x / 1000))
    (String (digitByte (x / 100 mod 10)) (twoDigits (x mod 100))).

(** The offset east of UTC in use at [t], and the year [t] falls in when
    read with that offset. *)
Definition zoneOffsetAt (zones : time.Zones) (t : time.Time) : Z :=
  fst (time.locabs zones t).

Definition yearShown (zones : time.Zones) (t : time.Time) : Z :=
  fst (fst (time.absDate (snd (time.locabs zones t)))).

(** The text of the RFC 3339 layout for given fields, and the text of the
    zone for an offset in seconds. *)
Definition rfc3339Text (y m d h mi s : Z) (zone : string) : string :=
  fourDigits y ++ "-" ++ twoDigits m ++ "-" ++ twoDigits d ++ "T"
    ++ twoDigits h ++ ":" ++ twoDigits mi ++ ":" ++ twoDigits s ++ zone.

Definition zoneText (offset : Z) : string :=
  if offset =? 0 then "Z"
  else
    let zone := Z.abs (Z.quot offset 60) in
    (if offset <? 0 then "-" else "+")
      ++ twoDigits (Z.quot zone 60) ++ ":" ++ twoDigits (Z.rem zone 60).

(** ** Notions used to state further properties *)

(** The number a string of digits stands for, read after the number [n]. *)
Fixpoint digitsValue (s : string) (n : Z) : Z :=
  match s with
  | EmptyString => n
  | String c s' => digitsValue s' (n * 10 + digitVal c)
  end.

(** The part of a version string before its build meta data: up to the
    first plus sign. *)
Definition beforePlus (s : string) : string :=
  match strings.IndexByte s "+" with
  | Some i => sliceTo i s
  | None => s
  end.

(** A version string shows a pre-release part: a hyphen before any plus
    sign. *)
Definition hasPrerelease (s : string) : bool :=
  match strings.IndexByte (beforePlus s) "-" with
  | Some _ => true
  | None => false
  end.

(** The three numbers of a version, written with dots. *)
Definition coreText (v : semver.Version) : string :=
  strconv.FormatUint (semver.Major v) ++ "."
    ++ strconv.FormatUint (semver.Minor v) ++ "."
    ++ strconv.FormatUint (semver.Patch v).

(** A pre-release identifier or a piece of build meta data: not empty,
    letters, digits and hyphens only. *)
Definition identifier (s : string) : Prop :=
  s <> "" /\ semver.containsOnly s semver.alphanum = true.

(** A configuration with another timestamp. *)
Definition withTStamp (c : VersionConfig.t) (ts : string) : VersionConfig.t :=
  VersionConfig.mk (VersionConfig.VersionString c) (VersionConfig.GitHash c)
                   (VersionConfig.GitBranch c) (VersionConfig.GitUser c)
                   (VersionConfig.OS c) (VersionConfig.Arch c)
                   (VersionConfig.Compiler c) (VersionConfig.Release c) ts.




(** The text the [date] command prints by default, in the C locale: the
    names of the day and of the month, the day of the month in two
    columns, the time of day, the abbreviation of the zone and the
    year. *)
Definition monthName (m : Z) : string :=
  nth (Z.to_nat (m - 1)) time.shortMonthNames "".

Definition underDay (d : Z) : string :=
  if d <? 10 then String " " (String (digitByte d) "") else twoDigits d.

Definition unixDateText (w : string) (m d h mi s : Z) (zone : string)
                        (y : Z) : string :=
  w ++ " " ++ monthName m ++ " " ++ underDay d ++ " " ++ twoDigits h ++ ":"
    ++ twoDigits mi ++ ":" ++ twoDigits s ++ " " ++ zone ++ " "
    ++ fourDigits y.

(** An abbreviation of three capital letters, or of four that end in T,
    other than UTC and GMT and what starts with them. *)
Definition zoneAbbrev (z : string) : bool :=
  match z with
  | String a (String b (String c r)) =>
      time.isUpper a && time.isUpper b && time.isUpper c
      && negb (String.eqb (String a (String b (String c ""))) "UTC")
      && negb (String.eqb (String a (String b (String c ""))) "GMT")
      && (String.eqb r "" || String.eqb r "T")
  | _ => false
  end.

(** The instant of the fields of a date when they are read in UTC, in
    seconds since the Unix epoch. *)
Definition unixOfFields (y m d h mi s : Z) : Z :=
  time.unixSec (time.Date y m d h mi s 0).

(** ** Package appv *)

Module appv.

(** The interface [Versioner]: the methods a version record offers. *)
Class Versioner (V : Type) := {
  Semver : V -> string;
  Major : V -> Z;
  Minor : V -> Z;
  Patch : V -> Z;
  Pre : V -> outcome string;
  Warnings : V -> list string;
  VError : V -> option govee.error
}.

End appv.

(** ** Package appver *)

(** The package the repository held before [govee]: the same record under
    other field names, built from a [VConfig]. *)
Module VConfig.

Record t := mk {
  VString : string;
  GitHash : string;
  GitBranch : string;
  GitUser : string;
  OS : string;
  Arch : string;
  Compiler : string;
  Release : string;
  TStamp : string
}.

End VConfig.

Module appver.

Record Version := mkVersion {
  semver : semver.Version;
  githash : string;
  gitbranch : string;
  gituser : string;
  os : string;
  arch : string;
  compiler : string;
  release : string;
  timestamp : time.Time;
  vwarnings : list string;
  verror : option govee.error
}.

(** The zero value [Version{}]. *)
Definition zeroVersion : Version :=
  mkVersion (semver.mkVersion 0 0 0 [] []) "" "" "" "" "" "" ""
            time.zeroTime [] None.

Definition set_strings (c : VConfig.t) (v : Version) : Version :=
  mkVersion (semver v)
            (VConfig.GitHash c) (VConfig.GitBranch c) (VConfig.GitUser c)
            (VConfig.OS c) (VConfig.Arch c) (VConfig.Compiler c)
            (VConfig.Release c)
            (timestamp v) (vwarnings v) (verror v).

Definition set_semver (sv : semver.Version) (v : Version) : Version :=
  mkVersion sv (githash v) (gitbranch v) (gituser v) (os v)
            (arch v) (compiler v) (release v) (timestamp v) (vwarnings v)
            (verror v).

Definition set_timestamp (ts : time.Time) (v : Version) : Version :=
  mkVersion (semver v) (githash v) (gitbranch v) (gituser v) (os v)
            (arch v) (compiler v) (release v) ts (vwarnings v) (verror v).

Definition set_vwarnings (w : list string) (v : Version) : Version :=
  mkVersion (semver v) (githash v) (gitbranch v) (gituser v) (os v)
            (arch v) (compiler v) (release v) (timestamp v) w (verror v).

Section NewVersion.

Variable zones : time.Zones.

Definition NewVersion (c : VConfig.t) : Version * option govee.error :=
  let v := zeroVersion in
  let v := set_strings c v in
  match semver.Make (VConfig.VString c) with
  | inr e => (zeroVersion, Some (govee.SemverError e))
  | inl sv =>
      let v := set_semver sv v in
      match time.Parse zones time.UnixDate (VConfig.TStamp c) with
      | inr e => (zeroVersion, Some (govee.TimeError e))
      | inl ts =>
          let v := set_timestamp ts v in
          let v :=
            if 0 <? Z.of_nat (List.length (semver.Pre (semver v)))
            then
              let msg := govee.preWarning (semver.Pre (semver v)) in
              set_vwarnings (vwarnings v ++ [msg]) v
            else v in
          let v :=
            if negb (String.eqb (release v) "production")
               && negb (String.eqb (release v) "prod")
            then
              let msg := govee.releaseWarning (release v) in
              set_vwarnings (vwarnings v ++ [msg]) v
            else v in
          (v, None)
      end
  end.

Definition TStamp (v : Version) : string :=
  time.FormatRFC3339 zones (timestamp v).

End NewVersion.

Definition Semver (v : Version) : string := semver.String_ (semver v).
Definition Major (v : Version) : Z := int_of_uint64 (semver.Major (semver v)).
Definition Minor (v : Version) : Z := int_of_uint64 (semver.Minor (semver v)).
Definition Patch (v : Version) : Z := int_of_uint64 (semver.Patch (semver v)).

Definition Pre (v : Version) : outcome string :=
  match semver.Pre (semver v) with
  | x :: _ => Returns (fmt.Sprint_PRVersion x)
  | [] => Panics "runtime error: index out of range [0] with length 0"
  end.

Definition Warnings (v : Version) : list string := vwarnings v.
Definition VError (v : Version) : option govee.error := verror v.
Definition GitHash (v : Version) : string := githash v.
Definition GitBranch (v : Version) : string := gitbranch v.
Definition GitUser (v : Version) : string := gituser v.
Definition OS (v : Version) : string := os v.
Definition Arch (v : Version) : string := arch v.
Definition Release (v : Version) : string := release v.
Definition Compiler (v : Version) : string := compiler v.

(** "An implementation of the appv.Versioner interface." *)
#[global] Instance Version_Versioner : appv.Versioner Version := {
  appv.Semver := Semver;
  appv.Major := Major;
  appv.Minor := Minor;
  appv.Patch := Patch;
  appv.Pre := Pre;
  appv.Warnings := Warnings;
  appv.VError := VError
}.

End appver.

(** The configuration of [govee] with the fields of a configuration of
    [appver]. *)
Definition toVersionConfig (c : VConfig.t) : VersionConfig.t :=
  VersionConfig.mk (VConfig.VString c) (VConfig.GitHash c)
                   (VConfig.GitBranch c) (VConfig.GitUser c)
                   (VConfig.OS c) (VConfig.Arch c) (VConfig.Compiler c)
                   (VConfig.Release c) (VConfig.TStamp c).

(** The record of [govee] with the fields of a record of [appver]. *)
Definition toGovee (v : appver.Version) : govee.Version :=
  govee.mkVersion (appver.semver v) (appver.githash v) (appver.gitbranch v)
                  (appver.gituser v) (appver.os v) (appver.arch v)
                  (appver.compiler v) (appver.release v)
                  (appver.timestamp v) (appver.vwarnings v)
                  (appver.verror v).

(** ** The tests of package govee *)

Module govee_test.

(** What a test tells [testing.T]: [t.Error(err)], or [t.Errorf] with the
    format "Expected %s, got %s" or "Expected %d, got %d" and its two
    arguments.  A test goes on after either. *)
Inductive report :=
| Error_ (err : govee.error)
| Errorf_s (expect got : string)
| Errorf_d (expect got : Z).

Definition indexPanic : string :=
  "runtime error: index out of range [0] with length 0".

Section Tests.

Variable zones : time.Zones.

Definition reportErr (err : option govee.error) : list report :=
  match err with
  | Some e => [Error_ e]
  | None => []
  end.

Definition TestNewVersion : outcome (list report) :=
  let expect := "1.2.3" in
  let vconf :=
    VersionConfig.mk "1.2.3" "1234567890abcdef" "testing" "Jane Doe"
                     "linux" "amd64" "go1.11.1" "prod"
                     "Thu Feb 14 15:04:05 SAST 2019" in
  let '(v, err) := govee.NewVersion zones vconf in
  let t := reportErr err in
  let t :=
    if negb (String.eqb (govee.Semver v) expect)
    then (t ++ [Errorf_s expect (govee.Semver v)])%list else t in
  Returns t.

Definition TestNewPreVersion : outcome (list report) :=
  let expect := "2-ga1b2c3d" in
  let vconf :=
    VersionConfig.mk "1.2.3-2-ga1b2c3d" "1234567890abcdef" "testing"
                     "Jane Doe" "darwin" "amd64" "go1.11.1" "prod"
                     "Thu Feb 14 15:04:05 SAST 2019" in
  let '(v, err) := govee.NewVersion zones vconf in
  let t := reportErr err in
  match govee.Pre v with
  | Panics msg => Panics msg
  | Returns pre =>
      let t :=
        if negb (String.eqb pre expect)
        then (t ++ [Errorf_s expect pre])%list else t in
      Returns t
  end.

Definition TestMajorVersion : outcome (list report) :=
  let expect := 1 in
  let vconf :=
    VersionConfig.mk "1.2.3-2-ga1b2c3d" "1234567890abcdef" "testing"
                     "Jane Doe" "linux" "amd64" "go1.11.1" "production"
                     "Thu Feb 14 15:04:05 SAST 2019" in
  let '(v, err) := govee.NewVersion zones vconf in
  let t := reportErr err in
  let t :=
    if negb (govee.Major v =? expect)
    then (t ++ [Errorf_d expect (govee.Major v)])%list else t in
  Returns t.

(** The message of this test shows [v.Patch()]. *)
Definition TestMinorVesion : outcome (list report) :=
  let expect := 2 in
  let vconf :=
    VersionConfig.mk "1.2.3-2-ga1b2c3d" "1234567890abcdef" "testing"
                     "Jane Doe" "linux" "amd64" "go1.11.1" "prod"
                     "Thu Feb 14 15:04:05 SAST 2019" in
  let '(v, err) := govee.NewVersion zones vconf in
  let t := reportErr err in
  let t :=
    if negb (govee.Minor v =? expect)
    then (t ++ [Errorf_d expect (govee.Patch v)])%list else t in
  Returns t.

Definition TestPatchVersion : outcome (list report) :=
  let expect := 3 in
  let vconf :=
    VersionConfig.mk "1.2.3-2-ga1b2c3d" "1234567890abcdef" "testing"
                     "Jane Doe" "linux" "amd64" "go1.11.1" "prod"
                     "Thu Feb 14 15:04:05 SAST 2019" in
  let '(v, err) := govee.NewVersion zones vconf in
  let t := reportErr err in
  let t :=
    if negb (govee.Patch v =? expect)
    then (t ++ [Errorf_d expect (govee.Patch v)])%list else t in
  Returns t.

Definition TestVersionWarnings : outcome (list report) :=
  let expect :=
    "This version is tagged as a pre-release " ++ fmt.dquote
      ++ "[2-ga1b2c3d]" ++ fmt.dquote
      ++ ". Please don't use in production." in
  let expectCount := 2 in
  let vconf :=
    VersionConfig.mk "1.2.3-2-ga1b2c3d" "1234567890abcdef" "testing"
                     "Jane Doe" "linux" "amd64" "go1.11.1" "test"
                     "Thu Feb 14 15:04:05 SAST 2019" in
  let '(v, err) := govee.NewVersion zones vconf in
  let t := reportErr err in
  let warnings := govee.Warnings v in
  let t :=
    if negb (Z.of_nat (List.length warnings) =? expectCount)
    then (t ++ [Errorf_d expectCount (Z.of_nat (List.length warnings))])%list
    else t in
  match warnings with
  | [] => Panics indexPanic
  | w0 :: _ =>
      let t :=
        if negb (String.eqb w0 expect)
        then (t ++ [Errorf_s expect w0])%list else t in
      Returns t
  end.

(** [go test]: the tests in the order of the file. *)
Definition run : list (outcome (list report)) :=
  [TestNewVersion; TestNewPreVersion; TestMajorVersion; TestMinorVesion;
   TestPatchVersion; TestVersionWarnings].

End Tests.

End govee_test.

(** ** The warnings as the specification words them *)

(** The release warning for a release tag. *)
Definition releaseWarningText (release : string) : string :=
  "This version is tagged as release " ++ fmt.dquote
    ++ release ++ fmt.dquote ++ ". Please don't use in production.".

(** The two checks that make a warning, read off the configuration: the
    version string shows a pre-release part, and the release tag is
    neither "production" nor "prod". *)
Definition preReleaseCheck (c : VersionConfig.t) : bool :=
  hasPrerelease (VersionConfig.VersionString c).

Definition releaseTagCheck (c : VersionConfig.t) : bool :=
  negb (String.eqb (VersionConfig.Release c) "production")
  && negb (String.eqb (VersionConfig.Release c) "prod").

(** The pre-release identifiers between brackets, a space between two. *)
Definition bracketed (xs : list semver.PRVersion) : string :=
  "[" ++ strings.Join (map semver.PRVersion_String xs) " " ++ "]".

(** ** The grammar of semantic versions *)

(** The Backus-Naur form of semver.org, version 2.0.0: a version core of
    three numeric identifiers, then after a hyphen the dot-separated
    pre-release identifiers, then after a plus sign the dot-separated
    build identifiers. *)
Definition isLetter (c : ascii) : bool :=
  ((65 <=? byte_val c) && (byte_val c <=? 90))
  || ((97 <=? byte_val c) && (byte_val c <=? 122)).

(** Letters, digits and the hyphen. *)
Definition isIdentifierByte (c : ascii) : bool :=
  isLetter c || isDigitByte c || Ascii.eqb c "-".

Fixpoint allIdentifierBytes (s : string) : bool :=
  match s with
  | EmptyString => true
  | String c s' => isIdentifierByte c && allIdentifierBytes s'
  end.

Definition leadingZero (s : string) : bool :=
  match s with
  | String "0" (String _ _) => true
  | _ => false
  end.

(** A numeric identifier: digits, and no zero in front of another
    digit. *)
Definition numericIdentifier (s : string) : bool :=
  negb (String.eqb s "") && allDigits s && negb (leadingZero s).

(** A pre-release identifier: numeric, or letters, digits and hyphens
    that are not digits only. *)
Definition preReleaseIdentifier (s : string) : bool :=
  negb (String.eqb s "") && allIdentifierBytes s
  && (negb (allDigits s) || negb (leadingZero s)).

(** A build identifier: letters, digits and hyphens. *)
Definition buildIdentifier (s : string) : bool :=
  negb (String.eqb s "") && allIdentifierBytes s.

Definition semverText (x y z : string) (pre build : list string) : string :=
  x ++ "." ++ y ++ "." ++ z
    ++ match pre with
       | [] => ""
       | _ => "-" ++ strings.Join pre "."
       end
    ++ match build with
       | [] => ""
       | _ => "+" ++ strings.Join build "."
       end.

(** The identifiers made of digits only stand for numbers; [fits] says
    which of them are admitted. *)
Definition numberFits (fits : Z -> bool) (s : string) : bool :=
  negb (allDigits s) || fits (digitsValue s 0).

Definition semverWith (fits : Z -> bool) (s : string) : Prop :=
  exists x y z pre build,
    s = semverText x y z pre build /\
    numericIdentifier x && numberFits fits x = true /\
    numericIdentifier y && numberFits fits y = true /\
    numericIdentifier z && numberFits fits z = true /\
    forallb (fun p => preReleaseIdentifier p && numberFits fits p) pre
    = true /\
    forallb buildIdentifier build = true.

(** A valid semantic version, and one whose numbers are all below
    2^64. *)
Definition validSemver (s : string) : Prop := semverWith (fun _ => true) s.

Definition fits64 (n : Z) : bool := n <? 2 ^ 64.

Definition validSemver64 (s : string) : Prop := semverWith fits64 s.

(** ** The Unix date format *)




(** ** Slices in memory *)

(** [Warnings] returns the slice the record holds, not a copy of it: what
    a caller does to the elements of that slice is done to the record.
    To tell, the slice is modelled as Go has it, a header that points
    into an array of the store. *)
Module slice.

(** A slice of strings: the array it points into, by its address, or none
    for the nil slice; its length and its capacity. *)
Record t := mk {
  array : option nat;
  len : nat;
  cap : nat
}.

Definition nil : t := mk None 0 0.

(** The store: the arrays allocated so far, the address of an array being
    its place in the list. *)
Definition store := list (list string).

Fixpoint update {A : Type} (i : nat) (x : A) (l : list A) : list A :=
  match l, i with
  | [], _ => []
  | _ :: l', O => x :: l'
  | y :: l', S i' => y :: update i' x l'
  end.

(** The elements of a slice. *)
Definition read (m : store) (s : t) : list string :=
  match array s with
  | Some a => firstn (len s) (nth a m [])
  | None => []
  end.

(** [append(s, x)]: in place when the capacity allows, otherwise into a
    new array to which the elements are copied.  The new capacity is twice
    the old one, or the length wanted if that is more; this is how the run
    time grows a slice of fewer than 256 strings. *)
Definition append (m : store) (s : t) (x : string) : store * t :=
  let grown :=
    let newcap := Nat.max (2 * cap s) (S (len s)) in
    ((m ++ [read m s ++ [x] ++ repeat "" (newcap - S (len s))])%list,
     mk (Some (List.length m)) (S (len s)) newcap) in
  match array s with
  | Some a =>
      if Nat.ltb (len s) (cap s)
      then (update a (update (len s) x (nth a m [])) m,
            mk (Some a) (S (len s)) (cap s))
      else grown
  | None => grown
  end.

Definition indexPanic (i n : nat) : string :=
  "runtime error: index out of range ["
    ++ strconv.FormatUint (Z.of_nat i) ++ "] with length "
    ++ strconv.FormatUint (Z.of_nat n).

(** [s[i] = x]. *)
Definition assign (m : store) (s : t) (i : nat) (x : string)
  : outcome store :=
  if Nat.ltb i (len s) then
    match array s with
    | Some a => Returns (update a (update i x (nth a m [])) m)
    | None => Panics (indexPanic i (len s))
    end
  else Panics (indexPanic i (len s)).

(** The array of a slice is one of the store. *)
Definition allocated (m : store) (s : t) : Prop :=
  match array s with
  | Some a => (a < List.length m)%nat
  | None => True
  end.

End slice.

(** ** Package govee, the record in memory *)

Module heap.

(** The struct [Version] with its [warnings] as the slice header it
    is. *)
Record Version := mkVersion {
  semver : semver.Version;
  githash : string;
  gitbranch : string;
  gituser : string;
  os : string;
  arch : string;
  compiler : string;
  release : string;
  timestamp : time.Time;
  warnings : slice.t;
  err : option govee.error
}.

Definition zeroVersion : Version :=
  mkVersion (semver.mkVersion 0 0 0 [] []) "" "" "" "" "" "" ""
            time.zeroTime slice.nil None.

Definition set_strings (c : VersionConfig.t) (v : Version) : Version :=
  mkVersion (semver v)
            (VersionConfig.GitHash c) (VersionConfig.GitBranch c)
            (VersionConfig.GitUser c) (VersionConfig.OS c)
            (VersionConfig.Arch c) (VersionConfig.Compiler c)
            (VersionConfig.Release c)
            (timestamp v) (warnings v) (err v).

Definition set_semver (sv : semver.Version) (v : Version) : Version :=
  mkVersion sv (githash v) (gitbranch v) (gituser v) (os v)
            (arch v) (compiler v) (release v) (timestamp v) (warnings v)
            (err v).

Definition set_timestamp (ts : time.Time) (v : Version) : Version :=
  mkVersion (semver v) (githash v) (gitbranch v) (gituser v) (os v)
            (arch v) (compiler v) (release v) ts (warnings v) (err v).

Definition set_warnings (w : slice.t) (v : Version) : Version :=
  mkVersion (semver v) (githash v) (gitbranch v) (gituser v) (os v)
            (arch v) (compiler v) (release v) (timestamp v) w (err v).

(** The record as the rest of this development sees it: the warnings
    read from the store. *)
Definition pure (m : slice.store) (v : Version) : govee.Version :=
  govee.mkVersion (semver v) (githash v) (gitbranch v) (gituser v) (os v)
                  (arch v) (compiler v) (release v) (timestamp v)
                  (slice.read m (warnings v)) (err v).

(** [v.warnings = append(v.warnings, warning)]. *)
Definition appendWarning (warning : string) (st : slice.store * Version)
  : slice.store * Version :=
  let '(m, v) := st in
  let '(m, w) := slice.append m (warnings v) warning in
  (m, set_warnings w v).

Section NewVersion.

Variable zones : time.Zones.

(** [NewVersion] in a store: the record, the error and the store it
    leaves. *)
Definition NewVersion (c : VersionConfig.t) (m : slice.store)
  : Version * option govee.error * slice.store :=
  let v := zeroVersion in
  let v := set_strings c v in
  match semver.Make (VersionConfig.VersionString c) with
  | inr e => (zeroVersion, Some (govee.SemverError e), m)
  | inl sv =>
      let v := set_semver sv v in
      match time.Parse zones time.UnixDate (VersionConfig.TStamp c) with
      | inr e => (zeroVersion, Some (govee.TimeError e), m)
      | inl ts =>
          let v := set_timestamp ts v in
          let st := (m, v) in
          let st :=
            if 0 <? Z.of_nat (List.length (semver.Pre (semver v)))
            then appendWarning (govee.preWarning (semver.Pre (semver v))) st
            else st in
          let st :=
            if negb (String.eqb (release (snd st)) "production")
               && negb (String.eqb (release (snd st)) "prod")
            then appendWarning (govee.releaseWarning (release (snd st))) st
            else st in
          (snd st, None, fst st)
      end
  end.

(** The methods of [Version]. *)
Inductive method :=
| String_ | Semver | Major | Minor | Patch | Pre | Warnings | Err
| GitHash | GitBranch | GitUser | OS | Arch | Release | TStamp | Compiler.

(** What a method returns. *)
Inductive result :=
| RString (s : string)
| RInt (n : Z)
| RSlice (s : slice.t)
| RError (e : option govee.error).

(** A call of a method on a record, in a store: what it returns, or its
    panic, and the store it leaves.  The receiver is passed by value. *)
Definition call (f : method) (v : Version) (m : slice.store)
  : outcome (result * slice.store) :=
  match f with
  | String_ => Returns (RString (semver.String_ (semver v)), m)
  | Semver => Returns (RString (semver.String_ (semver v)), m)
  | Major => Returns (RInt (int_of_uint64 (semver.Major (semver v))), m)
  | Minor => Returns (RInt (int_of_uint64 (semver.Minor (semver v))), m)
  | Patch => Returns (RInt (int_of_uint64 (semver.Patch (semver v))), m)
  | Pre =>
      match semver.Pre (semver v) with
      | x :: _ => Returns (RString (fmt.Sprint_PRVersion x), m)
      | [] => Panics "runtime error: index out of range [0] with length 0"
      end
  | Warnings => Returns (RSlice (warnings v), m)
  | Err => Returns (RError (err v), m)
  | GitHash => Returns (RString (githash v), m)
  | GitBranch => Returns (RString (gitbranch v), m)
  | GitUser => Returns (RString (gituser v), m)
  | OS => Returns (RString (os v), m)
  | Arch => Returns (RString (arch v), m)
  | Release => Returns (RString (release v), m)
  | TStamp => Returns (RString (time.FormatRFC3339 zones (timestamp v)), m)
  | Compiler => Returns (RString (compiler v), m)
  end.

(** What the package offers to a caller: [NewVersion] and the
    methods. *)
Inductive use :=
| New (c : VersionConfig.t)
| Method (f : method) (v : Version).

(** The store after a use of the package, and after a sequence of
    them. *)
Definition after (u : use) (m : slice.store) : slice.store :=
  match u with
  | New c => snd (NewVersion c m)
  | Method f v =>
      match call f v m with
      | Returns (_, m') => m'
      | Panics _ => m
      end
  end.

Definition afterAll (us : list use) (m : slice.store) : slice.store :=
  fold_left (fun m u => after u m) us m.

End NewVersion.

End heap.

(** ** Tactics *)

(** Settles a goal about a decimal digit [d], known to lie between bounds
    within 0 and 9, by trying the ten digits. *)
Ltac digit_cases d :=
  let Hc := fresh "Hc" in
  assert (Hc : d = 0 \/ d = 1 \/ d = 2 \/ d = 3 \/ d = 4 \/ d = 5 \/ d = 6
               \/ d = 7 \/ d = 8 \/ d = 9) by lia;
  repeat (destruct Hc as [Hc | Hc];
          [subst d; first [reflexivity | lia] |]);
  subst d; first [reflexivity | lia].

(** Unfolds the conjunction of tests [validDate] is made of. *)
Ltac split_validDate H :=
  let H1 := fresh "Hm1" in
  let H2 := fresh "Hm2" in
  let H3 := fresh "Hd1" in
  let H4 := fresh "Hd2" in
  unfold validDate in H;
  apply andb_true_iff in H as [H H4];
  apply andb_true_iff in H as [H H3];
  apply andb_true_iff in H as [H1 H2];
  apply Z.leb_le in H1, H2, H3, H4.

(** Unfolds the assignments to the fields of a record under construction,
    in memory or not. *)
Ltac heap_simpl :=
  cbn [heap.appendWarning heap.warnings heap.set_warnings snd fst
       heap.release heap.pure heap.semver heap.githash heap.gitbranch
       heap.gituser heap.os heap.arch heap.compiler heap.timestamp
       heap.err heap.set_timestamp heap.set_semver heap.set_strings
       heap.zeroVersion
       govee.set_warnings govee.semver govee.githash
       govee.gitbranch govee.gituser govee.os govee.arch govee.compiler
       govee.release govee.timestamp govee.warnings govee.err
       govee.set_timestamp govee.set_semver govee.set_strings
       govee.zeroVersion app].

(** * Properties *)

(** ** The parsers on the inputs of the tests *)

Example semver_plain :
  semver.Make "1.2.3" = inl (semver.mkVersion 1 2 3 [] []).
Proof. reflexivity. Qed.

Example semver_pre :
  semver.Make "1.2.3-2-ga1b2c3d"
  = inl (semver.mkVersion 1 2 3 [semver.mkPRVersion "2-ga1b2c3d" 0 false] []).
Proof. reflexivity. Qed.

Example semver_big :
  semver.Make "9223372036854775808.0.18446744073709551615"
  = inl (semver.mkVersion 9223372036854775808 0 18446744073709551615 [] []).
Proof. vm_compute. reflexivity. Qed.

Example semver_too_big :
  semver.Make "18446744073709551616.0.0"
  = inr (semver.ErrNum (strconv.ErrRange "18446744073709551616")).
Proof. vm_compute. reflexivity. Qed.

Example semver_bad :
  semver.Make "not-a-version" = inr semver.ErrNoElements.
Proof. reflexivity. Qed.

Example semver_string :
  option_map semver.String_
    (match semver.Make "1.2.3-alpha.7+b.1" with inl v => Some v | _ => None end)
  = Some "1.2.3-alpha.7+b.1".
Proof. vm_compute. reflexivity. Qed.



Example time_Parse_test :
  time.Parse utcZones time.UnixDate "Thu Feb 14 15:04:05 SAST 2019"
  = inl (time.mkTime 1550156645 0 (time.FixedZone "SAST" 0)).
Proof. vm_compute. reflexivity. Qed.

Example time_Parse_local :
  time.Parse sastZones time.UnixDate "Thu Feb 14 15:04:05 SAST 2019"
  = inl (time.mkTime 1550149445 0 time.Local).
Proof. vm_compute. reflexivity. Qed.

Example time_Parse_fraction :
  time.Parse utcZones time.UnixDate "Thu Feb 14 15:04:05.5 SAST 2019"
  = inl (time.mkTime 1550156645 500000000 (time.FixedZone "SAST" 0)).
Proof. vm_compute. reflexivity. Qed.

Example time_Parse_empty :
  time.Parse utcZones time.UnixDate "" = inr (time.ErrBad "Mon" "").
Proof. vm_compute. reflexivity. Qed.

Example time_Parse_day_out_of_range :
  time.Parse utcZones time.UnixDate "Sat Feb 30 15:04:05 UTC 2019"
  = inr (time.ErrOutOfRange "day").
Proof. vm_compute. reflexivity. Qed.

Example time_Format_local :
  time.FormatRFC3339 sastZones (time.mkTime 1550149445 0 time.Local)
  = "2019-02-14T15:04:05+02:00".
Proof. vm_compute. reflexivity. Qed.

Example zone_offset_out_of_range :
  time.parseStd time.stdISO8601ColonTZ "+25:61" time.parsed0
  = inr (time.ErrOutOfRange "time zone offset minute") /\
  time.parseStd time.stdISO8601ColonTZ "+25:6x" time.parsed0
  = inr (time.ErrOutOfRange "time zone offset hour") /\
  time.parseStd time.stdISO8601ColonTZ "+2x:00" time.parsed0
  = inr (time.ErrBad "Z07:00" "+2x:00").
Proof. repeat split; reflexivity. Qed.

(** ** The scenarios of the specification *)

Example NewVersion_release_build :
  govee.NewVersion utcZones (testConfig "1.2.3" "prod")
  = (built "1.2.3" "prod", None) /\
  govee.Semver (built "1.2.3" "prod") = "1.2.3" /\
  govee.Warnings (built "1.2.3" "prod") = [].
Proof. repeat split; vm_compute; reflexivity. Qed.

Example NewVersion_malformed_version :
  govee.NewVersion utcZones (testConfig "not-a-version" "prod")
  = (govee.zeroVersion, Some (govee.SemverError semver.ErrNoElements)).
Proof. vm_compute. reflexivity. Qed.

Example NewVersion_malformed_timestamp :
  govee.NewVersion utcZones (testConfigAt "1.2.3" "prod" "")
  = (govee.zeroVersion, Some (govee.TimeError (time.ErrBad "Mon" ""))).
Proof. vm_compute. reflexivity. Qed.

Example release_tag_is_case_sensitive :
  govee.Warnings (built "1.2.3" "Prod") = [govee.releaseWarning "Prod"] /\
  govee.Warnings (built "1.2.3" "prod ") = [govee.releaseWarning "prod "].
Proof. split; vm_compute; reflexivity. Qed.

(** ** Construction *)

(** The warnings [NewVersion] attaches to a parsed version [sv] with
    release tag [rel]. *)
Lemma NewVersion_success_inv zones c v :
  govee.NewVersion zones c = (v, None) ->
  exists sv ts,
    semver.Make (VersionConfig.VersionString c) = inl sv /\
    time.Parse zones time.UnixDate (VersionConfig.TStamp c) = inl ts /\
    govee.semver v = sv /\
    govee.timestamp v = ts /\
    govee.githash v = VersionConfig.GitHash c /\
    govee.gitbranch v = VersionConfig.GitBranch c /\
    govee.gituser v = VersionConfig.GitUser c /\
    govee.os v = VersionConfig.OS c /\
    govee.arch v = VersionConfig.Arch c /\
    govee.compiler v = VersionConfig.Compiler c /\
    govee.release v = VersionConfig.Release c /\
    govee.err v = None /\
    govee.warnings v =
      ((if preCheck v then [govee.preWarning (semver.Pre sv)] else [])
       ++ (if releaseCheck v
           then [govee.releaseWarning (VersionConfig.Release c)] else []))%list.
Proof.
  unfold govee.NewVersion.
  destruct (semver.Make (VersionConfig.VersionString c)) as [sv|e];
    [|discriminate].
  destruct (time.Parse zones time.UnixDate (VersionConfig.TStamp c))
    as [ts|e]; [|discriminate].
  intros H. injection H as <-.
  exists sv, ts.
  unfold preCheck, releaseCheck.
  destruct (semver.Pre sv) as [|x xs] eqn:Hpre;
    destruct (String.eqb (VersionConfig.Release c) "production") eqn:Hp;
    destruct (String.eqb (VersionConfig.Release c) "prod") eqn:Hq;
    cbn; rewrite ?Hpre, ?Hp, ?Hq; cbn; rewrite ?Hpre, ?Hp, ?Hq; cbn;
    repeat split; reflexivity.
Qed.

Lemma NewVersion_succeeds zones c sv ts :
  semver.Make (VersionConfig.VersionString c) = inl sv ->
  time.Parse zones time.UnixDate (VersionConfig.TStamp c) = inl ts ->
  exists v, govee.NewVersion zones c = (v, None).
Proof.
  intros Hs Ht. unfold govee.NewVersion. rewrite Hs, Ht.
  eexists. reflexivity.
Qed.

(** The two warning texts never coincide: they part at the word after
    "tagged as". *)
Lemma preWarning_not_releaseWarning pre rel :
  govee.preWarning pre <> govee.releaseWarning rel.
Proof.
  unfold govee.preWarning, govee.releaseWarning. cbn. discriminate.
Qed.

(** C1.  [Pre] indexes the pre-release sequence without a guard: on a
    record built from a version without pre-release identifiers, which
    [NewVersion] returns as a success, the call panics instead of
    returning an empty string or a sentinel. *)
Theorem Pre_panics_without_prerelease zones c v :
  govee.NewVersion zones c = (v, None) ->
  semver.Pre (govee.semver v) = [] ->
  govee.Pre v
  = Panics "runtime error: index out of range [0] with length 0".
Proof.
  intros _ Hpre. unfold govee.Pre. rewrite Hpre. reflexivity.
Qed.

Lemma Pre_panics_without_prerelease_witness :
  exists v,
    govee.NewVersion utcZones (testConfig "1.2.3" "prod") = (v, None) /\
    govee.Semver v = "1.2.3" /\
    govee.Pre v
    = Panics "runtime error: index out of range [0] with length 0".
Proof.
  exists (built "1.2.3" "prod").
  split; [vm_compute; reflexivity|]. split; [vm_compute; reflexivity|].
  apply (Pre_panics_without_prerelease utcZones (testConfig "1.2.3" "prod"));
    vm_compute; reflexivity.
Defined.

(** ** Accessors *)

(** C9.  Whatever the configuration, and whether construction succeeded or
    not, the record returned by [NewVersion] has no error inside: [Err]
    returns nil, the error travels in the second result only. *)
Theorem Err_always_nil zones c :
  govee.Err (fst (govee.NewVersion zones c)) = None.
Proof.
  unfold govee.NewVersion, govee.Err.
  destruct (semver.Make (VersionConfig.VersionString c)) as [sv|e];
    [|reflexivity].
  destruct (time.Parse zones time.UnixDate (VersionConfig.TStamp c))
    as [ts|e]; [|reflexivity].
  cbn.
  destruct (0 <? _);
    destruct (negb (String.eqb (VersionConfig.Release c) "production")
              && negb (String.eqb (VersionConfig.Release c) "prod"))
      eqn:Hrel; cbn; rewrite ?Hrel; reflexivity.
Qed.

(** The conversion to [int] keeps what is below 2^63 and takes 2^64 off
    what is not. *)
Lemma int_of_uint64_small x :
  0 <= x < 2 ^ 63 -> int_of_uint64 x = x.
Proof.
  intros Hx. unfold int_of_uint64.
  rewrite Z.mod_small by lia. lia.
Qed.

Lemma int_of_uint64_large x :
  2 ^ 63 <= x < 2 ^ 64 -> int_of_uint64 x = x - 2 ^ 64.
Proof.
  intros Hx. unfold int_of_uint64.
  replace (x + 2 ^ 63) with (x - 2 ^ 63 + 1 * 2 ^ 64) by lia.
  rewrite Z.mod_add by lia.
  rewrite Z.mod_small by lia. lia.
Qed.

(** What [ParseUint] returns fits in 64 bits. *)
Lemma parseUintLoop_range s0 s : forall n m,
  0 <= n <= strconv.maxUint64 ->
  strconv.parseUintLoop s0 s n = inl m ->
  0 <= m <= strconv.maxUint64.
Proof.
  induction s as [|c s IH]; intros n m Hn; cbn [strconv.parseUintLoop].
  - intros H. injection H as <-. exact Hn.
  - destruct (isDigitByte c); [|discriminate].
    destruct (strconv.maxUint64 / 10 + 1 <=? n); [discriminate|].
    destruct (Z.ltb_spec ((n * 10 + digitVal c) mod 2 ^ 64) (n * 10));
      [discriminate|].
    destruct (Z.ltb_spec strconv.maxUint64
                ((n * 10 + digitVal c) mod 2 ^ 64)); [discriminate|].
    cbn [orb]. apply IH. lia.
Qed.

Lemma parseNumber_range p s n :
  semver.parseNumber p s = inl n -> 0 <= n <= strconv.maxUint64.
Proof.
  unfold semver.parseNumber, strconv.ParseUint.
  destruct (negb (semver.containsOnly s semver.numbers)); [discriminate|].
  destruct (semver.hasLeadingZeroes s); [discriminate|].
  destruct s as [|c s]; [discriminate|].
  destruct (strconv.parseUintLoop _ _ 0) as [m|e] eqn:Hloop; [|discriminate].
  intros H. injection H as <-.
  apply (parseUintLoop_range (String c s) (String c s) 0 m);
    [unfold strconv.maxUint64; lia|].
  exact Hloop.
Qed.

(** The three numbers of a parsed version are unsigned 64-bit values. *)
Lemma Make_range s sv :
  semver.Make s = inl sv ->
  0 <= semver.Major sv <= strconv.maxUint64 /\
  0 <= semver.Minor sv <= strconv.maxUint64 /\
  0 <= semver.Patch sv <= strconv.maxUint64.
Proof.
  unfold semver.Make, semver.Parse.
  destruct s as [|c0 s0]; [discriminate|].
  destruct (strings.SplitN (String c0 s0) "." 3) as [|p0 [|p1 [|p2 [|]]]];
    try discriminate.
  destruct (semver.parseNumber semver.MajorPart p0) as [major|] eqn:Hmaj;
    [|discriminate].
  destruct (semver.parseNumber semver.MinorPart p1) as [minor|] eqn:Hmin;
    [|discriminate].
  destruct (match strings.IndexByte p2 "+" with
            | Some _ => _ | None => _ end) as [build patchStr].
  destruct (match strings.IndexByte patchStr "-" with
            | Some _ => _ | None => _ end) as [prerelease patchStr'].
  destruct (semver.parseNumber semver.PatchPart patchStr') as [patch|]
    eqn:Hpat; [|discriminate].
  destruct (semver.parsePre prerelease []); [|discriminate].
  destruct (semver.parseBuild build []); [|discriminate].
  intros H. injection H as <-.
  cbn [semver.Major semver.Minor semver.Patch].
  pose proof (parseNumber_range _ _ _ Hmaj).
  pose proof (parseNumber_range _ _ _ Hmin).
  pose proof (parseNumber_range _ _ _ Hpat).
  lia.
Qed.

(** C10.  A component of a constructed record that is 2^63 or more comes
    out of [Major], [Minor] and [Patch] as that value minus 2^64, which is
    the value taken modulo 2^64 and read as a signed number: a negative
    number, not the component the record stores. *)
Theorem components_wrap_to_negative zones c v :
  govee.NewVersion zones c = (v, None) ->
  (2 ^ 63 <= semver.Major (govee.semver v) ->
   govee.Major v = semver.Major (govee.semver v) - 2 ^ 64 /\
   govee.Major v < 0) /\
  (2 ^ 63 <= semver.Minor (govee.semver v) ->
   govee.Minor v = semver.Minor (govee.semver v) - 2 ^ 64 /\
   govee.Minor v < 0) /\
  (2 ^ 63 <= semver.Patch (govee.semver v) ->
   govee.Patch v = semver.Patch (govee.semver v) - 2 ^ 64 /\
   govee.Patch v < 0).
Proof.
  intros H.
  destruct (NewVersion_success_inv _ _ _ H) as (sv & ts & Hsv & _ & Hv & _).
  apply Make_range in Hsv. rewrite <- Hv in Hsv.
  destruct Hsv as (HM & Hm & Hp).
  unfold strconv.maxUint64 in HM, Hm, Hp.
  unfold govee.Major, govee.Minor, govee.Patch.
  repeat split; rewrite int_of_uint64_large by lia; lia.
Qed.

Lemma components_wrap_to_negative_witness :
  exists v,
    govee.NewVersion utcZones
      (testConfig "9223372036854775808.18446744073709551615.3" "prod")
    = (v, None) /\
    semver.Major (govee.semver v) = 9223372036854775808 /\
    (govee.Major v = semver.Major (govee.semver v) - 2 ^ 64 /\
     govee.Major v < 0) /\
    semver.Minor (govee.semver v) = 18446744073709551615 /\
    (govee.Minor v = semver.Minor (govee.semver v) - 2 ^ 64 /\
     govee.Minor v < 0).
Proof.
  exists (built "9223372036854775808.18446744073709551615.3" "prod").
  assert (Hv : govee.NewVersion utcZones
                 (testConfig "9223372036854775808.18446744073709551615.3"
                             "prod")
               = (built "9223372036854775808.18446744073709551615.3" "prod",
                  None))
    by (vm_compute; reflexivity).
  assert (HM : semver.Major
                 (govee.semver
                    (built "9223372036854775808.18446744073709551615.3"
                           "prod"))
               = 9223372036854775808) by (vm_compute; reflexivity).
  assert (Hm : semver.Minor
                 (govee.semver
                    (built "9223372036854775808.18446744073709551615.3"
                           "prod"))
               = 18446744073709551615) by (vm_compute; reflexivity).
  destruct (components_wrap_to_negative utcZones _ _ Hv) as (H1 & H2 & _).
  split; [exact Hv|]. split; [exact HM|].
  split; [apply H1; rewrite HM; lia|]. split; [exact Hm|].
  apply H2. rewrite Hm. lia.
Defined.

(** ** Decimal numerals *)

Lemma isDigitByte_digitByte d :
  0 <= d < 10 -> isDigitByte (digitByte d) = true.
Proof.
  intros Hd.
  digit_cases d.
Qed.

Lemma digitVal_digitByte d :
  0 <= d < 10 -> digitVal (digitByte d) = d.
Proof.
  intros Hd.
  digit_cases d.
Qed.

Lemma digitByte_nonzero d :
  1 <= d < 10 -> Ascii.eqb (digitByte d) "0" = false.
Proof.
  intros Hd.
  digit_cases d.
Qed.

Lemma formatBits_allDigits fuel : forall u acc,
  0 <= u -> allDigits acc = true ->
  allDigits (strconv.formatBits fuel u acc) = true.
Proof.
  induction fuel as [|fuel IH]; intros u acc Hu Hacc; cbn [strconv.formatBits].
  - exact Hacc.
  - assert (Hd : allDigits (String (digitByte (u mod 10)) acc) = true).
    { cbn [allDigits]. rewrite isDigitByte_digitByte, Hacc.
      - reflexivity.
      - apply Z.mod_pos_bound. lia. }
    destruct (u <? 10); [exact Hd|].
    apply IH; [apply Z.div_pos; lia | exact Hd].
Qed.

(** The shape of a numeral: one digit, or a first digit other than 0. *)
Lemma formatBits_head fuel : forall u acc,
  0 <= u < 10 ^ Z.of_nat (S fuel) ->
  exists c rest,
    strconv.formatBits (S fuel) u acc = String c rest /\
    ((u < 10 /\ c = digitByte u /\ rest = acc)
     \/ (10 <= u /\ Ascii.eqb c "0" = false)).
Proof.
  induction fuel as [|fuel IH]; intros u acc Hu.
  - change (10 ^ Z.of_nat 1) with 10 in Hu.
    cbn [strconv.formatBits].
    destruct (Z.ltb_spec u 10) as [_|Hge]; [|lia].
    exists (digitByte (u mod 10)), acc. split; [reflexivity|].
    left. rewrite Z.mod_small by lia. repeat split; lia.
  - remember (S fuel) as f eqn:Hf.
    cbn [strconv.formatBits].
    destruct (Z.ltb_spec u 10) as [Hlt|Hge].
    + exists (digitByte (u mod 10)), acc. split; [reflexivity|].
      left. rewrite Z.mod_small by lia. repeat split; lia.
    + subst f.
      assert (Hq : 0 <= u / 10 < 10 ^ Z.of_nat (S fuel)).
      { split; [apply Z.div_pos; lia|].
        apply Z.div_lt_upper_bound; [lia|].
        replace (Z.of_nat (S (S fuel))) with (Z.succ (Z.of_nat (S fuel)))
          in Hu by lia.
        rewrite Z.pow_succ_r in Hu by lia. lia. }
      destruct (IH (u / 10) (String (digitByte (u mod 10)) acc) Hq)
        as (c & rest & Heq & Hshape).
      exists c, rest. split; [exact Heq|]. right. split; [exact Hge|].
      destruct Hshape as [(Hlt & -> & _) | (_ & Hc)]; [|exact Hc].
      apply digitByte_nonzero.
      assert (1 <= u / 10) by (apply Z.div_le_lower_bound; lia). lia.
Qed.

Lemma parseUintLoop_formatBits s0 fuel : forall u acc,
  0 <= u < 10 ^ Z.of_nat fuel -> u <= strconv.maxUint64 ->
  strconv.parseUintLoop s0 (strconv.formatBits fuel u acc) 0
  = strconv.parseUintLoop s0 acc u.
Proof.
  induction fuel as [|fuel IH]; intros u acc Hu Hmax.
  - change (10 ^ Z.of_nat 0) with 1 in Hu.
    assert (u = 0) by lia. subst u. reflexivity.
  - assert (Hstep : forall n,
              0 <= n -> n * 10 + u mod 10 = u ->
              strconv.parseUintLoop s0 (String (digitByte (u mod 10)) acc) n
              = strconv.parseUintLoop s0 acc u).
    { intros n Hn Hnu.
      assert (Hm : 0 <= u mod 10 < 10) by (apply Z.mod_pos_bound; lia).
      cbn [strconv.parseUintLoop].
      rewrite isDigitByte_digitByte, digitVal_digitByte by exact Hm.
      unfold strconv.maxUint64 in *.
      change (2 ^ 64 - 1) with 18446744073709551615 in *.
      change ((18446744073709551615 / 10 + 1)) with 1844674407370955162.
      change (2 ^ 64) with 18446744073709551616.
      destruct (Z.leb_spec 1844674407370955162 n) as [Hbig|_]; [lia|].
      rewrite Hnu. rewrite Z.mod_small by lia.
      destruct (Z.ltb_spec u (n * 10)) as [Hlt|_]; [lia|].
      destruct (Z.ltb_spec 18446744073709551615 u) as [Hlt|_]; [lia|].
      reflexivity. }
    cbn [strconv.formatBits].
    destruct (Z.ltb_spec u 10) as [Hlt|Hge].
    + apply Hstep; [lia|]. rewrite Z.mod_small by lia. lia.
    + rewrite IH.
      * apply Hstep; [apply Z.div_pos; lia|].
        pose proof (Z.div_mod u 10 ltac:(lia)). lia.
      * split; [apply Z.div_pos; lia|].
        apply Z.div_lt_upper_bound; [lia|].
        replace (Z.of_nat (S fuel)) with (Z.succ (Z.of_nat fuel)) in Hu
          by lia.
        rewrite Z.pow_succ_r in Hu by lia. lia.
      * assert (u / 10 <= u) by (apply Z.div_le_upper_bound; lia). lia.
Qed.

(** [ParseUint] reads back what [FormatUint] writes. *)
Lemma ParseUint_FormatUint u :
  0 <= u <= strconv.maxUint64 ->
  strconv.ParseUint (strconv.FormatUint u) = inl u.
Proof.
  intros Hu. unfold strconv.FormatUint.
  assert (Hr : 0 <= u < 10 ^ Z.of_nat 20).
  { unfold strconv.maxUint64 in Hu.
    change (10 ^ Z.of_nat 20) with 100000000000000000000.
    change (2 ^ 64 - 1) with 18446744073709551615 in Hu. lia. }
  destruct (formatBits_head 19 u EmptyString Hr) as (c & rest & Heq & _).
  unfold strconv.ParseUint.
  rewrite Heq. rewrite <- Heq.
  rewrite parseUintLoop_formatBits by (try exact Hr; lia).
  reflexivity.
Qed.

Lemma FormatUint_allDigits u :
  0 <= u -> allDigits (strconv.FormatUint u) = true.
Proof.
  intros Hu. apply formatBits_allDigits; [exact Hu | reflexivity].
Qed.

Lemma FormatUint_no_leading_zero u :
  0 <= u <= strconv.maxUint64 ->
  semver.hasLeadingZeroes (strconv.FormatUint u) = false.
Proof.
  intros Hu. unfold strconv.FormatUint.
  assert (Hr : 0 <= u < 10 ^ Z.of_nat 20).
  { unfold strconv.maxUint64 in Hu.
    change (10 ^ Z.of_nat 20) with 100000000000000000000.
    change (2 ^ 64 - 1) with 18446744073709551615 in Hu. lia. }
  destruct (formatBits_head 19 u EmptyString Hr)
    as (c & rest & -> & Hshape).
  unfold semver.hasLeadingZeroes.
  destruct Hshape as [(_ & _ & ->) | (_ & Hc)]; [reflexivity|].
  destruct rest; [reflexivity | exact Hc].
Qed.

Lemma FormatUint_nonempty u :
  0 <= u <= strconv.maxUint64 ->
  exists c rest, strconv.FormatUint u = String c rest.
Proof.
  intros Hu. unfold strconv.FormatUint.
  assert (Hr : 0 <= u < 10 ^ Z.of_nat 20).
  { unfold strconv.maxUint64 in Hu.
    change (10 ^ Z.of_nat 20) with 100000000000000000000.
    change (2 ^ 64 - 1) with 18446744073709551615 in Hu. lia. }
  destruct (formatBits_head 19 u EmptyString Hr) as (c & rest & Heq & _).
  now exists c, rest.
Qed.


(** ** Splitting a version string *)

Lemma ContainsByte_numbers c :
  strings.ContainsByte semver.numbers c = isDigitByte c.
Proof.
  destruct c as [[] [] [] [] [] [] [] []]; reflexivity.
Qed.

Lemma containsOnly_numbers s :
  semver.containsOnly s semver.numbers = allDigits s.
Proof.
  induction s as [|c s IH]; [reflexivity|].
  cbn [semver.containsOnly allDigits].
  now rewrite ContainsByte_numbers, IH.
Qed.

(** A byte that is not a digit does not occur among digits. *)
Lemma IndexByte_allDigits s sep :
  allDigits s = true -> isDigitByte sep = false ->
  strings.IndexByte s sep = None.
Proof.
  intros Hs Hsep. induction s as [|c s IH]; [reflexivity|].
  cbn [allDigits] in Hs. apply andb_true_iff in Hs as [Hc Hs].
  cbn [strings.IndexByte].
  destruct (Ascii.eqb_spec c sep) as [->|_]; [congruence|].
  now rewrite IH.
Qed.

Lemma IndexByte_app a sep r :
  strings.IndexByte a sep = None ->
  strings.IndexByte (a ++ String sep r) sep = Some (String.length a).
Proof.
  induction a as [|c a IH]; cbn [strings.IndexByte String.append String.length].
  - intros _. now rewrite Ascii.eqb_refl.
  - destruct (Ascii.eqb c sep); [discriminate|].
    destruct (strings.IndexByte a sep); [discriminate|].
    intros _. now rewrite IH.
Qed.

Lemma sliceTo_app a r : sliceTo (String.length a) (a ++ r) = a.
Proof.
  induction a as [|c a IH]; cbn [sliceTo String.append String.length].
  - now destruct r.
  - now rewrite IH.
Qed.

Lemma sliceFrom_app a c r :
  sliceFrom (S (String.length a)) (a ++ String c r) = r.
Proof.
  induction a as [|b a IH]; cbn [sliceFrom String.append String.length].
  - reflexivity.
  - exact IH.
Qed.

Lemma FormatUint_numeral u :
  0 <= u <= strconv.maxUint64 -> numeral (strconv.FormatUint u) u.
Proof.
  intros Hu. repeat split.
  - apply FormatUint_allDigits. lia.
  - now apply FormatUint_no_leading_zero.
  - now apply ParseUint_FormatUint.
Qed.

Lemma parseNumber_numeral p s x :
  numeral s x -> semver.parseNumber p s = inl x.
Proof.
  intros (Hd & Hz & Hp). unfold semver.parseNumber.
  now rewrite containsOnly_numbers, Hd, Hz, Hp.
Qed.

(** Three numerals joined by dots parse to their three numbers, with no
    pre-release identifier and no build meta data. *)
Lemma Parse_three_numerals a b c x y z :
  numeral a x -> numeral b y -> numeral c z ->
  semver.Parse (a ++ "." ++ b ++ "." ++ c)
  = inl (semver.mkVersion x y z [] []).
Proof.
  intros Ha Hb Hc.
  assert (Hne : exists h t, a ++ "." ++ b ++ "." ++ c = String h t).
  { destruct a as [|h t].
    - destruct Ha as (_ & _ & Hp). discriminate.
    - now exists h, (t ++ "." ++ b ++ "." ++ c). }
  destruct Hne as (h & t & Hne).
  unfold semver.Parse. rewrite Hne, <- Hne. clear h t Hne.
  assert (Hdot : isDigitByte "." = false) by reflexivity.
  assert (Hplus : isDigitByte "+" = false) by reflexivity.
  assert (Hminus : isDigitByte "-" = false) by reflexivity.
  pose proof Ha as (Hda & _). pose proof Hb as (Hdb & _).
  pose proof Hc as (Hdc & _).
  change (a ++ "." ++ b ++ "." ++ c)
    with (a ++ String "." (b ++ String "." c)).
  cbn [strings.SplitN].
  rewrite (IndexByte_app a "." _ (IndexByte_allDigits a "." Hda Hdot)).
  rewrite sliceTo_app, sliceFrom_app.
  rewrite (IndexByte_app b "." _ (IndexByte_allDigits b "." Hdb Hdot)).
  rewrite sliceTo_app, sliceFrom_app.
  rewrite (parseNumber_numeral _ a x Ha), (parseNumber_numeral _ b y Hb).
  rewrite (IndexByte_allDigits c "+" Hdc Hplus).
  rewrite (IndexByte_allDigits c "-" Hdc Hminus).
  rewrite (parseNumber_numeral _ c z Hc).
  reflexivity.
Qed.

Lemma Make_versionXYZ x y z :
  0 <= x <= strconv.maxUint64 ->
  0 <= y <= strconv.maxUint64 ->
  0 <= z <= strconv.maxUint64 ->
  semver.Make (versionXYZ x y z) = inl (semver.mkVersion x y z [] []).
Proof.
  intros Hx Hy Hz. unfold semver.Make, versionXYZ.
  apply Parse_three_numerals; now apply FormatUint_numeral.
Qed.

(** ** Major, minor and patch *)

(** C6, as amended.  For numbers X, Y and Z below 2^63, and a timestamp
    that parses, construction from the version string "X.Y.Z" succeeds and
    [Major], [Minor] and [Patch] return X, Y and Z. *)
Theorem major_minor_patch_of_XYZ zones c x y z :
  0 <= x < 2 ^ 63 -> 0 <= y < 2 ^ 63 -> 0 <= z < 2 ^ 63 ->
  VersionConfig.VersionString c = versionXYZ x y z ->
  (exists ts,
     time.Parse zones time.UnixDate (VersionConfig.TStamp c) = inl ts) ->
  exists v,
    govee.NewVersion zones c = (v, None) /\
    govee.Major v = x /\ govee.Minor v = y /\ govee.Patch v = z.
Proof.
  intros Hx Hy Hz Hs [ts Hts].
  assert (Hmake : semver.Make (VersionConfig.VersionString c)
                  = inl (semver.mkVersion x y z [] [])).
  { rewrite Hs. apply Make_versionXYZ; unfold strconv.maxUint64; lia. }
  destruct (NewVersion_succeeds zones c _ _ Hmake Hts) as [v Hv].
  exists v. split; [exact Hv|].
  destruct (NewVersion_success_inv _ _ _ Hv) as (sv & ts' & Hsv & _ & Hv' & _).
  rewrite Hmake in Hsv. injection Hsv as <-.
  unfold govee.Major, govee.Minor, govee.Patch. rewrite Hv'. cbn.
  now rewrite !int_of_uint64_small.
Qed.

Lemma major_minor_patch_of_XYZ_witness :
  exists v,
    govee.NewVersion utcZones (testConfig "1.2.3" "prod") = (v, None) /\
    govee.Major v = 1 /\ govee.Minor v = 2 /\ govee.Patch v = 3.
Proof.
  apply (major_minor_patch_of_XYZ utcZones (testConfig "1.2.3" "prod") 1 2 3);
    try lia.
  - vm_compute. reflexivity.
  - exists (time.mkTime 1550156645 0 (time.FixedZone "SAST" 0)).
    vm_compute. reflexivity.
Defined.

(** C6 as stated fails above the range of [int]: "9223372036854775808.0.0"
    is a valid version string of the form "X.Y.Z" and construction
    succeeds, yet [Major] does not return X. *)
Lemma major_of_XYZ_counterexample :
  let c := testConfig "9223372036854775808.0.0" "prod" in
  VersionConfig.VersionString c = versionXYZ (2 ^ 63) 0 0 /\
  semver.Make (VersionConfig.VersionString c)
  = inl (semver.mkVersion (2 ^ 63) 0 0 [] []) /\
  exists v,
    govee.NewVersion utcZones c = (v, None) /\
    govee.Major v = - 2 ^ 63 /\
    govee.Major v <> 2 ^ 63.
Proof.
  cbv zeta. split; [vm_compute; reflexivity|].
  split; [vm_compute; reflexivity|].
  exists (built "9223372036854775808.0.0" "prod").
  split; [vm_compute; reflexivity|].
  split; [vm_compute; reflexivity | vm_compute; discriminate].
Qed.

(** ** The pre-release warning *)

(** C5, as amended.  With a timestamp that parses: the configuration with
    version "1.2.3-2-ga1b2c3d" and release tag "test" is constructed,
    [Pre] returns "2-ga1b2c3d", there are two warnings and the first one
    reads as the test expects; and whenever the parsed version has
    pre-release identifiers, the first warning shows them between brackets
    with a single space, not a comma, between two of them. *)
Theorem prerelease_warning_text zones c ts :
  time.Parse zones time.UnixDate (VersionConfig.TStamp c) = inl ts ->
  (VersionConfig.VersionString c = "1.2.3-2-ga1b2c3d" ->
   VersionConfig.Release c = "test" ->
   exists v,
     govee.NewVersion zones c = (v, None) /\
     govee.Pre v = Returns "2-ga1b2c3d" /\
     List.length (govee.Warnings v) = 2%nat /\
     nth_error (govee.Warnings v) 0 = Some (preWarningText "[2-ga1b2c3d]"))
  /\
  (forall sv,
     semver.Make (VersionConfig.VersionString c) = inl sv ->
     semver.Pre sv <> [] ->
     exists v,
       govee.NewVersion zones c = (v, None) /\
       nth_error (govee.Warnings v) 0
       = Some (preWarningText
                 ("[" ++ strings.Join
                           (map semver.PRVersion_String (semver.Pre sv)) " "
                      ++ "]"))).
Proof.
  intros Hts. split.
  - intros Hver Hrel.
    exists (fst (govee.NewVersion zones c)).
    unfold govee.NewVersion. rewrite Hver, Hts. cbn.
    rewrite Hrel. cbn.
    repeat split; reflexivity.
  - intros sv Hsv Hpre.
    destruct (NewVersion_succeeds zones c _ _ Hsv Hts) as [v Hv].
    exists v. split; [exact Hv|].
    destruct (NewVersion_success_inv _ _ _ Hv)
      as (sv' & ts' & Hsv' & _ & Hv' & _ & _ & _ & _ & _ & _ & _ & _ & _ & Hw).
    rewrite Hsv in Hsv'. injection Hsv' as <-.
    unfold govee.Warnings. rewrite Hw.
    unfold preCheck. rewrite Hv'.
    destruct (semver.Pre sv) as [|x xs] eqn:Hp; [congruence|].
    reflexivity.
Qed.

Lemma prerelease_warning_text_witness :
  exists v,
    govee.NewVersion utcZones (testConfig "1.2.3-2-ga1b2c3d" "test")
    = (v, None) /\
    govee.Pre v = Returns "2-ga1b2c3d" /\
    List.length (govee.Warnings v) = 2%nat /\
    nth_error (govee.Warnings v) 0 = Some (preWarningText "[2-ga1b2c3d]").
Proof.
  refine (proj1 (prerelease_warning_text utcZones
                   (testConfig "1.2.3-2-ga1b2c3d" "test")
                   (time.mkTime 1550156645 0 (time.FixedZone "SAST" 0)) _)
            _ _);
    vm_compute; reflexivity.
Defined.

(** C5 as stated fails on two identifiers: the warning for "1.2.3-alpha.1"
    shows "[alpha 1]"; it holds no comma at all, so it is not a
    comma-separated rendering, whichever way the comma is spaced. *)
Lemma prerelease_warning_counterexample :
  let c := testConfig "1.2.3-alpha.1" "test" in
  exists v w,
    govee.NewVersion utcZones c = (v, None) /\
    List.length (semver.Pre (govee.semver v)) = 2%nat /\
    nth_error (govee.Warnings v) 0 = Some w /\
    w = preWarningText "[alpha 1]" /\
    strings.IndexByte w "," = None /\
    w <> preWarningText
           (commaSeparatedPre "," (semver.Pre (govee.semver v))) /\
    w <> preWarningText
           (commaSeparatedPre ", " (semver.Pre (govee.semver v))).
Proof.
  cbv zeta.
  exists (built "1.2.3-alpha.1" "test"), (preWarningText "[alpha 1]").
  split; [vm_compute; reflexivity|]. split; [vm_compute; reflexivity|].
  split; [vm_compute; reflexivity|]. split; [reflexivity|].
  split; [vm_compute; reflexivity|].
  split; vm_compute; discriminate.
Qed.

(** ** The calendar *)

Lemma allFrom_spec (f : Z -> bool) n : forall start,
  allFrom f n start = true ->
  forall x, start <= x < start + Z.of_nat n -> f x = true.
Proof.
  induction n as [|n IH]; intros start Hall x Hx; [lia|].
  cbn [allFrom] in Hall. apply andb_true_iff in Hall as [Hhere Hrest].
  destruct (Z.eq_dec x start) as [->|Hne]; [exact Hhere|].
  apply (IH (start + 1) Hrest). lia.
Qed.

(** Every day of a common year and of a leap year, checked one by one. *)
Lemma month_days_ok :
  allFrom (monthDayOk false) 365 0 = true /\
  allFrom (monthDayOk true) 366 0 = true.
Proof. split; vm_compute; reflexivity. Qed.

Lemma monthDay_ok leap yday :
  0 <= yday < daysInYear leap -> monthDayOk leap yday = true.
Proof.
  intros H. destruct month_days_ok as [Hc Hl].
  destruct leap; cbn [daysInYear] in H.
  - apply (allFrom_spec _ _ _ Hl). lia.
  - apply (allFrom_spec _ _ _ Hc). lia.
Qed.

Lemma rem_eqb_0 a b :
  b <> 0 -> (Z.rem a b =? 0) = (a mod b =? 0).
Proof.
  intros Hb.
  destruct (Z.eqb_spec (Z.rem a b) 0) as [Hr|Hr];
    destruct (Z.eqb_spec (a mod b) 0) as [Hm|Hm]; try reflexivity.
  - apply Z.rem_divide in Hr; [|exact Hb].
    apply Z.mod_divide in Hr; [|exact Hb]. contradiction.
  - apply Z.mod_divide in Hm; [|exact Hb].
    apply Z.rem_divide in Hm; [|exact Hb]. contradiction.
Qed.

Lemma isLeap_mod y :
  time.isLeap y
  = (y mod 4 =? 0) && (negb (y mod 100 =? 0) || (y mod 400 =? 0)).
Proof. unfold time.isLeap. now rewrite !rem_eqb_0 by lia. Qed.

Lemma div_bounds a b : 0 < b -> b * (a / b) <= a < b * (a / b) + b.
Proof.
  intros Hb. pose proof (Z.div_mod a b ltac:(lia)).
  pose proof (Z.mod_pos_bound a b Hb). lia.
Qed.

Lemma div_small_shift k q b :
  0 < b -> 0 <= k < b -> (b * q + k) / b = q.
Proof.
  intros Hb Hk. symmetry. apply (Z.div_unique _ _ _ k); lia.
Qed.

Lemma mod_small_shift k q b :
  0 < b -> 0 <= k < b -> (b * q + k) mod b = k.
Proof.
  intros Hb Hk. symmetry. apply (Z.mod_unique _ _ q); lia.
Qed.

(** The year and the day of the year [absYearDay] gives: the day is a day
    of that year, and counting the days up to it gives the day
    [absYearDay] started from. *)
Lemma absYearDay_spec abs :
  let '(year, yday) := time.absYearDay abs in
  0 <= yday < daysInYear (time.isLeap year) /\
  time.daysSinceEpoch year + yday = abs / time.secondsPerDay.
Proof.
  unfold time.absYearDay, time.daysSinceEpoch. cbv zeta.
  unfold time.daysPer400Years, time.daysPer100Years, time.daysPer4Years.
  change (365 * 400 + 97) with 146097.
  change (365 * 100 + 24) with 36524.
  change (365 * 4 + 1) with 1461.
  set (d := abs / time.secondsPerDay).
  rewrite !Z.shiftr_div_pow2 by lia. change (2 ^ 2) with 4.
  rewrite isLeap_mod.
  pose proof (div_bounds d 146097 ltac:(lia)) as Hn0.
  set (n0 := d / 146097) in *. clearbody n0.
  set (r := d - 146097 * n0).
  assert (Hr : 0 <= r < 146097) by (unfold r; lia).
  assert (Hd : d = 146097 * n0 + r) by (unfold r; lia).
  clearbody r. clear Hn0.
  pose proof (div_bounds r 36524 ltac:(lia)) as Hn1'.
  set (n1' := r / 36524) in *. clearbody n1'.
  pose proof (div_bounds n1' 4 ltac:(lia)) as Hq1.
  set (q1 := n1' / 4) in *. clearbody q1.
  set (n1 := n1' - q1).
  assert (Hb1 : 0 <= n1 <= 3) by (unfold n1; lia).
  set (d1 := r - 36524 * n1).
  assert (Hd1 : 0 <= d1 <= 36524) by (unfold d1, n1; lia).
  assert (Hd1' : d1 = 36524 -> n1 = 3) by (unfold d1, n1; lia).
  assert (Hrd : r = 36524 * n1 + d1) by (unfold d1; lia).
  clearbody d1 n1. clear Hn1' Hq1 q1 n1'.
  pose proof (div_bounds d1 1461 ltac:(lia)) as Hn2.
  set (n2 := d1 / 1461) in *. clearbody n2.
  assert (Hb2 : 0 <= n2 <= 24) by lia.
  set (d2 := d1 - 1461 * n2).
  assert (Hd2 : 0 <= d2 <= 1460) by (unfold d2; lia).
  assert (Hdd : d1 = 1461 * n2 + d2) by (unfold d2; lia).
  clearbody d2. clear Hn2.
  pose proof (div_bounds d2 365 ltac:(lia)) as Hn3'.
  set (n3' := d2 / 365) in *. clearbody n3'.
  pose proof (div_bounds n3' 4 ltac:(lia)) as Hq3.
  set (q3 := n3' / 4) in *. clearbody q3.
  set (n3 := n3' - q3).
  assert (Hb3 : 0 <= n3 <= 3) by (unfold n3; lia).
  set (d3 := d2 - 365 * n3).
  assert (Hd3 : 0 <= d3 <= 365) by (unfold d3, n3; lia).
  assert (Hd3' : d3 = 365 -> n3 = 3) by (unfold d3, n3; lia).
  assert (Hd3'' : d3 = 365 -> d2 = 1460) by (unfold d3, n3; lia).
  assert (Hde : d2 = 365 * n3 + d3) by (unfold d3; lia).
  clearbody d3 n3. clear Hn3' Hq3 q3 n3'.
  set (k := 100 * n1 + 4 * n2 + n3).
  assert (Hk : 0 <= k < 400) by (unfold k; lia).
  replace (400 * n0 + 100 * n1 + 4 * n2 + n3 + time.absoluteZeroYear)
    with (400 * n0 + k + time.absoluteZeroYear) by (unfold k; lia).
  split.
  - (* the day is a day of the year *)
    assert (Hyear : 400 * n0 + k + time.absoluteZeroYear
                    = 400 * (n0 - 730692556) + (k + 1))
      by (unfold time.absoluteZeroYear; lia).
    rewrite Hyear.
    destruct (Z.eq_dec d3 365) as [Hlast|Hnot].
    + (* the last day of a leap year *)
      assert (Hn3 : n3 = 3) by auto.
      assert (Hd2e : d2 = 1460) by auto.
      assert (H4 : (400 * (n0 - 730692556) + (k + 1)) mod 4 = 0).
      { replace (400 * (n0 - 730692556) + (k + 1))
          with (4 * (100 * (n0 - 730692556) + 25 * n1 + n2 + 1) + 0)
          by (unfold k; lia).
        apply mod_small_shift; lia. }
      rewrite H4. cbn [Z.eqb andb].
      destruct (Z.eq_dec n2 24) as [H24|H24].
      * assert (Hn1 : n1 = 3) by (apply Hd1'; lia).
        assert (H400 : (400 * (n0 - 730692556) + (k + 1)) mod 400 = 0).
        { replace (400 * (n0 - 730692556) + (k + 1))
            with (400 * (n0 - 730692556 + 1) + 0) by (unfold k; lia).
          apply mod_small_shift; lia. }
        rewrite H400. rewrite orb_true_r. cbn [daysInYear]. lia.
      * assert (H100 : (400 * (n0 - 730692556) + (k + 1)) mod 100 <> 0).
        { replace (400 * (n0 - 730692556) + (k + 1))
            with (100 * (4 * (n0 - 730692556) + n1) + (4 * n2 + 4))
            by (unfold k; lia).
          rewrite mod_small_shift by lia. lia. }
        apply Z.eqb_neq in H100. rewrite H100. cbn [negb orb daysInYear].
        lia.
    + destruct ((_ =? 0) && _); cbn [daysInYear]; lia.
  - (* counting the days back *)
    replace (400 * n0 + k + time.absoluteZeroYear - time.absoluteZeroYear)
      with (400 * n0 + k) by lia.
    rewrite (div_small_shift k n0 400) by lia.
    replace (400 * n0 + k - 400 * n0) with (100 * n1 + (4 * n2 + n3))
      by (unfold k; lia).
    rewrite (div_small_shift (4 * n2 + n3) n1 100) by lia.
    replace (100 * n1 + (4 * n2 + n3) - 100 * n1) with (4 * n2 + n3) by lia.
    rewrite (div_small_shift n3 n2 4) by lia.
    lia.
Qed.

(** [absDate] gives a date of the calendar, and the day number of that
    date is the day [absDate] started from. *)
Lemma absDate_daysOfDate abs :
  let '(y, m, d) := time.absDate abs in
  validDate y m d = true /\
  daysOfDate y m d = abs / time.secondsPerDay.
Proof.
  unfold time.absDate.
  pose proof (absYearDay_spec abs) as Hyd.
  destruct (time.absYearDay abs) as [year yday].
  destruct Hyd as [Hrange Hdays].
  pose proof (monthDay_ok _ _ Hrange) as Hok.
  unfold monthDayOk in Hok.
  destruct (time.monthDay (time.isLeap year) yday) as [m d].
  apply andb_true_iff in Hok as [Hok Hsum].
  apply Z.eqb_eq in Hsum.
  split.
  - exact Hok.
  - unfold daysOfDate. lia.
Qed.
(** [absClock] cuts the second of the day into hour, minute and second. *)
Lemma absClock_spec abs :
  let '(h, mi, s) := time.absClock abs in
  0 <= h < 24 /\ 0 <= mi < 60 /\ 0 <= s < 60 /\
  h * time.secondsPerHour + mi * time.secondsPerMinute + s
  = abs mod time.secondsPerDay.
Proof.
  unfold time.absClock, time.secondsPerDay, time.secondsPerHour,
    time.secondsPerMinute. cbv zeta.
  change (24 * (60 * 60)) with 86400. change (60 * 60) with 3600.
  pose proof (Z.mod_pos_bound abs 86400 ltac:(lia)) as Hs.
  set (s0 := abs mod 86400) in *.
  rewrite (Z.quot_div_nonneg s0 3600) by lia.
  pose proof (Z.div_mod s0 3600 ltac:(lia)) as H1.
  pose proof (Z.mod_pos_bound s0 3600 ltac:(lia)) as H2.
  set (h := s0 / 3600) in *.
  rewrite (Z.quot_div_nonneg (s0 - h * 3600) 60) by lia.
  pose proof (Z.div_mod (s0 - h * 3600) 60 ltac:(lia)) as H3.
  pose proof (Z.mod_pos_bound (s0 - h * 3600) 60 ltac:(lia)) as H4.
  set (mi := (s0 - h * 3600) / 60) in *.
  lia.
Qed.

Lemma norm_in_range hi lo base :
  0 <= lo < base -> time.norm hi lo base = (hi, lo).
Proof.
  intros H. unfold time.norm.
  destruct (Z.ltb_spec lo 0); [lia|].
  destruct (Z.leb_spec base lo); [lia|]. reflexivity.
Qed.

(** [Date] on fields within their ranges. *)
Lemma Date_in_range y m d h mi s ns :
  1 <= m <= 12 -> 0 <= h < 24 -> 0 <= mi < 60 -> 0 <= s < 60 ->
  0 <= ns < 1000000000 ->
  time.Date y m d h mi s ns
  = time.mkTime
      (daysOfDate y m d * time.secondsPerDay
       + (h * time.secondsPerHour + mi * time.secondsPerMinute + s)
       + (time.absoluteToInternal + time.internalToUnix))
      ns time.UTC.
Proof.
  intros Hm Hh Hmi Hs Hns. unfold time.Date.
  rewrite (norm_in_range y (m - 1) 12) by lia.
  rewrite (norm_in_range s ns 1000000000) by lia.
  rewrite (norm_in_range mi s 60) by lia.
  rewrite (norm_in_range h mi 60) by lia.
  rewrite (norm_in_range d h 24) by lia.
  cbv zeta. unfold daysOfDate.
  replace (m - 1 + 1) with m by lia.
  destruct (time.isLeap y && (3 <=? m)); f_equal; lia.
Qed.

(** ** The text of a timestamp *)

Lemma append_assoc_ (a b c : string) : (a ++ b) ++ c = a ++ (b ++ c).
Proof.
  induction a as [|x a IH]; cbn [String.append]; [reflexivity|].
  now rewrite IH.
Qed.

Lemma digitByte_not_sign d :
  0 <= d < 10 ->
  Ascii.eqb (digitByte d) "-" || Ascii.eqb (digitByte d) "+" = false.
Proof.
  intros Hd.
  digit_cases d.
Qed.

Lemma two_digits_range x :
  0 <= x < 100 -> 0 <= x / 10 < 10 /\ 0 <= x mod 10 < 10.
Proof.
  intros Hx. split.
  - split; [apply Z.div_pos; lia | apply Z.div_lt_upper_bound; lia].
  - apply Z.mod_pos_bound. lia.
Qed.

(** The digits of a number below 10000, from the thousands down. *)
Lemma four_digits_range x :
  0 <= x < 10000 ->
  0 <= x / 1000 < 10 /\ 0 <= x / 100 mod 10 < 10 /\
  0 <= x mod 100 / 10 < 10 /\ 0 <= x mod 100 mod 10 < 10 /\
  ((x / 1000 * 10 + x / 100 mod 10) * 10 + x mod 100 / 10) * 10
  + x mod 100 mod 10 = x.
Proof.
  intros Hx.
  pose proof (Z.div_mod x 100 ltac:(lia)) as H1.
  pose proof (Z.mod_pos_bound x 100 ltac:(lia)) as H2.
  pose proof (Z.div_mod (x / 100) 10 ltac:(lia)) as H3.
  pose proof (Z.mod_pos_bound (x / 100) 10 ltac:(lia)) as H4.
  pose proof (Z.div_mod (x mod 100) 10 ltac:(lia)) as H5.
  pose proof (Z.mod_pos_bound (x mod 100) 10 ltac:(lia)) as H6.
  assert (H7 : x / 1000 = x / 100 / 10).
  { rewrite Z.div_div by lia. reflexivity. }
  rewrite H7.
  assert (0 <= x / 100 < 100).
  { split; [apply Z.div_pos; lia | apply Z.div_lt_upper_bound; lia]. }
  assert (0 <= x / 100 / 10 < 10).
  { split; [apply Z.div_pos; lia | apply Z.div_lt_upper_bound; lia]. }
  assert (0 <= x mod 100 / 10 < 10).
  { split; [apply Z.div_pos; lia | apply Z.div_lt_upper_bound; lia]. }
  lia.
Qed.

(** [FormatUint] on a number of one to four digits. *)
Lemma FormatUint_small x :
  0 <= x < 10000 ->
  strconv.FormatUint x
  = if x <? 10 then String (digitByte x) ""
    else if x <? 100 then twoDigits x
    else if x <? 1000
         then String (digitByte (x / 100)) (twoDigits (x mod 100))
         else fourDigits x.
Proof.
  intros Hx. unfold strconv.FormatUint.
  assert (Hstep : forall f u acc, 10 <= u ->
            strconv.formatBits (S f) u acc
            = strconv.formatBits f (u / 10)
                (String (digitByte (u mod 10)) acc)).
  { intros f u acc Hu. cbn [strconv.formatBits].
    destruct (Z.ltb_spec u 10); [lia | reflexivity]. }
  assert (Hlast : forall f u acc, 0 <= u < 10 ->
            strconv.formatBits (S f) u acc = String (digitByte u) acc).
  { intros f u acc Hu. cbn [strconv.formatBits].
    destruct (Z.ltb_spec u 10); [|lia]. now rewrite Z.mod_small by lia. }
  assert (H10 : x / 10 / 10 = x / 100) by (rewrite Z.div_div by lia; reflexivity).
  assert (H1000 : x / 10 / 10 / 10 = x / 1000)
    by (rewrite !Z.div_div by lia; reflexivity).
  assert (Hm1 : x / 10 mod 10 = x mod 100 / 10).
  { pose proof (Z.div_mod x 100 ltac:(lia)).
    pose proof (Z.mod_pos_bound x 100 ltac:(lia)).
    pose proof (Z.div_mod x 10 ltac:(lia)).
    pose proof (Z.mod_pos_bound x 10 ltac:(lia)).
    pose proof (Z.div_mod (x / 10) 10 ltac:(lia)).
    pose proof (Z.mod_pos_bound (x / 10) 10 ltac:(lia)).
    pose proof (Z.div_mod (x mod 100) 10 ltac:(lia)).
    pose proof (Z.mod_pos_bound (x mod 100) 10 ltac:(lia)).
    lia. }
  assert (Hm0 : x mod 10 = x mod 100 mod 10).
  { pose proof (Z.div_mod x 100 ltac:(lia)).
    pose proof (Z.mod_pos_bound x 100 ltac:(lia)).
    pose proof (Z.div_mod x 10 ltac:(lia)).
    pose proof (Z.mod_pos_bound x 10 ltac:(lia)).
    pose proof (Z.div_mod (x mod 100) 10 ltac:(lia)).
    pose proof (Z.mod_pos_bound (x mod 100) 10 ltac:(lia)).
    lia. }
  destruct (Z.ltb_spec x 10) as [H1|H1].
  { apply Hlast. lia. }
  rewrite Hstep by lia.
  destruct (Z.ltb_spec x 100) as [H2|H2].
  { rewrite Hlast; [reflexivity|].
    split; [apply Z.div_pos; lia | apply Z.div_lt_upper_bound; lia]. }
  rewrite Hstep by (apply Z.div_le_lower_bound; lia).
  rewrite H10.
  destruct (Z.ltb_spec x 1000) as [H3|H3].
  { rewrite Hlast.
    - unfold twoDigits. now rewrite Hm1, Hm0.
    - split; [apply Z.div_pos; lia | apply Z.div_lt_upper_bound; lia]. }
  rewrite Hstep by (apply Z.div_le_lower_bound; lia).
  rewrite Hlast.
  - unfold fourDigits, twoDigits.
    rewrite Z.div_div by lia. change (100 * 10) with 1000.
    now rewrite Hm1, Hm0.
  - rewrite Z.div_div by lia. change (100 * 10) with 1000.
    split; [apply Z.div_pos; lia | apply Z.div_lt_upper_bound; lia].
Qed.

Lemma appendInt_two x :
  0 <= x < 100 -> time.appendInt x 2 = twoDigits x.
Proof.
  intros Hx. unfold time.appendInt.
  rewrite Z.abs_eq by lia. rewrite FormatUint_small by lia.
  destruct (Z.ltb_spec x 0); [lia|].
  destruct (Z.ltb_spec x 10) as [H1|H1].
  - unfold twoDigits. rewrite Z.div_small, Z.mod_small by lia. reflexivity.
  - destruct (Z.ltb_spec x 100); [reflexivity | lia].
Qed.

Lemma appendInt_four x :
  0 <= x < 10000 -> time.appendInt x 4 = fourDigits x.
Proof.
  intros Hx. unfold time.appendInt.
  rewrite Z.abs_eq by lia. rewrite FormatUint_small by lia.
  destruct (Z.ltb_spec x 0); [lia|].
  unfold fourDigits, twoDigits.
  destruct (Z.ltb_spec x 10) as [H1|H1].
  { rewrite (Z.div_small x 1000), (Z.div_small x 100) by lia.
    rewrite (Z.mod_small x 100) by lia.
    rewrite (Z.div_small x 10), (Z.mod_small x 10) by lia. reflexivity. }
  destruct (Z.ltb_spec x 100) as [H2|H2].
  { rewrite (Z.div_small x 1000), (Z.div_small x 100) by lia.
    rewrite (Z.mod_small x 100) by lia. reflexivity. }
  destruct (Z.ltb_spec x 1000) as [H3|H3].
  { rewrite (Z.div_small x 1000) by lia.
    rewrite (Z.mod_small (x / 100) 10); [reflexivity|].
    split; [apply Z.div_pos; lia | apply Z.div_lt_upper_bound; lia]. }
  reflexivity.
Qed.

Lemma atoi_fourDigits x :
  0 <= x < 10000 -> time.atoi (fourDigits x) = Some x.
Proof.
  intros Hx.
  destruct (four_digits_range x Hx) as (H3 & H2 & H1 & H0 & Hsum).
  assert (Hstep : forall d s acc,
            0 <= d < 10 -> 0 <= acc < 1000 ->
            time.leadingInt (String (digitByte d) s) acc
            = time.leadingInt s (acc * 10 + d)).
  { intros d s acc Hd Hacc. cbn [time.leadingInt].
    rewrite isDigitByte_digitByte by exact Hd.
    pose proof (digitVal_digitByte d Hd) as Hv. unfold digitVal in Hv.
    change (2 ^ 63 / 10) with 922337203685477580.
    change (2 ^ 63) with 9223372036854775808.
    destruct (Z.ltb_spec 922337203685477580 acc); [lia|].
    replace (acc * 10 + byte_val (digitByte d) - 48) with (acc * 10 + d)
      by lia.
    destruct (Z.ltb_spec 9223372036854775808 (acc * 10 + d)); [lia|].
    reflexivity. }
  unfold time.atoi, fourDigits, twoDigits.
  rewrite digitByte_not_sign by exact H3.
  rewrite !Hstep by lia.
  cbn [time.leadingInt]. f_equal. lia.
Qed.

Lemma getnum_twoDigits x rest fixed :
  0 <= x < 100 -> time.getnum (twoDigits x ++ rest) fixed = Some (x, rest).
Proof.
  intros Hx. destruct (two_digits_range x Hx) as [Hq Hm].
  unfold twoDigits. cbn [String.append].
  unfold time.getnum, time.isDigit. cbn [String.get].
  rewrite !isDigitByte_digitByte by assumption. cbn [negb].
  rewrite !digitVal_digitByte by assumption.
  f_equal. f_equal. pose proof (Z.div_mod x 10 ltac:(lia)). lia.
Qed.

Lemma parseStd_year y rest p :
  0 <= y < 10000 ->
  time.parseStd time.stdLongYear (fourDigits y ++ rest) p
  = inl (time.set_year y p, rest).
Proof.
  intros Hy.
  assert (Hd : 0 <= y / 1000 < 10).
  { split; [apply Z.div_pos; lia | apply Z.div_lt_upper_bound; lia]. }
  assert (Hsl : sliceTo 4 (fourDigits y ++ rest) = fourDigits y)
    by reflexivity.
  assert (Hsf : sliceFrom 4 (fourDigits y ++ rest) = rest) by reflexivity.
  unfold time.parseStd. rewrite Hsl, Hsf, atoi_fourDigits by exact Hy.
  unfold fourDigits, twoDigits, time.isDigit.
  cbn [String.append String.length String.get Nat.ltb Nat.leb].
  rewrite isDigitByte_digitByte by exact Hd. reflexivity.
Qed.

Lemma parseStd_month m rest p :
  1 <= m <= 12 ->
  time.parseStd time.stdZeroMonth (twoDigits m ++ rest) p
  = inl (time.set_month m p, rest).
Proof.
  intros Hm. unfold time.parseStd.
  rewrite getnum_twoDigits by lia.
  destruct (Z.leb_spec m 0); [lia|].
  destruct (Z.ltb_spec 12 m); [lia|]. reflexivity.
Qed.

Lemma parseStd_day d rest p :
  0 <= d < 100 ->
  time.parseStd time.stdZeroDay (twoDigits d ++ rest) p
  = inl (time.set_day d p, rest).
Proof.
  intros Hd. unfold time.parseStd.
  now rewrite getnum_twoDigits by lia.
Qed.

Lemma parseStd_hour h rest p :
  0 <= h < 24 ->
  time.parseStd time.stdHour (twoDigits h ++ rest) p
  = inl (time.set_hour h p, rest).
Proof.
  intros Hh. unfold time.parseStd.
  rewrite getnum_twoDigits by lia.
  destruct (Z.ltb_spec h 0); [lia|].
  destruct (Z.leb_spec 24 h); [lia|]. reflexivity.
Qed.

Lemma parseStd_minute mi rest p :
  0 <= mi < 60 ->
  time.parseStd time.stdZeroMinute (twoDigits mi ++ rest) p
  = inl (time.set_min mi p, rest).
Proof.
  intros Hh. unfold time.parseStd.
  rewrite getnum_twoDigits by lia.
  destruct (Z.ltb_spec mi 0); [lia|].
  destruct (Z.leb_spec 60 mi); [lia|]. reflexivity.
Qed.

(** The seconds, when what follows does not start a fraction. *)
Lemma parseStd_second s c rest p :
  0 <= s < 60 -> time.commaOrPeriod c = false ->
  time.parseStd time.stdZeroSecond (twoDigits s ++ String c rest) p
  = inl (time.set_sec s p, String c rest).
Proof.
  intros Hs Hc. unfold time.parseStd.
  rewrite getnum_twoDigits by lia.
  destruct (Z.ltb_spec s 0); [lia|].
  destruct (Z.leb_spec 60 s); [lia|].
  cbn [orb]. now rewrite Hc.
Qed.

Lemma zoneText_head offset :
  exists c rest, zoneText offset = String c rest /\
                 time.commaOrPeriod c = false.
Proof.
  unfold zoneText.
  destruct (offset =? 0); [now exists "Z"%char, EmptyString|].
  destruct (offset <? 0); eexists; eexists; split; reflexivity.
Qed.

Lemma parseStd_zone offset p :
  Z.rem offset 60 = 0 -> - 86400 < offset < 86400 ->
  time.parseStd time.stdISO8601ColonTZ (zoneText offset) p
  = inl (if offset =? 0 then time.set_z (Some time.UTC) p
         else time.set_zoneOffset offset p, EmptyString).
Proof.
  intros Hrem Hrange. unfold zoneText.
  destruct (Z.eqb_spec offset 0) as [_|Hnz]; [reflexivity|].
  set (zone := Z.abs (Z.quot offset 60)).
  assert (Hoff : offset = 60 * Z.quot offset 60).
  { pose proof (Z.quot_rem' offset 60). lia. }
  assert (Hzone : 0 <= zone < 1440) by (unfold zone; lia).
  assert (Hh : 0 <= Z.quot zone 60 < 24).
  { rewrite Z.quot_div_nonneg by lia.
    split; [apply Z.div_pos; lia | apply Z.div_lt_upper_bound; lia]. }
  assert (Hm : 0 <= Z.rem zone 60 < 60).
  { rewrite Z.rem_mod_nonneg by lia. apply Z.mod_pos_bound. lia. }
  assert (Hsum : (Z.quot zone 60 * 60 + Z.rem zone 60) * 60 + 0
                 = Z.abs offset).
  { pose proof (Z.quot_rem' zone 60). unfold zone in *. lia. }
  assert (Hstep : forall sign : ascii,
            Ascii.eqb sign "Z" = false ->
            time.parseStd time.stdISO8601ColonTZ
              (String sign (twoDigits (Z.quot zone 60) ++ ":"
                            ++ twoDigits (Z.rem zone 60))) p
            = (if String.eqb (String sign "") "+"
               then inl (time.set_zoneOffset (Z.abs offset) p, "")
               else if String.eqb (String sign "") "-"
               then inl (time.set_zoneOffset (- Z.abs offset) p, "")
               else inr (time.ErrBad "Z07:00"
                           (String sign (twoDigits (Z.quot zone 60) ++ ":"
                            ++ twoDigits (Z.rem zone 60)))))).
  { intros sign Hsign. unfold time.parseStd.
    assert (HnotZ : match sign with "Z"%char => False | _ => True end).
    { destruct sign as [[] [] [] [] [] [] [] []]; try exact I.
      discriminate. }
    set (txt := String sign (twoDigits (Z.quot zone 60) ++ ":"
                              ++ twoDigits (Z.rem zone 60))).
    assert (Hlen : Nat.ltb (String.length txt) 6 = false) by reflexivity.
    assert (Hget : String.get 3 txt = Some ":"%char) by reflexivity.
    assert (Hs1 : sliceTo 1 txt = String sign "") by reflexivity.
    assert (Hhh : sliceTo 2 (sliceFrom 1 txt)
                  = twoDigits (Z.quot zone 60) ++ "") by reflexivity.
    assert (Hmm : sliceTo 2 (sliceFrom 4 txt)
                  = twoDigits (Z.rem zone 60) ++ "") by reflexivity.
    assert (Hrest : sliceFrom 6 txt = "") by reflexivity.
    rewrite Hlen, Hget, Hs1, Hhh, Hmm, Hrest.
    rewrite !getnum_twoDigits by lia.
    destruct (Z.ltb_spec 24 (Z.quot zone 60)); [lia|].
    destruct (Z.ltb_spec 60 (Z.rem zone 60)); [lia|].
    rewrite Hsum.
    unfold txt.
    destruct sign as [[] [] [] [] [] [] [] []]; try reflexivity.
    destruct HnotZ. }
  destruct (Z.ltb_spec offset 0) as [Hneg|Hpos].
  - cbn [String.append]. rewrite Hstep by reflexivity. cbn.
    replace (- Z.abs offset) with offset by lia. reflexivity.
  - cbn [String.append]. rewrite Hstep by reflexivity. cbn.
    replace (Z.abs offset) with offset by lia. reflexivity.
Qed.

(** No month has more than 31 days. *)
Lemma daysIn_le_31 m y : 1 <= m <= 12 -> time.daysIn m y <= 31.
Proof.
  intros Hm. unfold time.daysIn.
  destruct ((m =? 2) && time.isLeap y); [lia|].
  assert (Hc : m = 1 \/ m = 2 \/ m = 3 \/ m = 4 \/ m = 5 \/ m = 6 \/ m = 7
               \/ m = 8 \/ m = 9 \/ m = 10 \/ m = 11 \/ m = 12) by lia.
  repeat (destruct Hc as [-> | Hc]; [vm_compute; discriminate|]).
  subst. vm_compute. discriminate.
Qed.

Lemma parseLoop_cons prefix s layout value value1 p p' value2 :
  time.skip (S (String.length prefix)) value prefix = Some value1 ->
  time.parseStd s value1 p = inl (p', value2) ->
  time.parseLoop ((prefix, s) :: layout) value p
  = time.parseLoop layout value2 p'.
Proof.
  intros Hskip Hstd. cbn [time.parseLoop]. now rewrite Hskip, Hstd.
Qed.

(** The parsing loop on a text of the RFC 3339 layout. *)
Lemma parseLoop_rfc3339Text y m d h mi s offset :
  0 <= y < 10000 -> 1 <= m <= 12 -> 0 <= d < 100 -> 0 <= h < 24 ->
  0 <= mi < 60 -> 0 <= s < 60 ->
  Z.rem offset 60 = 0 -> - 86400 < offset < 86400 ->
  time.parseLoop time.RFC3339 (rfc3339Text y m d h mi s (zoneText offset))
                 time.parsed0
  = inl (let p := time.set_sec s (time.set_min mi (time.set_hour h
                    (time.set_day d (time.set_month m
                       (time.set_year y time.parsed0))))) in
         if offset =? 0 then time.set_z (Some time.UTC) p
         else time.set_zoneOffset offset p).
Proof.
  intros Hy Hm Hd Hh Hmi Hs Hrem Hoff.
  destruct (zoneText_head offset) as (c & rest & Hz & Hc).
  unfold rfc3339Text, time.RFC3339.
  erewrite parseLoop_cons;
    [| reflexivity | apply parseStd_year; exact Hy].
  erewrite parseLoop_cons;
    [| reflexivity | apply parseStd_month; exact Hm].
  erewrite parseLoop_cons;
    [| reflexivity | apply parseStd_day; exact Hd].
  erewrite parseLoop_cons;
    [| reflexivity | apply parseStd_hour; exact Hh].
  erewrite parseLoop_cons;
    [| reflexivity | apply parseStd_minute; exact Hmi].
  erewrite parseLoop_cons;
    [| reflexivity
     | rewrite Hz; apply parseStd_second; [exact Hs | exact Hc]].
  rewrite <- Hz.
  erewrite parseLoop_cons;
    [| reflexivity | apply parseStd_zone; [exact Hrem | exact Hoff]].
  cbn [time.parseLoop]. cbv zeta.
  destruct (offset =? 0); reflexivity.
Qed.

(** The text [Format] writes. *)
Lemma FormatRFC3339_text zones t :
  0 <= yearShown zones t < 10000 ->
  Z.rem (zoneOffsetAt zones t) 60 = 0 ->
  - 86400 < zoneOffsetAt zones t < 86400 ->
  time.FormatRFC3339 zones t
  = let abs := snd (time.locabs zones t) in
    let '(y, m, d) := time.absDate abs in
    let '(h, mi, s) := time.absClock abs in
    rfc3339Text y m d h mi s (zoneText (zoneOffsetAt zones t)).
Proof.
  unfold yearShown, zoneOffsetAt, time.FormatRFC3339.
  destruct (time.locabs zones t) as [offset abs]. cbn [fst snd].
  intros Hy Hrem Hoff. cbv zeta.
  pose proof (absDate_daysOfDate abs) as Hdate.
  pose proof (absClock_spec abs) as Hclock.
  destruct (time.absDate abs) as [[y m] d].
  destruct (time.absClock abs) as [[h mi] s].
  cbn [fst] in Hy.
  destruct Hdate as [Hvalid _].
  destruct Hclock as (Hh & Hmi & Hs & _).
  split_validDate Hvalid.
  assert (Hd : 0 <= d < 100)
    by (pose proof (daysIn_le_31 m y ltac:(lia)); lia).
  rewrite appendInt_four by exact Hy.
  rewrite !appendInt_two by lia.
  unfold rfc3339Text, zoneText.
  destruct (Z.eqb_spec offset 0) as [_|Hnz].
  - now rewrite !append_assoc_.
  - assert (Hq : offset = 60 * Z.quot offset 60).
    { pose proof (Z.quot_rem' offset 60). lia. }
    destruct (Z.ltb_spec (Z.quot offset 60) 0) as [Hneg|Hpos];
      destruct (Z.ltb_spec offset 0) as [Hneg'|Hpos']; try lia.
    + replace (Z.abs (Z.quot offset 60)) with (- Z.quot offset 60) by lia.
      set (zone := - Z.quot offset 60).
      assert (Hzone : 0 <= zone < 1440) by (unfold zone; lia).
      rewrite !appendInt_two.
      * now rewrite !append_assoc_.
      * rewrite Z.rem_mod_nonneg by lia.
        pose proof (Z.mod_pos_bound zone 60 ltac:(lia)). lia.
      * rewrite Z.quot_div_nonneg by lia.
        split; [apply Z.div_pos; lia | apply Z.div_lt_upper_bound; lia].
    + replace (Z.abs (Z.quot offset 60)) with (Z.quot offset 60) by lia.
      set (zone := Z.quot offset 60) in *.
      assert (Hzone : 0 <= zone < 1440) by lia.
      rewrite !appendInt_two.
      * now rewrite !append_assoc_.
      * rewrite Z.rem_mod_nonneg by lia.
        pose proof (Z.mod_pos_bound zone 60 ltac:(lia)). lia.
      * rewrite Z.quot_div_nonneg by lia.
        split; [apply Z.div_pos; lia | apply Z.div_lt_upper_bound; lia].
Qed.

Lemma locabs_snd zones t :
  snd (time.locabs zones t)
  = time.unixSec t + zoneOffsetAt zones t
    + (time.unixToInternal + time.internalToAbsolute).
Proof. reflexivity. Qed.

(** Parsing the RFC 3339 text of a time gives back its instant, when the
    text can hold it. *)
Lemma Parse_FormatRFC3339 zones t :
  time.nsec t = 0 ->
  0 <= yearShown zones t < 10000 ->
  Z.rem (zoneOffsetAt zones t) 60 = 0 ->
  - 86400 < zoneOffsetAt zones t < 86400 ->
  exists t',
    time.Parse zones time.RFC3339 (time.FormatRFC3339 zones t) = inl t' /\
    time.Equal t' t.
Proof.
  intros Hns Hy Hrem Hoff.
  rewrite FormatRFC3339_text by assumption. cbv zeta.
  pose proof (locabs_snd zones t) as Habs.
  unfold yearShown in Hy.
  set (abs := snd (time.locabs zones t)) in *.
  set (offset := zoneOffsetAt zones t) in *.
  pose proof (absDate_daysOfDate abs) as Hdate.
  pose proof (absClock_spec abs) as Hclock.
  destruct (time.absDate abs) as [[y m] d].
  destruct (time.absClock abs) as [[h mi] s].
  cbn [fst] in Hy.
  destruct Hdate as [Hvalid Hdays].
  destruct Hclock as (Hh & Hmi & Hs & Hsum).
  split_validDate Hvalid.
  assert (Hd : 0 <= d < 100)
    by (pose proof (daysIn_le_31 m y ltac:(lia)); lia).
  assert (Hunix : daysOfDate y m d * time.secondsPerDay
                  + (h * time.secondsPerHour + mi * time.secondsPerMinute + s)
                  + (time.absoluteToInternal + time.internalToUnix)
                  = time.unixSec t + offset).
  { rewrite Hdays, Hsum.
    pose proof (Z.div_mod abs time.secondsPerDay ltac:(discriminate)) as Hdm.
    assert (Hk : time.absoluteToInternal + time.internalToUnix
                 + (time.unixToInternal + time.internalToAbsolute) = 0)
      by reflexivity.
    lia. }
  unfold time.Parse.
  rewrite parseLoop_rfc3339Text by (assumption || lia).
  cbv zeta.
  destruct (Z.eqb_spec offset 0) as [Hz|Hnz].
  - cbn [time.p_year time.p_month time.p_day time.p_hour time.p_min
         time.p_sec time.p_nsec time.p_z time.set_z time.set_sec
         time.set_min time.set_hour time.set_day time.set_month
         time.set_year time.parsed0].
    destruct (Z.ltb_spec m 0); [lia|].
    destruct (Z.ltb_spec d 0); [lia|].
    destruct (Z.ltb_spec d 1); [lia|].
    destruct (Z.ltb_spec (time.daysIn m y) d); [lia|].
    cbn [orb].
    rewrite Date_in_range by lia.
    eexists. split; [reflexivity|].
    split; cbn [time.unixSec time.nsec]; lia.
  - cbn [time.p_year time.p_month time.p_day time.p_hour time.p_min
         time.p_sec time.p_nsec time.p_z time.p_zoneOffset time.p_zoneName
         time.set_zoneOffset time.set_sec
         time.set_min time.set_hour time.set_day time.set_month
         time.set_year time.parsed0].
    destruct (Z.ltb_spec m 0); [lia|].
    destruct (Z.ltb_spec d 0); [lia|].
    destruct (Z.ltb_spec d 1); [lia|].
    destruct (Z.ltb_spec (time.daysIn m y) d); [lia|].
    cbn [orb].
    rewrite Date_in_range by lia.
    destruct (Z.eqb_spec offset (-1)) as [Hm1'|_].
    { rewrite Hm1' in Hrem. discriminate. }
    cbn [negb].
    destruct (time.lookup zones _) as [name off'].
    destruct ((off' =? offset) && _);
      (eexists; split; [reflexivity|]);
      split; cbn [time.unixSec time.nsec time.setLoc time.addSec]; lia.
Qed.

(** ** The timestamp *)

(** C7, as amended.  The timestamp of a constructed record that has no
    fraction of a second, whose zone offset is a whole number of minutes
    under a day and whose year in that zone has four digits comes back from
    its RFC 3339 text: parsing [TStamp] gives a time at the same instant. *)
Theorem TStamp_round_trip zones c v :
  govee.NewVersion zones c = (v, None) ->
  time.nsec (govee.timestamp v) = 0 ->
  0 <= yearShown zones (govee.timestamp v) < 10000 ->
  Z.rem (zoneOffsetAt zones (govee.timestamp v)) 60 = 0 ->
  - 86400 < zoneOffsetAt zones (govee.timestamp v) < 86400 ->
  exists t',
    time.Parse zones time.RFC3339 (govee.TStamp zones v) = inl t' /\
    time.Equal t' (govee.timestamp v).
Proof.
  intros _ Hns Hy Hrem Hoff. unfold govee.TStamp.
  now apply Parse_FormatRFC3339.
Qed.

Lemma TStamp_round_trip_witness :
  exists v t',
    govee.NewVersion sastZones (testConfig "1.2.3" "prod") = (v, None) /\
    govee.TStamp sastZones v = "2019-02-14T15:04:05+02:00" /\
    time.Parse sastZones time.RFC3339 (govee.TStamp sastZones v) = inl t' /\
    time.Equal t' (govee.timestamp v).
Proof.
  set (v := fst (govee.NewVersion sastZones (testConfig "1.2.3" "prod"))).
  assert (Hv : govee.NewVersion sastZones (testConfig "1.2.3" "prod")
               = (v, None)) by (vm_compute; reflexivity).
  assert (Hns : time.nsec (govee.timestamp v) = 0)
    by (vm_compute; reflexivity).
  assert (Hy : yearShown sastZones (govee.timestamp v) = 2019)
    by (vm_compute; reflexivity).
  assert (Hoff : zoneOffsetAt sastZones (govee.timestamp v) = 7200)
    by (vm_compute; reflexivity).
  destruct (TStamp_round_trip sastZones (testConfig "1.2.3" "prod") v Hv Hns)
    as (t' & Hparse & Heq).
  - rewrite Hy. lia.
  - rewrite Hoff. reflexivity.
  - rewrite Hoff. lia.
  - exists v, t'. split; [exact Hv|].
    split; [vm_compute; reflexivity|]. split; [exact Hparse | exact Heq].
Defined.

(** C7 as stated fails on a timestamp with a fraction of a second, which
    [time.Parse] accepts after the seconds of any layout: the RFC 3339 text
    drops the fraction, and parsing it gives another instant. *)
Lemma TStamp_round_trip_counterexample :
  let c := testConfigAt "1.2.3" "prod" "Thu Feb 14 15:04:05.5 SAST 2019" in
  exists v t',
    govee.NewVersion utcZones c = (v, None) /\
    time.nsec (govee.timestamp v) = 500000000 /\
    govee.TStamp utcZones v = "2019-02-14T15:04:05Z" /\
    time.Parse utcZones time.RFC3339 (govee.TStamp utcZones v) = inl t' /\
    ~ time.Equal t' (govee.timestamp v).
Proof.
  cbv zeta.
  exists (fst (govee.NewVersion utcZones
                 (testConfigAt "1.2.3" "prod"
                               "Thu Feb 14 15:04:05.5 SAST 2019"))),
         (time.mkTime 1550156645 0 time.UTC).
  split; [vm_compute; reflexivity|]. split; [vm_compute; reflexivity|].
  split; [vm_compute; reflexivity|]. split; [vm_compute; reflexivity|].
  intros [_ Hn]. vm_compute in Hn. discriminate.
Qed.

(** The other two conditions of the round trip are needed as well.  A
    zone offset can push the year shown past 9999, which the four digits
    of the layout cannot hold: the text does not parse. *)
Example TStamp_year_beyond_layout :
  let v := fst (govee.NewVersion utcZones
                  (testConfigAt "1.2.3" "prod"
                                "Fri Dec 31 23:00:00 GMT+5 9999")) in
  govee.TStamp utcZones v = "10000-01-01T04:00:00+05:00" /\
  time.Parse utcZones time.RFC3339 (govee.TStamp utcZones v)
  = inr (time.ErrBad "-" "0-01-01T04:00:00+05:00").
Proof. cbv zeta. split; vm_compute; reflexivity. Qed.

(** And the text shows the zone offset in hours and minutes only: the
    seconds of an offset are lost, and the instant moves by them. *)
Example TStamp_offset_with_seconds :
  let v := fst (govee.NewVersion lmtZones
                  (testConfigAt "1.2.3" "prod"
                                "Thu Feb 14 15:04:05 LMT 2019")) in
  govee.timestamp v = time.mkTime 1550149917 0 time.Local /\
  govee.TStamp lmtZones v = "2019-02-14T15:04:05+01:52" /\
  time.Parse lmtZones time.RFC3339 (govee.TStamp lmtZones v)
  = inl (time.mkTime 1550149925 0 (time.FixedZone "" 6720)).
Proof. cbv zeta. repeat split; vm_compute; reflexivity. Qed.

(** * Further properties *)

(** ** The version string read back *)

Lemma digitByte_digitVal c :
  isDigitByte c = true -> digitByte (digitVal c) = c.
Proof.
  destruct c as [[] [] [] [] [] [] [] []]; try discriminate; reflexivity.
Qed.

Lemma digitVal_range c :
  isDigitByte c = true -> 0 <= digitVal c < 10.
Proof.
  unfold isDigitByte, digitVal. intros H.
  apply andb_true_iff in H as [H1 H2]. lia.
Qed.

(** When [ParseUint] succeeds, it has read digits only, and their
    value. *)
Lemma parseUintLoop_value s0 s : forall n m,
  0 <= n ->
  strconv.parseUintLoop s0 s n = inl m ->
  allDigits s = true /\ m = digitsValue s n.
Proof.
  induction s as [|c s IH]; intros n m Hn; cbn [strconv.parseUintLoop].
  - intros H. injection H as <-. split; reflexivity.
  - destruct (isDigitByte c) eqn:Hc; [|discriminate].
    pose proof (digitVal_range c Hc) as Hd.
    unfold strconv.maxUint64.
    change (2 ^ 64 - 1) with 18446744073709551615.
    change (18446744073709551615 / 10 + 1) with 1844674407370955162.
    change (2 ^ 64) with 18446744073709551616.
    destruct (Z.leb_spec 1844674407370955162 n) as [|Hcut]; [discriminate|].
    destruct (Z.ltb_spec ((n * 10 + digitVal c) mod 18446744073709551616)
                         (n * 10)) as [|Hwrap]; [discriminate|].
    destruct (Z.ltb_spec 18446744073709551615
                ((n * 10 + digitVal c) mod 18446744073709551616));
      [discriminate|].
    cbn [orb].
    assert (Hsame : (n * 10 + digitVal c) mod 18446744073709551616
                    = n * 10 + digitVal c).
    { destruct (Z.lt_ge_cases (n * 10 + digitVal c) 18446744073709551616)
        as [Hlt|Hge].
      - apply Z.mod_small. lia.
      - exfalso.
        assert (Hm : (n * 10 + digitVal c) mod 18446744073709551616
                     = n * 10 + digitVal c - 18446744073709551616).
        { symmetry. apply (Z.mod_unique _ _ 1); lia. }
        lia. }
    rewrite Hsame. intros Hrest.
    destruct (IH (n * 10 + digitVal c) m ltac:(lia) Hrest) as [Hall ->].
    cbn [allDigits digitsValue]. now rewrite Hc, Hall.
Qed.

Lemma digitsValue_lower s : forall n,
  0 <= n -> allDigits s = true ->
  n * 10 ^ Z.of_nat (String.length s) <= digitsValue s n.
Proof.
  induction s as [|c s IH]; intros n Hn Hall.
  - cbn. lia.
  - cbn [allDigits] in Hall. apply andb_true_iff in Hall as [Hc Hall].
    pose proof (digitVal_range c Hc) as Hd.
    cbn [digitsValue String.length].
    specialize (IH (n * 10 + digitVal c) ltac:(lia) Hall).
    rewrite Nat2Z.inj_succ, Z.pow_succ_r by lia.
    assert (0 <= 10 ^ Z.of_nat (String.length s)) by (apply Z.pow_nonneg; lia).
    nia.
Qed.

(** The digits [formatBits] writes for a value read from digits after a
    number that is not 0 are those digits, after the digits of the
    number. *)
Lemma formatBits_digitsValue s : forall n acc fuel,
  1 <= n -> allDigits s = true ->
  strconv.formatBits (String.length s + fuel) (digitsValue s n) acc
  = strconv.formatBits fuel n (s ++ acc).
Proof.
  induction s as [|c s IH]; intros n acc fuel Hn Hall.
  - reflexivity.
  - cbn [allDigits] in Hall. apply andb_true_iff in Hall as [Hc Hall].
    pose proof (digitVal_range c Hc) as Hd.
    cbn [digitsValue String.length].
    replace (S (String.length s) + fuel)%nat
      with (String.length s + S fuel)%nat by lia.
    rewrite IH by (assumption || lia).
    cbn [strconv.formatBits].
    destruct (Z.ltb_spec (n * 10 + digitVal c) 10); [lia|].
    replace ((n * 10 + digitVal c) / 10) with n.
    + replace ((n * 10 + digitVal c) mod 10) with (digitVal c).
      * now rewrite digitByte_digitVal.
      * apply (Z.mod_unique _ _ n); lia.
    + apply (Z.div_unique _ _ _ (digitVal c)); lia.
Qed.

(** [FormatUint] writes back the numeral [ParseUint] has read, when the
    numeral has no leading zero. *)
Lemma FormatUint_ParseUint s n :
  semver.hasLeadingZeroes s = false ->
  strconv.ParseUint s = inl n ->
  strconv.FormatUint n = s.
Proof.
  intros Hz Hp.
  destruct s as [|c r]; [discriminate|].
  unfold strconv.ParseUint in Hp.
  pose proof (parseUintLoop_range _ _ 0 n
                ltac:(unfold strconv.maxUint64; lia) Hp) as Hmax.
  destruct (parseUintLoop_value _ _ 0 n ltac:(lia) Hp) as [Hall ->].
  cbn [allDigits] in Hall. apply andb_true_iff in Hall as [Hc Hall].
  pose proof (digitVal_range c Hc) as Hd.
  cbn [digitsValue] in *. replace (0 * 10 + digitVal c) with (digitVal c) in *
    by lia.
  unfold strconv.FormatUint.
  destruct r as [|c1 r1].
  - cbn [digitsValue strconv.formatBits].
    destruct (Z.ltb_spec (digitVal c) 10); [|lia].
    rewrite Z.mod_small by lia. now rewrite digitByte_digitVal.
  - set (r := String c1 r1) in *.
    assert (Hnz : 1 <= digitVal c).
    { cbn [semver.hasLeadingZeroes] in Hz.
      destruct (Z.eq_dec (digitVal c) 0) as [H0|]; [|lia].
      exfalso. rewrite <- (digitByte_digitVal c Hc), H0 in Hz.
      discriminate. }
    pose proof (digitsValue_lower r (digitVal c) ltac:(lia) Hall) as Hlow.
    assert (Hlen : (String.length r <= 19)%nat).
    { destruct (Nat.le_gt_cases (String.length r) 19) as [|Hbig];
        [assumption|]. exfalso.
      assert (10 ^ 20 <= 10 ^ Z.of_nat (String.length r))
        by (apply Z.pow_le_mono_r; lia).
      unfold strconv.maxUint64 in Hmax.
      change (2 ^ 64 - 1) with 18446744073709551615 in Hmax.
      change (10 ^ 20) with 100000000000000000000 in H. nia. }
    replace 20%nat
      with (String.length r + S (19 - String.length r))%nat by lia.
    rewrite formatBits_digitsValue by (assumption || lia).
    cbn [strconv.formatBits].
    destruct (Z.ltb_spec (digitVal c) 10); [|lia].
    rewrite Z.mod_small by lia. rewrite digitByte_digitVal by exact Hc.
    f_equal. clear. induction r as [|x r IH]; [reflexivity|].
    cbn [String.append]. now rewrite IH.
Qed.

Lemma IndexByte_cut s c i :
  strings.IndexByte s c = Some i ->
  s = sliceTo i s ++ String c (sliceFrom (S i) s).
Proof.
  revert i. induction s as [|a s IH]; intros i; cbn [strings.IndexByte].
  - discriminate.
  - destruct (Ascii.eqb_spec a c) as [->|Hne].
    + intros H. injection H as <-. reflexivity.
    + destruct (strings.IndexByte s c) as [j|]; [|discriminate].
      intros H. injection H as <-.
      cbn [sliceTo sliceFrom String.append]. f_equal. now apply IH.
Qed.

Lemma IndexByte_sliceTo s c i :
  strings.IndexByte s c = Some i ->
  strings.IndexByte (sliceTo i s) c = None.
Proof.
  revert i. induction s as [|a s IH]; intros i; cbn [strings.IndexByte].
  - discriminate.
  - destruct (Ascii.eqb a c) eqn:Hac.
    + intros H. injection H as <-. reflexivity.
    + destruct (strings.IndexByte s c) as [j|]; [|discriminate].
      intros H. injection H as <-.
      cbn [sliceTo strings.IndexByte]. rewrite Hac. now rewrite IH.
Qed.

Lemma Split_not_nil s sep : strings.Split s sep <> [].
Proof.
  destruct s as [|c s]; cbn [strings.Split]; [discriminate|].
  destruct (Ascii.eqb c sep); [discriminate|].
  destruct (strings.Split s sep); discriminate.
Qed.

Lemma append_nil_r s : s ++ "" = s.
Proof. induction s as [|c s IH]; cbn; [reflexivity | now rewrite IH]. Qed.

Lemma Join_cons e rest sep :
  rest <> [] ->
  strings.Join (e :: rest) sep = e ++ sep ++ strings.Join rest sep.
Proof. destruct rest; [contradiction | reflexivity]. Qed.

(** Joining what [Split] has cut gives the string back. *)
Lemma Join_Split s sep :
  strings.Join (strings.Split s sep) (String sep "") = s.
Proof.
  induction s as [|c s IH]; [reflexivity|].
  cbn [strings.Split].
  pose proof (Split_not_nil s sep) as Hne.
  destruct (Ascii.eqb_spec c sep) as [->|_].
  - rewrite Join_cons by exact Hne. cbn [String.append]. now rewrite IH.
  - destruct (strings.Split s sep) as [|p ps] eqn:Hs; [contradiction|].
    destruct ps as [|q qs].
    + cbn [strings.Join] in *. now rewrite IH.
    + rewrite Join_cons by discriminate.
      rewrite Join_cons in IH by discriminate.
      cbn [String.append] in IH |- *. f_equal. exact IH.
Qed.

(** The three pieces [SplitN] cuts a string in give the string back. *)
Lemma SplitN_three s p0 p1 p2 :
  strings.SplitN s "." 3 = [p0; p1; p2] ->
  s = p0 ++ "." ++ p1 ++ "." ++ p2.
Proof.
  cbn [strings.SplitN].
  destruct (strings.IndexByte s ".") as [i|] eqn:Hi; [|discriminate].
  destruct (strings.IndexByte (sliceFrom (S i) s) ".") as [j|] eqn:Hj;
    [|discriminate].
  intros H. injection H as <- <- <-.
  rewrite (IndexByte_cut _ _ _ Hi) at 1.
  rewrite (IndexByte_cut _ _ _ Hj) at 1.
  reflexivity.
Qed.

Lemma NewPRVersion_String s x :
  semver.NewPRVersion s = inl x -> semver.PRVersion_String x = s.
Proof.
  unfold semver.NewPRVersion.
  destruct s as [|c r]; [discriminate|].
  set (s := String c r).
  destruct (semver.containsOnly s semver.numbers).
  - destruct (semver.hasLeadingZeroes s) eqn:Hz; [discriminate|].
    destruct (strconv.ParseUint s) as [num|] eqn:Hp; [|discriminate].
    intros H. injection H as <-.
    unfold semver.PRVersion_String. cbn.
    now apply FormatUint_ParseUint.
  - destruct (semver.containsOnly s semver.alphanum); [|discriminate].
    intros H. injection H as <-. reflexivity.
Qed.

Lemma parsePre_strings l : forall acc pre,
  semver.parsePre l acc = inl pre ->
  map semver.PRVersion_String pre
  = (map semver.PRVersion_String acc ++ l)%list.
Proof.
  induction l as [|s l IH]; intros acc pre; cbn [semver.parsePre].
  - intros H. injection H as <-. now rewrite app_nil_r.
  - destruct (semver.NewPRVersion s) as [x|] eqn:Hx; [|discriminate].
    intros H. rewrite (IH _ _ H), map_app. cbn [map].
    rewrite (NewPRVersion_String _ _ Hx), <- app_assoc. reflexivity.
Qed.

Lemma parseBuild_strings l : forall acc bld,
  semver.parseBuild l acc = inl bld -> bld = (acc ++ l)%list.
Proof.
  induction l as [|s l IH]; intros acc bld; cbn [semver.parseBuild].
  - intros H. injection H as <-. now rewrite app_nil_r.
  - destruct s as [|c r]; [discriminate|].
    destruct (semver.containsOnly _ semver.alphanum); [|discriminate].
    intros H. rewrite (IH _ _ H), <- app_assoc. reflexivity.
Qed.

Lemma parseNumber_FormatUint p s n :
  semver.parseNumber p s = inl n -> strconv.FormatUint n = s.
Proof.
  unfold semver.parseNumber.
  destruct (negb (semver.containsOnly s semver.numbers)); [discriminate|].
  destruct (semver.hasLeadingZeroes s) eqn:Hz; [discriminate|].
  destruct (strconv.ParseUint s) as [m|] eqn:Hp; [|discriminate].
  intros H. injection H as <-. now apply FormatUint_ParseUint.
Qed.

(** [Version.String] writes back the string [Parse] has read. *)
Lemma String_Parse s v :
  semver.Parse s = inl v -> semver.String_ v = s.
Proof.
  unfold semver.Parse.
  destruct s as [|c0 s0]; [discriminate|].
  set (s := String c0 s0).
  destruct (strings.SplitN s "." 3) as [|p0 [|p1 [|p2 [|]]]] eqn:Hsplit;
    try discriminate.
  apply SplitN_three in Hsplit. rewrite Hsplit. clear Hsplit s c0 s0.
  destruct (semver.parseNumber semver.MajorPart p0) as [major|] eqn:Hmaj;
    [|discriminate].
  destruct (semver.parseNumber semver.MinorPart p1) as [minor|] eqn:Hmin;
    [|discriminate].
  apply parseNumber_FormatUint in Hmaj, Hmin.
  assert (Hrest : forall prerelease build patchStr patch pre bld,
            semver.parseNumber semver.PatchPart patchStr = inl patch ->
            semver.parsePre prerelease [] = inl pre ->
            semver.parseBuild build [] = inl bld ->
            semver.String_ (semver.mkVersion major minor patch pre bld)
            = p0 ++ "." ++ p1 ++ "." ++ patchStr
              ++ match prerelease with
                 | [] => ""
                 | _ => "-" ++ strings.Join prerelease "."
                 end
              ++ match build with
                 | [] => ""
                 | _ => "+" ++ strings.Join build "."
                 end).
  { intros prerelease build patchStr patch pre bld Hpat Hpre Hbld.
    apply parseNumber_FormatUint in Hpat.
    apply parsePre_strings in Hpre. apply parseBuild_strings in Hbld.
    cbn [map app] in Hpre, Hbld. subst bld.
    unfold semver.String_.
    cbn [semver.Major semver.Minor semver.Patch semver.Pre semver.Build].
    rewrite Hmaj, Hmin, Hpat, Hpre.
    assert (Hnil : pre = [] <-> prerelease = []).
    { rewrite <- Hpre. destruct pre; split; intros H; try discriminate;
        reflexivity. }
    destruct pre as [|x xs]; destruct prerelease as [|q qs];
      try (exfalso; destruct Hnil as [H1 H2];
           first [discriminate (H1 eq_refl) | discriminate (H2 eq_refl)]);
      destruct build as [|b bs];
      repeat rewrite append_assoc_; cbn [String.append];
      rewrite ?append_nil_r; reflexivity. }
  assert (Hjoin : forall t, 
            match strings.Split t "." with
            | [] => ""
            | _ => "-" ++ strings.Join (strings.Split t ".") "."
            end = String "-" t).
  { intros t. pose proof (Split_not_nil t ".") as N.
    pose proof (Join_Split t ".") as J.
    destruct (strings.Split t "."); [contradiction|].
    cbn [String.append]. now rewrite J. }
  assert (Hjoin' : forall t, 
            match strings.Split t "." with
            | [] => ""
            | _ => "+" ++ strings.Join (strings.Split t ".") "."
            end = String "+" t).
  { intros t. pose proof (Split_not_nil t ".") as N.
    pose proof (Join_Split t ".") as J.
    destruct (strings.Split t "."); [contradiction|].
    cbn [String.append]. now rewrite J. }
  destruct (strings.IndexByte p2 "+") as [i|] eqn:Hi.
  - pose proof (IndexByte_cut _ _ _ Hi) as Hp2.
    set (A := sliceTo i p2) in *. set (B := sliceFrom (S i) p2) in *.
    destruct (strings.IndexByte A "-") as [j|] eqn:Hj.
    + pose proof (IndexByte_cut _ _ _ Hj) as HA.
      destruct (semver.parseNumber semver.PatchPart _) as [patch|] eqn:Hpat;
        [|discriminate].
      destruct (semver.parsePre _ []) as [pre|] eqn:Hpre; [|discriminate].
      destruct (semver.parseBuild _ []) as [bld|] eqn:Hbld; [|discriminate].
      intros H. injection H as <-.
      rewrite (Hrest _ _ _ _ _ _ Hpat Hpre Hbld), Hjoin, Hjoin'.
      do 4 f_equal. symmetry.
      etransitivity; [exact Hp2|].
      etransitivity;
        [exact (f_equal (fun x => x ++ String "+" B) HA)|].
      cbv beta. now rewrite append_assoc_.
    + destruct (semver.parseNumber semver.PatchPart _) as [patch|] eqn:Hpat;
        [|discriminate].
      destruct (semver.parseBuild _ []) as [bld|] eqn:Hbld; [|discriminate].
      intros H. injection H as <-.
      rewrite (Hrest [] _ _ _ _ _ Hpat eq_refl Hbld), Hjoin'.
      do 4 f_equal. symmetry. exact Hp2.
  - destruct (strings.IndexByte p2 "-") as [j|] eqn:Hj.
    + pose proof (IndexByte_cut _ _ _ Hj) as HA.
      destruct (semver.parseNumber semver.PatchPart _) as [patch|] eqn:Hpat;
        [|discriminate].
      destruct (semver.parsePre _ []) as [pre|] eqn:Hpre; [|discriminate].
      intros H. injection H as <-.
      rewrite (Hrest _ [] _ _ _ _ Hpat Hpre eq_refl), Hjoin.
      do 4 f_equal. rewrite append_nil_r. symmetry. exact HA.
    + destruct (semver.parseNumber semver.PatchPart _) as [patch|] eqn:Hpat;
        [|discriminate].
      intros H. injection H as <-.
      rewrite (Hrest [] [] _ _ _ _ Hpat eq_refl eq_refl).
      do 4 f_equal. cbn [String.append]. now rewrite append_nil_r.
Qed.

(** ** The parts of a version string *)

Lemma IndexByte_app_None a b c :
  strings.IndexByte a c = None -> strings.IndexByte b c = None ->
  strings.IndexByte (a ++ b) c = None.
Proof.
  intros Ha Hb. induction a as [|x a IH]; [exact Hb|].
  cbn [strings.IndexByte String.append] in *.
  destruct (Ascii.eqb x c); [discriminate|].
  destruct (strings.IndexByte a c); [discriminate|].
  now rewrite IH.
Qed.

Lemma ContainsByte_numbers_alphanum c :
  strings.ContainsByte semver.numbers c = true ->
  strings.ContainsByte semver.alphanum c = true.
Proof.
  destruct c as [[] [] [] [] [] [] [] []]; try discriminate; reflexivity.
Qed.

Lemma containsOnly_numbers_alphanum s :
  semver.containsOnly s semver.numbers = true ->
  semver.containsOnly s semver.alphanum = true.
Proof.
  induction s as [|c s IH]; [reflexivity|].
  cbn [semver.containsOnly]. intros H.
  apply andb_true_iff in H as [Hc Hs].
  now rewrite ContainsByte_numbers_alphanum, IH.
Qed.

(** A byte outside a set does not occur in a string made of the set. *)
Lemma IndexByte_containsOnly s set c :
  semver.containsOnly s set = true ->
  strings.ContainsByte set c = false ->
  strings.IndexByte s c = None.
Proof.
  intros Hs Hc. induction s as [|x s IH]; [reflexivity|].
  cbn [semver.containsOnly] in Hs. apply andb_true_iff in Hs as [Hx Hs].
  cbn [strings.IndexByte].
  destruct (Ascii.eqb_spec x c) as [->|_]; [congruence|].
  now rewrite IH.
Qed.

Lemma NewPRVersion_identifier s x :
  semver.NewPRVersion s = inl x -> identifier s.
Proof.
  unfold semver.NewPRVersion, identifier.
  destruct s as [|c r]; [discriminate|].
  set (s := String c r).
  destruct (semver.containsOnly s semver.numbers) eqn:Hn.
  - intros _. split; [discriminate|].
    now apply containsOnly_numbers_alphanum.
  - destruct (semver.containsOnly s semver.alphanum) eqn:Ha; [|discriminate].
    intros _. split; [discriminate | reflexivity].
Qed.

Lemma parsePre_identifiers l : forall acc pre,
  semver.parsePre l acc = inl pre -> Forall identifier l.
Proof.
  induction l as [|s l IH]; intros acc pre; cbn [semver.parsePre].
  - constructor.
  - destruct (semver.NewPRVersion s) as [x|] eqn:Hx; [|discriminate].
    intros H. constructor.
    + exact (NewPRVersion_identifier _ _ Hx).
    + exact (IH _ _ H).
Qed.

(** The pre-release identifiers of a parsed version, as [String] prints
    them, are identifiers. *)
Lemma Parse_Pre_identifiers s v :
  semver.Parse s = inl v ->
  Forall identifier (map semver.PRVersion_String (semver.Pre v)).
Proof.
  unfold semver.Parse.
  destruct s as [|c0 s0]; [discriminate|].
  destruct (strings.SplitN (String c0 s0) "." 3) as [|p0 [|p1 [|p2 [|]]]];
    try discriminate.
  destruct (semver.parseNumber semver.MajorPart p0); [|discriminate].
  destruct (semver.parseNumber semver.MinorPart p1); [|discriminate].
  destruct (match strings.IndexByte p2 "+" with
            | Some _ => _ | None => _ end) as [build patchStr].
  destruct (match strings.IndexByte patchStr "-" with
            | Some _ => _ | None => _ end) as [prerelease patchStr'].
  destruct (semver.parseNumber semver.PatchPart patchStr'); [|discriminate].
  destruct (semver.parsePre prerelease []) as [pre|] eqn:Hpre; [|discriminate].
  destruct (semver.parseBuild build []); [|discriminate].
  intros H. injection H as <-. cbn [semver.Pre].
  rewrite (parsePre_strings _ _ _ Hpre). cbn [map app].
  exact (parsePre_identifiers _ _ _ Hpre).
Qed.

Lemma identifier_no_dot s : identifier s -> strings.IndexByte s "." = None.
Proof.
  intros [_ H]. now apply (IndexByte_containsOnly s semver.alphanum).
Qed.

Lemma identifier_no_plus s : identifier s -> strings.IndexByte s "+" = None.
Proof.
  intros [_ H]. now apply (IndexByte_containsOnly s semver.alphanum).
Qed.

Lemma Join_identifiers_no_plus l :
  Forall identifier l -> strings.IndexByte (strings.Join l ".") "+" = None.
Proof.
  induction 1 as [|s l Hs Hl IH]; [reflexivity|].
  destruct l as [|t l'].
  - cbn [strings.Join]. now apply identifier_no_plus.
  - rewrite Join_cons by discriminate.
    apply IndexByte_app_None; [now apply identifier_no_plus|].
    cbn [String.append strings.IndexByte]. cbn [Ascii.eqb Bool.eqb].
    now rewrite IH.
Qed.

(** The three numbers of a parsed version, written with dots, hold no
    hyphen and no plus sign. *)
Lemma coreText_plain s v :
  semver.Parse s = inl v ->
  strings.IndexByte (coreText v) "-" = None /\
  strings.IndexByte (coreText v) "+" = None.
Proof.
  intros H. destruct (Make_range s v H) as (HM & Hm & Hp).
  assert (Hnum : forall u c, 0 <= u -> isDigitByte c = false ->
                 strings.IndexByte (strconv.FormatUint u) c = None).
  { intros u c Hu Hc. apply IndexByte_allDigits; [|exact Hc].
    now apply FormatUint_allDigits. }
  assert (Hdot : forall t c, Ascii.eqb "." c = false ->
                 strings.IndexByte t c = None ->
                 strings.IndexByte ("." ++ t) c = None).
  { intros t c Hc Ht. cbn [String.append strings.IndexByte].
    now rewrite Hc, Ht. }
  unfold coreText.
  split.
  - apply IndexByte_app_None; [apply Hnum; [lia | reflexivity]|].
    apply Hdot; [reflexivity|].
    apply IndexByte_app_None; [apply Hnum; [lia | reflexivity]|].
    apply Hdot; [reflexivity|]. apply Hnum; [lia | reflexivity].
  - apply IndexByte_app_None; [apply Hnum; [lia | reflexivity]|].
    apply Hdot; [reflexivity|].
    apply IndexByte_app_None; [apply Hnum; [lia | reflexivity]|].
    apply Hdot; [reflexivity|]. apply Hnum; [lia | reflexivity].
Qed.

(** How [String] lays a version out: the numbers, the pre-release
    identifiers after a hyphen, the build meta data after a plus sign. *)
Lemma String_layout v :
  semver.String_ v
  = coreText v
    ++ match semver.Pre v with
       | [] => ""
       | _ => "-" ++ strings.Join
                       (map semver.PRVersion_String (semver.Pre v)) "."
       end
    ++ match semver.Build v with
       | [] => ""
       | _ => "+" ++ strings.Join (semver.Build v) "."
       end.
Proof.
  unfold semver.String_, coreText. cbv zeta.
  destruct (semver.Pre v), (semver.Build v);
    repeat rewrite append_assoc_; cbn [String.append];
    rewrite ?append_nil_r; reflexivity.
Qed.

(** A parsed version has pre-release identifiers exactly when its string
    shows a hyphen before any plus sign. *)
Lemma Parse_hasPrerelease s v :
  semver.Parse s = inl v ->
  hasPrerelease s = negb (Nat.eqb (List.length (semver.Pre v)) 0).
Proof.
  intros H.
  pose proof (String_Parse s v H) as Hs.
  pose proof (Parse_Pre_identifiers s v H) as Hids.
  destruct (coreText_plain s v H) as [Hminus Hplus].
  rewrite String_layout in Hs. rewrite <- Hs.
  unfold hasPrerelease, beforePlus.
  destruct (semver.Pre v) as [|x xs] eqn:Hpre; cbn [List.length Nat.eqb negb].
  - cbn [String.append].
    destruct (semver.Build v) as [|b bs].
    + rewrite append_nil_r, Hplus, Hminus. reflexivity.
    + cbn [String.append].
      rewrite (IndexByte_app _ "+" _ Hplus), sliceTo_app, Hminus.
      reflexivity.
  - set (J := strings.Join (map semver.PRVersion_String (x :: xs)) ".") in *.
    assert (HJ : strings.IndexByte J "+" = None)
      by (apply Join_identifiers_no_plus; exact Hids).
    destruct (semver.Build v) as [|b bs].
    + rewrite append_nil_r. cbn [String.append].
      rewrite IndexByte_app_None;
        [| exact Hplus
         | cbn [strings.IndexByte Ascii.eqb Bool.eqb]; now rewrite HJ].
      now rewrite (IndexByte_app _ "-" _ Hminus).
    + cbn [String.append].
      assert (Hcut : strings.IndexByte (coreText v ++ String "-" J) "+" = None).
      { apply IndexByte_app_None; [exact Hplus|].
        cbn [strings.IndexByte Ascii.eqb Bool.eqb]. now rewrite HJ. }
      replace (coreText v ++ String "-" (J ++ String "+" (strings.Join (b :: bs) ".")))
        with ((coreText v ++ String "-" J)
              ++ String "+" (strings.Join (b :: bs) "."))
        by (now rewrite append_assoc_).
      rewrite (IndexByte_app _ "+" _ Hcut), sliceTo_app.
      now rewrite (IndexByte_app _ "-" _ Hminus).
Qed.

(** ** What the accessors say about the configuration *)

(** X1.  [Semver] and [String] give back the version string of the
    configuration, byte for byte: whatever [semver.Make] accepts, it
    prints again unchanged. *)
Theorem Semver_is_version_string zones c v :
  govee.NewVersion zones c = (v, None) ->
  govee.Semver v = VersionConfig.VersionString c /\
  govee.String_ v = VersionConfig.VersionString c.
Proof.
  intros H.
  destruct (NewVersion_success_inv _ _ _ H) as (sv & ts & Hsv & _ & Hv & _).
  unfold govee.Semver, govee.String_. rewrite Hv.
  split; exact (String_Parse _ _ Hsv).
Qed.

Lemma Semver_is_version_string_witness :
  exists v,
    govee.NewVersion utcZones (testConfig "1.2.3-alpha.7+b.1" "prod")
    = (v, None) /\
    govee.Semver v = "1.2.3-alpha.7+b.1" /\
    govee.String_ v = "1.2.3-alpha.7+b.1".
Proof.
  exists (built "1.2.3-alpha.7+b.1" "prod").
  assert (Hv : govee.NewVersion utcZones
                 (testConfig "1.2.3-alpha.7+b.1" "prod")
               = (built "1.2.3-alpha.7+b.1" "prod", None))
    by (vm_compute; reflexivity).
  split; [exact Hv|].
  exact (Semver_is_version_string utcZones _ _ Hv).
Defined.

(** X2.  [Pre] returns normally exactly on the records built from a
    version string with a hyphen before any plus sign; on every other
    constructed record it panics. *)
Theorem Pre_returns_iff_prerelease zones c v :
  govee.NewVersion zones c = (v, None) ->
  ((exists s, govee.Pre v = Returns s) <->
   hasPrerelease (VersionConfig.VersionString c) = true)
  /\
  ((exists msg, govee.Pre v = Panics msg) <->
   hasPrerelease (VersionConfig.VersionString c) = false).
Proof.
  intros H.
  destruct (NewVersion_success_inv _ _ _ H) as (sv & ts & Hsv & _ & Hv & _).
  rewrite (Parse_hasPrerelease _ _ Hsv).
  unfold govee.Pre. rewrite Hv.
  destruct (semver.Pre sv) as [|x xs]; cbn [List.length Nat.eqb negb]; split;
    split; try discriminate; try (intros [? ?]; discriminate);
    intros _; eexists; reflexivity.
Qed.

Lemma Pre_returns_iff_prerelease_witness :
  (exists v,
     govee.NewVersion utcZones (testConfig "1.2.3-rc.1+b-2" "prod")
     = (v, None) /\
     exists s, govee.Pre v = Returns s)
  /\
  (exists v,
     govee.NewVersion utcZones (testConfig "1.2.3+b-2" "prod") = (v, None) /\
     exists msg, govee.Pre v = Panics msg).
Proof.
  split.
  - exists (built "1.2.3-rc.1+b-2" "prod").
    assert (Hv : govee.NewVersion utcZones (testConfig "1.2.3-rc.1+b-2" "prod")
                 = (built "1.2.3-rc.1+b-2" "prod", None))
      by (vm_compute; reflexivity).
    split; [exact Hv|].
    apply (proj1 (Pre_returns_iff_prerelease utcZones _ _ Hv)).
    vm_compute. reflexivity.
  - exists (built "1.2.3+b-2" "prod").
    assert (Hv : govee.NewVersion utcZones (testConfig "1.2.3+b-2" "prod")
                 = (built "1.2.3+b-2" "prod", None))
      by (vm_compute; reflexivity).
    split; [exact Hv|].
    apply (proj2 (Pre_returns_iff_prerelease utcZones _ _ Hv)).
    vm_compute. reflexivity.
Defined.

(** X3.  What [Pre] returns is the first pre-release identifier only: the
    text between the first hyphen of the version string and the next dot,
    plus sign or the end. *)
Theorem Pre_is_first_identifier zones c v s :
  govee.NewVersion zones c = (v, None) ->
  govee.Pre v = Returns s ->
  s <> "" /\
  strings.IndexByte s "." = None /\
  strings.IndexByte s "+" = None /\
  exists core tail,
    VersionConfig.VersionString c = core ++ "-" ++ s ++ tail /\
    strings.IndexByte core "-" = None /\
    strings.IndexByte core "+" = None /\
    (tail = "" \/ exists t, tail = String "." t \/ tail = String "+" t).
Proof.
  intros H HPre.
  destruct (NewVersion_success_inv _ _ _ H) as (sv & ts & Hsv & _ & Hv & _).
  pose proof (String_Parse _ _ Hsv) as Hs.
  pose proof (Parse_Pre_identifiers _ _ Hsv) as Hids.
  destruct (coreText_plain _ _ Hsv) as [Hminus Hplus].
  rewrite String_layout in Hs.
  unfold govee.Pre in HPre. rewrite Hv in HPre.
  destruct (semver.Pre sv) as [|x xs]; [discriminate|].
  injection HPre as <-. unfold fmt.Sprint_PRVersion.
  cbn [map] in Hids, Hs. pose proof (Forall_inv Hids) as Hid.
  split; [exact (proj1 Hid)|].
  split; [exact (identifier_no_dot _ Hid)|].
  split; [exact (identifier_no_plus _ Hid)|].
  exists (coreText sv).
  set (B := match semver.Build sv with
            | [] => ""
            | _ => "+" ++ strings.Join (semver.Build sv) "."
            end) in *.
  assert (HB : B = "" \/ exists t, B = String "+" t).
  { unfold B. destruct (semver.Build sv); [now left|].
    right. eexists. reflexivity. }
  destruct xs as [|y ys].
  - exists B. cbn [map strings.Join] in Hs.
    split; [|split; [exact Hminus|split; [exact Hplus|]]].
    + rewrite <- Hs. now rewrite !append_assoc_.
    + destruct HB as [->|[t ->]]; [now left|]. right. exists t. now right.
  - exists ("." ++ strings.Join (map semver.PRVersion_String (y :: ys)) "."
            ++ B).
    rewrite Join_cons in Hs by discriminate.
    split; [|split; [exact Hminus|split; [exact Hplus|]]].
    + rewrite <- Hs. now rewrite !append_assoc_.
    + right. eexists. left. reflexivity.
Qed.

Lemma Pre_is_first_identifier_witness :
  exists v,
    govee.NewVersion utcZones (testConfig "1.2.3-rc.1+b-2" "prod")
    = (v, None) /\
    govee.Pre v = Returns "rc" /\
    exists core tail,
      "1.2.3-rc.1+b-2" = core ++ "-" ++ "rc" ++ tail /\
      strings.IndexByte core "-" = None /\
      strings.IndexByte core "+" = None /\
      (tail = "" \/ exists t, tail = String "." t \/ tail = String "+" t).
Proof.
  exists (built "1.2.3-rc.1+b-2" "prod").
  assert (Hv : govee.NewVersion utcZones (testConfig "1.2.3-rc.1+b-2" "prod")
               = (built "1.2.3-rc.1+b-2" "prod", None))
    by (vm_compute; reflexivity).
  assert (HP : govee.Pre (built "1.2.3-rc.1+b-2" "prod") = Returns "rc")
    by (vm_compute; reflexivity).
  split; [exact Hv|]. split; [exact HP|].
  exact (proj2 (proj2 (proj2
           (Pre_is_first_identifier utcZones _ _ _ Hv HP)))).
Defined.

(** X4.  A constructed record has no warning at all exactly when the
    version string shows no pre-release part and the release tag is
    "production" or "prod". *)
Theorem Warnings_empty_iff zones c v :
  govee.NewVersion zones c = (v, None) ->
  (govee.Warnings v = [] <->
   hasPrerelease (VersionConfig.VersionString c) = false /\
   (VersionConfig.Release c = "production" \/
    VersionConfig.Release c = "prod")).
Proof.
  intros H.
  destruct (NewVersion_success_inv _ _ _ H)
    as (sv & ts & Hsv & _ & Hv & _ & _ & _ & _ & _ & _ & _ & Hrel & _ & Hw).
  rewrite (Parse_hasPrerelease _ _ Hsv).
  unfold govee.Warnings. rewrite Hw.
  unfold preCheck, releaseCheck. rewrite Hv, Hrel.
  destruct (negb (Nat.eqb (List.length (semver.Pre sv)) 0)).
  - split; [discriminate | intros [? _]; discriminate].
  - destruct (String.eqb_spec (VersionConfig.Release c) "production")
      as [Hp|Hp];
      destruct (String.eqb_spec (VersionConfig.Release c) "prod") as [Hq|Hq];
      cbn; split; auto; try discriminate.
    intros [_ [?|?]]; contradiction.
Qed.

Lemma Warnings_empty_iff_witness :
  exists v,
    govee.NewVersion utcZones (testConfig "1.2.3+b-2" "production")
    = (v, None) /\
    govee.Warnings v = [].
Proof.
  exists (built "1.2.3+b-2" "production").
  assert (Hv : govee.NewVersion utcZones (testConfig "1.2.3+b-2" "production")
               = (built "1.2.3+b-2" "production", None))
    by (vm_compute; reflexivity).
  split; [exact Hv|].
  apply (proj2 (Warnings_empty_iff utcZones _ _ Hv)).
  split; [vm_compute; reflexivity | left; reflexivity].
Defined.

(** ** The record of a failed construction *)

Lemma NewVersion_failure_zero zones c e :
  snd (govee.NewVersion zones c) = Some e ->
  fst (govee.NewVersion zones c) = govee.zeroVersion.
Proof.
  unfold govee.NewVersion.
  destruct (semver.Make (VersionConfig.VersionString c)); [|reflexivity].
  destruct (time.Parse zones time.UnixDate (VersionConfig.TStamp c));
    [discriminate | reflexivity].
Qed.

(** X5.  A caller that goes on with the record of a failed construction
    reads the zero version "0.0.0", empty strings, no warning and the
    first second of year 1 from it, and panics if it calls [Pre]. *)
Theorem accessors_after_failure zones c e :
  snd (govee.NewVersion zones c) = Some e ->
  let v := fst (govee.NewVersion zones c) in
  govee.Semver v = "0.0.0" /\
  govee.Major v = 0 /\ govee.Minor v = 0 /\ govee.Patch v = 0 /\
  (exists msg, govee.Pre v = Panics msg) /\
  govee.Warnings v = [] /\
  govee.GitHash v = "" /\ govee.GitBranch v = "" /\ govee.GitUser v = "" /\
  govee.OS v = "" /\ govee.Arch v = "" /\ govee.Compiler v = "" /\
  govee.Release v = "" /\
  govee.TStamp zones v = "0001-01-01T00:00:00Z".
Proof.
  intros He. cbv zeta. rewrite (NewVersion_failure_zero zones c e He).
  repeat split; try reflexivity.
  eexists. reflexivity.
Qed.

Lemma accessors_after_failure_witness :
  govee.Semver (built "not-a-version" "prod") = "0.0.0" /\
  (exists msg, govee.Pre (built "not-a-version" "prod") = Panics msg) /\
  govee.TStamp utcZones (built "not-a-version" "prod")
  = "0001-01-01T00:00:00Z".
Proof.
  assert (He : snd (govee.NewVersion utcZones
                      (testConfig "not-a-version" "prod"))
               = Some (govee.SemverError semver.ErrNoElements))
    by (vm_compute; reflexivity).
  pose proof (accessors_after_failure utcZones _ _ He) as H.
  cbv zeta in H.
  destruct H as (H1 & _ & _ & _ & H5 & _ & _ & _ & _ & _ & _ & _ & _ & H14).
  split; [exact H1|]. split; [exact H5 | exact H14].
Defined.

(** ** Timestamps [NewVersion] takes and timestamps it does not *)

(** Names of days and months start with a capital letter; a digit or a
    hyphen does not match one, whatever the case. *)
Lemma match_digit_upper c r1 n r2 :
  isDigitByte c = true \/ c = "-"%char ->
  time.isUpper n = true ->
  time.match_ (String c r1) (String n r2) = false.
Proof.
  intros Hc Hn. cbn [time.match_].
  assert (Hne : Ascii.eqb c n = false).
  { destruct (Ascii.eqb_spec c n) as [->|]; [|reflexivity].
    destruct Hc as [Hc| ->].
    - unfold isDigitByte, time.isUpper in *.
      apply andb_true_iff in Hc as [? ?]. apply andb_true_iff in Hn as [? ?].
      lia.
    - discriminate. }
  rewrite Hne.
  assert (Hlow : (97 <=? Z.lor (byte_val c) 32) = false).
  { destruct Hc as [Hc| ->]; [|reflexivity].
    destruct c as [[] [] [] [] [] [] [] []]; try discriminate; reflexivity. }
  rewrite Hlow. now rewrite andb_false_r.
Qed.

Lemma lookupTab_days_none c rest :
  isDigitByte c = true \/ c = "-"%char ->
  time.lookupTab time.shortDayNames 0 (String c rest) = None.
Proof.
  intros Hc. unfold time.shortDayNames. cbn [time.lookupTab String.length].
  cbn [sliceTo].
  rewrite !(match_digit_upper c _ _ _ Hc) by reflexivity.
  now rewrite !andb_false_r.
Qed.

Lemma formatBits_not_empty fuel : forall u acc,
  fuel <> O \/ acc <> "" -> strconv.formatBits fuel u acc <> "".
Proof.
  induction fuel as [|fuel IH]; intros u acc H; cbn [strconv.formatBits].
  - destruct H as [H|H]; [contradiction | exact H].
  - destruct (u <? 10); [discriminate|].
    apply IH. right. discriminate.
Qed.

(** What [appendInt] writes starts with a digit or a minus sign. *)
Lemma appendInt_head x w :
  exists c rest,
    time.appendInt x w = String c rest /\
    (isDigitByte c = true \/ c = "-"%char).
Proof.
  unfold time.appendInt.
  destruct (x <? 0).
  - eexists. eexists. split; [reflexivity|]. now right.
  - cbn [String.append].
    assert (Hd : allDigits (strconv.FormatUint (Z.abs x)) = true)
      by (apply FormatUint_allDigits; lia).
    assert (Hne : strconv.FormatUint (Z.abs x) <> "")
      by (apply formatBits_not_empty; left; discriminate).
    destruct (strconv.FormatUint (Z.abs x)) as [|c r] eqn:Hf;
      [contradiction|].
    cbn [allDigits] in Hd. apply andb_true_iff in Hd as [Hc _].
    destruct (w - String.length (String c r))%nat as [|k].
    + exists c, r. split; [reflexivity | now left].
    + eexists. eexists. split; [reflexivity|]. now left.
Qed.

(** The RFC 3339 text of a time starts with a digit or a minus sign. *)
Lemma FormatRFC3339_head zones t :
  exists c rest,
    time.FormatRFC3339 zones t = String c rest /\
    (isDigitByte c = true \/ c = "-"%char).
Proof.
  unfold time.FormatRFC3339.
  destruct (time.locabs zones t) as [offset abs].
  destruct (time.absDate abs) as [[y m] d].
  destruct (time.absClock abs) as [[h mi] s].
  destruct (appendInt_head y 4) as (c & rest & -> & Hc).
  destruct (offset =? 0).
  - eexists. eexists. split; [reflexivity | exact Hc].
  - destruct (Z.quot offset 60 <? 0);
      eexists; eexists; (split; [reflexivity | exact Hc]).
Qed.

(** [time.Parse] does not take the RFC 3339 text of a time for a Unix
    date. *)
Lemma Parse_UnixDate_FormatRFC3339 zones t :
  time.Parse zones time.UnixDate (time.FormatRFC3339 zones t)
  = inr (time.ErrBad "Mon" (time.FormatRFC3339 zones t)).
Proof.
  destruct (FormatRFC3339_head zones t) as (c & rest & -> & Hc).
  unfold time.Parse, time.UnixDate. cbn [time.parseLoop String.length].
  cbn [time.skip]. unfold time.parseStd.
  now rewrite lookupTab_days_none.
Qed.

(** X6.  The text [TStamp] returns is never a timestamp [NewVersion]
    takes: a configuration that carries it fails to construct. *)
Theorem TStamp_is_not_a_config_timestamp zones c v c' :
  govee.NewVersion zones c = (v, None) ->
  VersionConfig.TStamp c' = govee.TStamp zones v ->
  exists e, snd (govee.NewVersion zones c') = Some e /\
            (VersionConfig.VersionString c' = VersionConfig.VersionString c ->
             kindOf e = InvalidTimestamp).
Proof.
  intros H Hts.
  destruct (NewVersion_success_inv _ _ _ H) as (sv & ts & Hsv & _).
  unfold govee.NewVersion. rewrite Hts. unfold govee.TStamp.
  rewrite Parse_UnixDate_FormatRFC3339.
  destruct (semver.Make (VersionConfig.VersionString c')) as [sv'|e'] eqn:Hm.
  - eexists. split; [reflexivity|]. intros _. reflexivity.
  - eexists. split; [reflexivity|]. intros Heq.
    rewrite Heq, Hsv in Hm. discriminate.
Qed.

Lemma TStamp_is_not_a_config_timestamp_witness :
  exists e,
    snd (govee.NewVersion utcZones
           (withTStamp (testConfig "1.2.3" "prod")
                       (govee.TStamp utcZones (built "1.2.3" "prod"))))
    = Some e /\ kindOf e = InvalidTimestamp.
Proof.
  assert (Hv : govee.NewVersion utcZones (testConfig "1.2.3" "prod")
               = (built "1.2.3" "prod", None))
    by (vm_compute; reflexivity).
  destruct (TStamp_is_not_a_config_timestamp utcZones _ _
              (withTStamp (testConfig "1.2.3" "prod")
                          (govee.TStamp utcZones (built "1.2.3" "prod")))
              Hv eq_refl) as (e & He & Hk).
  exists e. split; [exact He | apply Hk; reflexivity].
Defined.

(** The name of the day is read and dropped. *)
Lemma parseStd_weekday w rest p :
  In w time.shortDayNames ->
  time.parseStd time.stdWeekDay (w ++ rest) p = inl (p, rest).
Proof.
  intros Hw. unfold time.shortDayNames in Hw. cbn [In] in Hw.
  repeat (destruct Hw as [<- | Hw]; [reflexivity|]). destruct Hw.
Qed.

(** X7.  [NewVersion] does not check the day of the week against the
    date: two configurations that differ in the name of the day only give
    the same result. *)
Theorem weekday_is_not_checked zones c w1 w2 rest :
  In w1 time.shortDayNames -> In w2 time.shortDayNames ->
  govee.NewVersion zones (withTStamp c (w1 ++ rest))
  = govee.NewVersion zones (withTStamp c (w2 ++ rest)).
Proof.
  intros H1 H2.
  assert (Hloop : forall w, In w time.shortDayNames ->
            time.parseLoop time.UnixDate (w ++ rest) time.parsed0
            = time.parseLoop (tl time.UnixDate) rest time.parsed0).
  { intros w Hw. unfold time.UnixDate.
    apply (parseLoop_cons "" time.stdWeekDay _ _ (w ++ rest));
      [reflexivity | now apply parseStd_weekday]. }
  unfold govee.NewVersion, withTStamp, time.Parse.
  cbn [VersionConfig.VersionString VersionConfig.TStamp
       VersionConfig.GitHash VersionConfig.GitBranch VersionConfig.GitUser
       VersionConfig.OS VersionConfig.Arch VersionConfig.Compiler
       VersionConfig.Release].
  now rewrite (Hloop w1 H1), (Hloop w2 H2).
Qed.

Lemma weekday_is_not_checked_witness :
  govee.NewVersion utcZones
    (withTStamp (testConfig "1.2.3" "prod") "Mon Feb 14 15:04:05 SAST 2019")
  = govee.NewVersion utcZones
      (withTStamp (testConfig "1.2.3" "prod") "Thu Feb 14 15:04:05 SAST 2019")
  /\ snd (govee.NewVersion utcZones
            (withTStamp (testConfig "1.2.3" "prod")
                        "Mon Feb 14 15:04:05 SAST 2019")) = None.
Proof.
  split.
  - apply (weekday_is_not_checked utcZones (testConfig "1.2.3" "prod")
             "Mon" "Thu" " Feb 14 15:04:05 SAST 2019");
      [right; left; reflexivity | do 4 right; left; reflexivity].
  - vm_compute. reflexivity.
Defined.

(** ** The local time zone *)

(** Whether [time.Parse] takes a text, and the error if it does not, is
    the same in every time zone. *)
Lemma Parse_in_any_zone zones zones' layout value :
  match time.Parse zones layout value, time.Parse zones' layout value with
  | inl _, inl _ => True
  | inr e, inr e' => e = e'
  | _, _ => False
  end.
Proof.
  unfold time.Parse.
  destruct (time.parseLoop layout value time.parsed0) as [p|e];
    [|reflexivity].
  destruct ((_ <? 1) || _); [reflexivity|].
  destruct (time.p_z p); [exact I|].
  destruct (negb (time.p_zoneOffset p =? -1)).
  - destruct (time.lookup zones _) as [n o].
    destruct (time.lookup zones' _) as [n' o'].
    destruct ((o =? _) && _), ((o' =? _) && _); exact I.
  - destruct (negb (String.eqb (time.p_zoneName p) "")); [|exact I].
    destruct (time.lookupName zones _ _), (time.lookupName zones' _ _);
      exact I.
Qed.

(** X8.  The time zone of the machine decides nothing but the stored
    timestamp: in two zone environments [NewVersion] fails on the same
    configurations with the same error, and on success the records agree
    in every field but the timestamp. *)
Theorem NewVersion_in_any_zone zones zones' c :
  snd (govee.NewVersion zones c) = snd (govee.NewVersion zones' c) /\
  govee.set_timestamp time.zeroTime (fst (govee.NewVersion zones c))
  = govee.set_timestamp time.zeroTime (fst (govee.NewVersion zones' c)).
Proof.
  unfold govee.NewVersion.
  destruct (semver.Make (VersionConfig.VersionString c)) as [sv|e];
    [|split; reflexivity].
  pose proof (Parse_in_any_zone zones zones' time.UnixDate
                (VersionConfig.TStamp c)) as H.
  destruct (time.Parse zones time.UnixDate (VersionConfig.TStamp c))
    as [ts|e1];
    destruct (time.Parse zones' time.UnixDate (VersionConfig.TStamp c))
      as [ts'|e2]; try contradiction.
  - cbn [govee.semver govee.set_timestamp govee.set_semver
         govee.set_strings govee.release govee.warnings].
    destruct (0 <? _);
      destruct (negb (String.eqb (VersionConfig.Release c) "production")
                && negb (String.eqb (VersionConfig.Release c) "prod"))
        eqn:Hrel; cbn; rewrite ?Hrel; split; reflexivity.
  - subst e2. split; reflexivity.
Qed.

(** ** The two packages *)

Lemma appver_NewVersion_toGovee zones c :
  snd (appver.NewVersion zones c)
  = snd (govee.NewVersion zones (toVersionConfig c)) /\
  toGovee (fst (appver.NewVersion zones c))
  = fst (govee.NewVersion zones (toVersionConfig c)).
Proof.
  unfold appver.NewVersion, govee.NewVersion, toVersionConfig.
  cbn [VersionConfig.VersionString VersionConfig.TStamp
       VersionConfig.GitHash VersionConfig.GitBranch VersionConfig.GitUser
       VersionConfig.OS VersionConfig.Arch VersionConfig.Compiler
       VersionConfig.Release].
  destruct (semver.Make (VConfig.VString c)) as [sv|e];
    [|split; reflexivity].
  destruct (time.Parse zones time.UnixDate (VConfig.TStamp c)) as [ts|e];
    [|split; reflexivity].
  cbn [appver.semver appver.set_timestamp appver.set_semver
       appver.set_strings appver.release appver.vwarnings
       govee.semver govee.set_timestamp govee.set_semver
       govee.set_strings govee.release govee.warnings].
  destruct (0 <? _);
    destruct (negb (String.eqb (VConfig.Release c) "production")
              && negb (String.eqb (VConfig.Release c) "prod")) eqn:Hrel;
    cbn; rewrite ?Hrel; split; reflexivity.
Qed.

(** X9.  Package [appver] and package [govee] do the same: on the same
    configuration fields they fail with the same error or build records on
    which every method of the interface [Versioner], and every other
    accessor, returns the same. *)
Theorem appver_agrees_with_govee zones c :
  let r := appver.NewVersion zones c in
  let r' := govee.NewVersion zones (toVersionConfig c) in
  snd r = snd r' /\
  appv.Semver (fst r) = govee.Semver (fst r') /\
  appv.Major (fst r) = govee.Major (fst r') /\
  appv.Minor (fst r) = govee.Minor (fst r') /\
  appv.Patch (fst r) = govee.Patch (fst r') /\
  appv.Pre (fst r) = govee.Pre (fst r') /\
  appv.Warnings (fst r) = govee.Warnings (fst r') /\
  appv.VError (fst r) = govee.Err (fst r') /\
  appver.GitHash (fst r) = govee.GitHash (fst r') /\
  appver.GitBranch (fst r) = govee.GitBranch (fst r') /\
  appver.GitUser (fst r) = govee.GitUser (fst r') /\
  appver.OS (fst r) = govee.OS (fst r') /\
  appver.Arch (fst r) = govee.Arch (fst r') /\
  appver.Release (fst r) = govee.Release (fst r') /\
  appver.Compiler (fst r) = govee.Compiler (fst r') /\
  appver.TStamp zones (fst r) = govee.TStamp zones (fst r').
Proof.
  cbv zeta.
  destruct (appver_NewVersion_toGovee zones c) as [He Hv].
  rewrite <- Hv. split; [exact He|].
  generalize (fst (appver.NewVersion zones c)). intros v.
  do 14 (split; [reflexivity|]).
  unfold appver.TStamp, govee.TStamp, toGovee.
  cbn [govee.timestamp]. reflexivity.
Qed.

(** ** From a date to its day and back *)












(** ** Reading the text of the [date] command *)

Lemma skip_nothing value : time.skip 1 value "" = Some value.
Proof. reflexivity. Qed.

Lemma skip_space value :
  time.skip 2 (String " " value) " " = Some (time.cutspace value).
Proof. reflexivity. Qed.

Lemma skip_colon value : time.skip 2 (String ":" value) ":" = Some value.
Proof. reflexivity. Qed.

Lemma cutspace_head c r :
  Ascii.eqb c " " = false -> time.cutspace (String c r) = String c r.
Proof.
  destruct c as [[] [] [] [] [] [] [] []]; intros H;
    first [reflexivity | discriminate H].
Qed.

Lemma cutspace_space s : time.cutspace (String " " s) = time.cutspace s.
Proof. reflexivity. Qed.

Lemma digitByte_not_space d :
  0 <= d < 10 -> Ascii.eqb (digitByte d) " " = false.
Proof. intros H. digit_cases d. Qed.

Lemma isUpper_distinct c c' :
  time.isUpper c = true -> time.isUpper c' = false -> Ascii.eqb c c' = false.
Proof.
  intros H H'. destruct (Ascii.eqb_spec c c') as [->|]; congruence.
Qed.

Lemma cutspace_twoDigits x rest :
  0 <= x < 100 -> time.cutspace (twoDigits x ++ rest) = twoDigits x ++ rest.
Proof.
  intros H. unfold twoDigits. cbn [append].
  apply cutspace_head, digitByte_not_space.
  now destruct (two_digits_range x H).
Qed.

Lemma cutspace_fourDigits x :
  0 <= x < 10000 -> time.cutspace (fourDigits x) = fourDigits x.
Proof.
  intros H. unfold fourDigits.
  apply cutspace_head, digitByte_not_space.
  now destruct (four_digits_range x H).
Qed.

Lemma parseStd_monthName m rest p :
  1 <= m <= 12 ->
  time.cutspace (monthName m ++ rest) = monthName m ++ rest /\
  time.parseStd time.stdMonth (monthName m ++ rest) p
  = inl (time.set_month m p, rest).
Proof.
  intros Hm.
  assert (Hc : m = 1 \/ m = 2 \/ m = 3 \/ m = 4 \/ m = 5 \/ m = 6 \/ m = 7
               \/ m = 8 \/ m = 9 \/ m = 10 \/ m = 11 \/ m = 12) by lia.
  repeat (destruct Hc as [-> | Hc]; [split; reflexivity|]).
  subst. split; reflexivity.
Qed.

Lemma parseStd_underDay_head c r p :
  Ascii.eqb c " " = false ->
  time.parseStd time.stdUnderDay (String c r) p
  = match time.getnum (String c r) false with
    | Some (day, value') => inl (time.set_day day p, value')
    | None => inr (time.ErrBad "_2" (String c r))
    end.
Proof.
  destruct c as [[] [] [] [] [] [] [] []]; intros H;
    first [reflexivity | discriminate H].
Qed.

(** The day of the month, in two columns after any number of spaces. *)
Lemma parseStd_underDay d rest p :
  0 <= d < 100 ->
  time.parseStd time.stdUnderDay
    (time.cutspace (underDay d ++ String " " rest)) p
  = inl (time.set_day d p, String " " rest).
Proof.
  intros Hd. unfold underDay.
  destruct (Z.ltb_spec d 10).
  - cbn [append]. rewrite cutspace_space.
    rewrite cutspace_head by (apply digitByte_not_space; lia).
    rewrite parseStd_underDay_head by (apply digitByte_not_space; lia).
    digit_cases d.
  - rewrite cutspace_twoDigits by lia.
    pose proof (getnum_twoDigits d (String " " rest) false ltac:(lia)) as Hg.
    unfold twoDigits in *. cbn [append] in *.
    rewrite parseStd_underDay_head.
    + now rewrite Hg.
    + apply digitByte_not_space. now destruct (two_digits_range d ltac:(lia)).
Qed.

Lemma isUpper_not_space c : time.isUpper c = true -> Ascii.eqb c " " = false.
Proof. intros H. now apply isUpper_distinct. Qed.

Lemma eqb_second_upper a b x a' b' x' :
  time.isUpper b = true -> time.isUpper b' = false ->
  String.eqb (String a (String b x)) (String a' (String b' x')) = false.
Proof.
  intros Hb Hb'. apply String.eqb_neq. intros E. inversion E. congruence.
Qed.

Lemma parseTimeZone_abbrev a b c r rest :
  time.isUpper a = true -> time.isUpper b = true -> time.isUpper c = true ->
  String.eqb (String a (String b (String c ""))) "GMT" = false ->
  r = "" \/ r = "T" ->
  time.parseTimeZone (String a (String b (String c (r ++ String " " rest))))
  = Some (3 + String.length r)%nat.
Proof.
  intros Ha Hb Hc Hgmt Hr.
  unfold time.parseTimeZone.
  destruct Hr as [-> | ->];
    cbn [append String.length Nat.ltb Nat.leb sliceTo];
    rewrite (eqb_second_upper a b _ "C" "h" "ST" Hb eq_refl),
            (eqb_second_upper a b _ "M" "e" "ST" Hb eq_refl);
    cbn [orb andb]; rewrite Hgmt;
    rewrite (isUpper_distinct a "+" Ha eq_refl),
            (isUpper_distinct a "-" Ha eq_refl);
    cbn [orb time.countUpper]; rewrite Ha, Hb, Hc; reflexivity.
Qed.

Lemma parseStd_zoneAbbrev z rest p :
  zoneAbbrev z = true ->
  time.cutspace (z ++ String " " rest) = z ++ String " " rest /\
  time.parseStd time.stdTZ (z ++ String " " rest) p
  = inl (time.set_zoneName z p, String " " rest).
Proof.
  destruct z as [|a [|b [|c r]]]; try discriminate.
  unfold zoneAbbrev. intros H.
  apply andb_true_iff in H as [H Hr].
  apply andb_true_iff in H as [H Hgmt].
  apply andb_true_iff in H as [H Hutc].
  apply andb_true_iff in H as [H Hc].
  apply andb_true_iff in H as [Ha Hb].
  apply negb_true_iff in Hgmt, Hutc.
  assert (Hr' : r = "" \/ r = "T").
  { apply orb_true_iff in Hr as [Hr | Hr]; apply String.eqb_eq in Hr; auto. }
  split; [apply cutspace_head, isUpper_not_space, Ha|].
  unfold time.parseStd.
  cbn [append String.length Nat.leb sliceTo].
  rewrite Hutc. cbn [andb].
  rewrite (parseTimeZone_abbrev a b c r rest Ha Hb Hc Hgmt Hr').
  destruct Hr' as [-> | ->]; reflexivity.
Qed.

Lemma parseStd_zoneUTC rest p :
  time.parseStd time.stdTZ ("UTC" ++ String " " rest) p
  = inl (time.set_z (Some time.UTC) p, String " " rest).
Proof. reflexivity. Qed.

(** The fields the parsing loop has read at the end of the text of
    [date], before the zone is looked at. *)
Lemma parseLoop_unixDateText w m d h mi s y z setz :
  In w time.shortDayNames ->
  0 <= y < 10000 -> 1 <= m <= 12 -> 0 <= d < 100 ->
  0 <= h < 24 -> 0 <= mi < 60 -> 0 <= s < 60 ->
  (forall rest p,
     time.cutspace (z ++ String " " rest) = z ++ String " " rest /\
     time.parseStd time.stdTZ (z ++ String " " rest) p
     = inl (setz p, String " " rest)) ->
  time.parseLoop time.UnixDate (unixDateText w m d h mi s z y) time.parsed0
  = inl (time.set_year y (setz (time.set_sec s (time.set_min mi
           (time.set_hour h (time.set_day d
              (time.set_month m time.parsed0))))))).
Proof.
  intros Hw Hy Hm Hd Hh Hmi Hs Hz.
  unfold unixDateText, time.UnixDate.
  cbn [append].
  erewrite parseLoop_cons;
    [| apply skip_nothing | apply parseStd_weekday, Hw].
  erewrite parseLoop_cons; [| apply skip_space |].
  2:{ destruct (parseStd_monthName m
                  (String " " (underDay d ++ String " " (twoDigits h ++
                     String ":" (twoDigits mi ++ String ":" (twoDigits s ++
                       String " " (z ++ String " " (fourDigits y)))))))
                  time.parsed0 Hm) as [-> ->].
      reflexivity. }
  erewrite parseLoop_cons; [| apply skip_space | apply parseStd_underDay, Hd].
  erewrite parseLoop_cons; [| apply skip_space |].
  2:{ rewrite cutspace_twoDigits by lia. apply parseStd_hour, Hh. }
  erewrite parseLoop_cons; [| apply skip_colon | apply parseStd_minute, Hmi].
  erewrite parseLoop_cons; [| apply skip_colon |].
  2:{ apply parseStd_second; [exact Hs | reflexivity]. }
  erewrite parseLoop_cons; [| apply skip_space |].
  2:{ destruct (Hz (fourDigits y)
                   (time.set_sec s (time.set_min mi (time.set_hour h
                      (time.set_day d (time.set_month m time.parsed0))))))
        as [-> ->]. reflexivity. }
  erewrite parseLoop_cons; [| apply skip_space |].
  2:{ rewrite cutspace_fourDigits by lia.
      rewrite <- (append_nil_r (fourDigits y)) at 1.
      apply parseStd_year, Hy. }
  reflexivity.
Qed.


Lemma validDate_month y m d : validDate y m d = true -> 1 <= m <= 12.
Proof. intros H. split_validDate H. lia. Qed.

Lemma validDate_day y m d : validDate y m d = true -> 0 <= d < 100.
Proof.
  intros H. split_validDate H.
  pose proof (daysIn_le_31 m y ltac:(lia)). lia.
Qed.




(** What [Parse] makes of the text of [date] with another abbreviation:
    the local zone is asked for its offset. *)
Lemma Parse_unixDateText_abbrev zones w m d h mi s y z :
  In w time.shortDayNames ->
  0 <= y < 10000 -> validDate y m d = true ->
  0 <= h < 24 -> 0 <= mi < 60 -> 0 <= s < 60 ->
  zoneAbbrev z = true ->
  time.Parse zones time.UnixDate (unixDateText w m d h mi s z y)
  = inl (match time.lookupName zones z (unixOfFields y m d h mi s) with
         | Some o =>
             time.setLoc (time.addSec (time.Date y m d h mi s 0) (- o))
                         time.Local
         | None =>
             time.setLoc (time.Date y m d h mi s 0) (time.FixedZone z 0)
         end).
Proof.
  intros Hw Hy Hv Hh Hmi Hs Hz.
  pose proof (validDate_month _ _ _ Hv) as Hm.
  pose proof (validDate_day _ _ _ Hv) as Hd.
  unfold time.Parse.
  rewrite (parseLoop_unixDateText w m d h mi s y z (time.set_zoneName z))
    by (try assumption; intros rest p; now apply parseStd_zoneAbbrev).
  cbn [time.p_year time.p_month time.p_day time.p_hour time.p_min
       time.p_sec time.p_nsec time.p_z time.p_zoneOffset time.p_zoneName
       time.set_year time.set_month time.set_day time.set_hour
       time.set_min time.set_sec time.set_zoneName time.parsed0].
  split_validDate Hv.
  destruct (Z.ltb_spec m 0); [lia|].
  destruct (Z.ltb_spec d 0); [lia|].
  destruct (Z.ltb_spec d 1); [lia|].
  destruct (Z.ltb_spec (time.daysIn m y) d); [lia|].
  cbn [orb negb Z.eqb Pos.eqb].
  destruct z as [|a [|b [|c r]]]; try discriminate.
  unfold zoneAbbrev in Hz.
  apply andb_true_iff in Hz as [Hz _].
  apply andb_true_iff in Hz as [_ Hgmt].
  apply negb_true_iff in Hgmt.
  change (String.eqb (String a (String b (String c r))) "") with false.
  cbn [negb sliceTo]. rewrite Hgmt, andb_false_r.
  unfold unixOfFields.
  destruct (time.lookupName zones _ _); reflexivity.
Qed.

(** ** From the text of [date] to the text of [TStamp] *)







(** ** The tests *)

(** The timestamp of the tests is read in every zone. *)
Lemma Parse_test_timestamp zones :
  exists ts,
    time.Parse zones time.UnixDate "Thu Feb 14 15:04:05 SAST 2019" = inl ts.
Proof.
  change "Thu Feb 14 15:04:05 SAST 2019"
    with (unixDateText "Thu" 2 14 15 4 5 "SAST" 2019).
  rewrite Parse_unixDateText_abbrev;
    [eexists; reflexivity | | lia | reflexivity | lia | lia | lia
     | reflexivity].
  do 4 right; left; reflexivity.
Qed.

(** X12. Every test of the package passes, whatever the local zone of the
    machine it runs on: none tells an error and none panics. *)
Theorem tests_pass_in_every_zone zones :
  govee_test.run zones
  = [Returns []; Returns []; Returns []; Returns []; Returns [];
     Returns []].
Proof.
  destruct (Parse_test_timestamp zones) as [ts Hts].
  unfold govee_test.run, govee_test.TestNewVersion,
    govee_test.TestNewPreVersion, govee_test.TestMajorVersion,
    govee_test.TestMinorVesion, govee_test.TestPatchVersion,
    govee_test.TestVersionWarnings, govee.NewVersion.
  cbv zeta.
  cbn [VersionConfig.VersionString VersionConfig.TStamp].
  rewrite Hts.
  vm_compute. reflexivity.
Qed.

(** ** A day the month does not have *)




(** ** The version string and the three numbers *)

Lemma int_of_uint64_nonneg x :
  0 <= x <= strconv.maxUint64 -> 0 <= int_of_uint64 x ->
  int_of_uint64 x = x.
Proof.
  intros Hx Hn.
  destruct (Z_lt_le_dec x (2 ^ 63)) as [Hlt | Hge].
  - apply int_of_uint64_small. lia.
  - rewrite int_of_uint64_large in Hn
      by (unfold strconv.maxUint64 in Hx; lia).
    unfold strconv.maxUint64 in Hx. lia.
Qed.

(** X14. Every version string [NewVersion] accepts begins with the
    decimals of [Major], [Minor] and [Patch], separated by dots, when
    none of the three has wrapped to a negative number; what follows is
    nothing, or begins with a hyphen or a plus sign. *)
Theorem version_string_begins_with_numbers zones c v :
  govee.NewVersion zones c = (v, None) ->
  0 <= govee.Major v -> 0 <= govee.Minor v -> 0 <= govee.Patch v ->
  exists tail,
    VersionConfig.VersionString c
    = versionXYZ (govee.Major v) (govee.Minor v) (govee.Patch v) ++ tail /\
    (tail = "" \/ exists t, tail = String "-" t \/ tail = String "+" t).
Proof.
  intros H HM Hm Hp.
  destruct (NewVersion_success_inv _ _ _ H) as (sv & ts & Hsv & _ & Hv & _).
  pose proof (String_Parse _ _ Hsv) as Hs.
  destruct (Make_range _ _ Hsv) as (RM & Rm & Rp).
  unfold govee.Major, govee.Minor, govee.Patch in *. rewrite Hv in *.
  rewrite !int_of_uint64_nonneg by assumption.
  rewrite String_layout in Hs.
  fold (versionXYZ (semver.Major sv) (semver.Minor sv) (semver.Patch sv)).
  unfold coreText in Hs.
  fold (versionXYZ (semver.Major sv) (semver.Minor sv) (semver.Patch sv))
    in Hs.
  rewrite <- Hs.
  rewrite <- !append_assoc_.
  rewrite !append_assoc_.
  eexists. split; [reflexivity|].
  destruct (semver.Pre sv) as [|x xs].
  - destruct (semver.Build sv) as [|b bs]; [now left|].
    right. eexists. right. reflexivity.
  - right. eexists. left. reflexivity.
Qed.

Lemma version_string_begins_with_numbers_witness :
  exists v tail,
    govee.NewVersion utcZones (testConfig "1.2.3-rc.1+b-2" "prod")
    = (v, None) /\
    "1.2.3-rc.1+b-2" = versionXYZ 1 2 3 ++ tail.
Proof.
  exists (built "1.2.3-rc.1+b-2" "prod").
  assert (Hv : govee.NewVersion utcZones (testConfig "1.2.3-rc.1+b-2" "prod")
               = (built "1.2.3-rc.1+b-2" "prod", None))
    by (vm_compute; reflexivity).
  destruct (version_string_begins_with_numbers utcZones _ _ Hv)
    as (tail & Ht & _); [vm_compute; discriminate ..|].
  exists tail. split; [exact Hv | exact Ht].
Defined.

(** * Construction, its warnings and the record in memory *)

(** ** The warnings of a configuration *)

(** The warnings of a constructed record, told from the configuration
    alone. *)
Lemma Warnings_of_config zones c v :
  govee.NewVersion zones c = (v, None) ->
  exists sv,
    semver.Make (VersionConfig.VersionString c) = inl sv /\
    (preReleaseCheck c = true <-> semver.Pre sv <> []) /\
    govee.Warnings v
    = ((if preReleaseCheck c
        then [preWarningText (bracketed (semver.Pre sv))] else [])
       ++ (if releaseTagCheck c
           then [releaseWarningText (VersionConfig.Release c)] else []))%list.
Proof.
  intros H.
  destruct (NewVersion_success_inv _ _ _ H)
    as (sv & ts & Hsv & _ & Hv & _ & _ & _ & _ & _ & _ & _ & Hrel & _ & Hw).
  exists sv. split; [exact Hsv|].
  unfold preReleaseCheck, releaseTagCheck.
  rewrite (Parse_hasPrerelease _ _ Hsv).
  unfold govee.Warnings. rewrite Hw.
  unfold preCheck, releaseCheck. rewrite Hv, Hrel.
  split.
  - destruct (semver.Pre sv); cbn; split; congruence.
  - reflexivity.
Qed.

Lemma preWarningText_not_releaseWarningText rendering rel :
  preWarningText rendering <> releaseWarningText rel.
Proof.
  unfold preWarningText, releaseWarningText. cbn. discriminate.
Qed.

(** C3.  The warnings of a constructed record are as many as the checks
    the configuration triggers: the pre-release check, triggered by a
    version string with a pre-release part, and the release check,
    triggered by a release tag that is neither "production" nor "prod".
    The warning of the pre-release check comes first and the one of the
    release check second; when the pre-release warning is there, it is the
    first element. *)
Theorem warnings_count_and_order zones c v :
  govee.NewVersion zones c = (v, None) ->
  exists sv,
    semver.Make (VersionConfig.VersionString c) = inl sv /\
    (preReleaseCheck c = true <-> semver.Pre sv <> []) /\
    List.length (govee.Warnings v)
    = (Nat.b2n (preReleaseCheck c) + Nat.b2n (releaseTagCheck c))%nat /\
    govee.Warnings v
    = ((if preReleaseCheck c
        then [preWarningText (bracketed (semver.Pre sv))] else [])
       ++ (if releaseTagCheck c
           then [releaseWarningText (VersionConfig.Release c)] else []))%list
    /\
    (preReleaseCheck c = true ->
     nth_error (govee.Warnings v) 0
     = Some (preWarningText (bracketed (semver.Pre sv)))).
Proof.
  intros H.
  destruct (Warnings_of_config zones c v H) as (sv & Hsv & Hpre & Hw).
  exists sv. split; [exact Hsv|]. split; [exact Hpre|].
  rewrite Hw.
  destruct (preReleaseCheck c), (releaseTagCheck c); cbn;
    repeat split; try reflexivity; discriminate.
Qed.

Lemma warnings_count_and_order_witness :
  exists v,
    govee.NewVersion utcZones (testConfig "1.2.3-2-ga1b2c3d" "test")
    = (v, None) /\
    govee.Warnings v
    = [preWarningText "[2-ga1b2c3d]"; releaseWarningText "test"].
Proof.
  exists (built "1.2.3-2-ga1b2c3d" "test").
  assert (Hv : govee.NewVersion utcZones
                 (testConfig "1.2.3-2-ga1b2c3d" "test")
               = (built "1.2.3-2-ga1b2c3d" "test", None))
    by (vm_compute; reflexivity).
  split; [exact Hv|].
  destruct (warnings_count_and_order utcZones _ _ Hv)
    as (sv & Hsv & _ & _ & Hw & _).
  assert (Hsv' : semver.Make "1.2.3-2-ga1b2c3d"
                 = inl (semver.mkVersion 1 2 3
                          [semver.mkPRVersion "2-ga1b2c3d" 0 false] []))
    by (vm_compute; reflexivity).
  cbn [testConfig VersionConfig.VersionString] in Hsv.
  rewrite Hsv' in Hsv. injection Hsv as <-.
  exact Hw.
Defined.

(** C4.  A constructed record carries the warning
    [This version is tagged as release "<release>". Please don't use in
    production.], with the release tag of the configuration between the
    quotes, when that tag is neither "production" nor "prod", compared
    byte for byte; with one of these two tags the record carries no
    warning of that wording, for any tag. *)
Theorem release_warning_iff zones c v :
  govee.NewVersion zones c = (v, None) ->
  (VersionConfig.Release c <> "production" /\
   VersionConfig.Release c <> "prod" ->
   In (releaseWarningText (VersionConfig.Release c)) (govee.Warnings v))
  /\
  (VersionConfig.Release c = "production" \/
   VersionConfig.Release c = "prod" ->
   forall rel, ~ In (releaseWarningText rel) (govee.Warnings v)).
Proof.
  intros H.
  destruct (Warnings_of_config zones c v H) as (sv & _ & _ & Hw).
  rewrite Hw. unfold releaseTagCheck.
  split.
  - intros [Hp Hq].
    apply String.eqb_neq in Hp, Hq. rewrite Hp, Hq. cbn [negb andb].
    apply in_or_app. right. now left.
  - intros Hin rel Hmem.
    assert (Hoff : negb (String.eqb (VersionConfig.Release c) "production")
                   && negb (String.eqb (VersionConfig.Release c) "prod")
                   = false).
    { destruct Hin as [-> | ->]; reflexivity. }
    rewrite Hoff, app_nil_r in Hmem.
    destruct (preReleaseCheck c); cbn [In] in Hmem.
    + destruct Hmem as [Heq|[]].
      exact (preWarningText_not_releaseWarningText _ _ Heq).
    + exact Hmem.
Qed.

Lemma release_warning_iff_witness :
  (exists v,
     govee.NewVersion utcZones (testConfig "1.2.3" "test") = (v, None) /\
     In (releaseWarningText "test") (govee.Warnings v))
  /\
  (exists v,
     govee.NewVersion utcZones (testConfig "1.2.3-2-ga1b2c3d" "prod")
     = (v, None) /\
     ~ In (releaseWarningText "prod") (govee.Warnings v))
  /\
  String.length (releaseWarningText "test") = 73%nat.
Proof.
  split; [|split; [|reflexivity]].
  - exists (built "1.2.3" "test").
    assert (Hv : govee.NewVersion utcZones (testConfig "1.2.3" "test")
                 = (built "1.2.3" "test", None))
      by (vm_compute; reflexivity).
    split; [exact Hv|].
    apply (release_warning_iff utcZones _ _ Hv).
    split; discriminate.
  - exists (built "1.2.3-2-ga1b2c3d" "prod").
    assert (Hv : govee.NewVersion utcZones
                   (testConfig "1.2.3-2-ga1b2c3d" "prod")
                 = (built "1.2.3-2-ga1b2c3d" "prod", None))
      by (vm_compute; reflexivity).
    split; [exact Hv|].
    apply (release_warning_iff utcZones _ _ Hv).
    right. reflexivity.
Defined.

(** ** The parser and the grammar of semantic versions *)








Lemma eqb_empty s : String.eqb s "" = false <-> s <> "".
Proof. apply String.eqb_neq. Qed.








(** *** From the grammar to the parser *)













Lemma numberFits_any fits s :
  numberFits fits s = true -> numberFits (fun _ => true) s = true.
Proof. intros _. unfold numberFits. apply orb_true_r. Qed.

Lemma validSemver64_valid s : validSemver64 s -> validSemver s.
Proof.
  intros (x & y & z & pre & build & Hs & Hx & Hy & Hz & Hp & Hb).
  exists x, y, z, pre, build. split; [exact Hs|].
  assert (Hone : forall f t, f t && numberFits fits64 t = true ->
                             f t && numberFits (fun _ => true) t = true).
  { intros f t H. apply andb_true_iff in H as [H1 H2].
    rewrite H1. cbn [andb]. exact (numberFits_any _ _ H2). }
  split; [now apply (Hone numericIdentifier)|].
  split; [now apply (Hone numericIdentifier)|].
  split; [now apply (Hone numericIdentifier)|].
  split; [|exact Hb].
  clear - Hp Hone. induction pre as [|p pre IH]; [reflexivity|].
  cbn [forallb] in *. apply andb_true_iff in Hp as [H1 H2].
  rewrite (Hone preReleaseIdentifier p H1). cbn [andb]. exact (IH H2).
Qed.

(** ** The parser and the Unix date format *)









(** ** When construction fails *)




(** ** The record in memory *)

Lemma read_app m new s :
  slice.allocated m s -> slice.read (m ++ new)%list s = slice.read m s.
Proof.
  unfold slice.allocated, slice.read.
  destruct (slice.array s) as [a|]; [|reflexivity].
  intros H. now rewrite app_nth1.
Qed.

Lemma allocated_app m new s :
  slice.allocated m s -> slice.allocated (m ++ new)%list s.
Proof.
  unfold slice.allocated. destruct (slice.array s); [|trivial].
  rewrite length_app. lia.
Qed.

Lemma append_nil m x :
  slice.append m slice.nil x
  = ((m ++ [[x]])%list, slice.mk (Some (List.length m)) 1 1).
Proof. reflexivity. Qed.

Lemma read_last m arr n c :
  slice.read (m ++ [arr])%list (slice.mk (Some (List.length m)) n c)
  = firstn n arr.
Proof.
  unfold slice.read. cbn [slice.array slice.len]. now rewrite nth_middle.
Qed.

Lemma read_last2 m a arr n c :
  slice.read (m ++ [a; arr])%list (slice.mk (Some (S (List.length m))) n c)
  = firstn n arr.
Proof.
  change (m ++ [a; arr])%list with (m ++ [a] ++ [arr])%list.
  rewrite app_assoc.
  replace (S (List.length m)) with (List.length (m ++ [a])%list)
    by (rewrite length_app; cbn; lia).
  apply read_last.
Qed.

Lemma append_one m x y :
  slice.append (m ++ [[x]])%list (slice.mk (Some (List.length m)) 1 1) y
  = ((m ++ [[x]] ++ [[x; y]])%list,
     slice.mk (Some (S (List.length m))) 2 2).
Proof.
  unfold slice.append. cbn [slice.array slice.len slice.cap Nat.ltb Nat.leb].
  rewrite read_last. cbn [firstn Nat.max Nat.mul Nat.add Nat.sub repeat app].
  rewrite length_app, <- app_assoc. cbn [List.length app].
  now rewrite Nat.add_1_r.
Qed.

(** [NewVersion] in a store: it writes to no array that was there, the
    warnings of its record are in an array of the store it leaves, and
    record and error are the ones of [NewVersion] told without a
    store. *)
Lemma heap_NewVersion_spec zones c m :
  let r := heap.NewVersion zones c m in
  (exists new, snd r = (m ++ new)%list) /\
  slice.allocated (snd r) (heap.warnings (fst (fst r))) /\
  (heap.pure (snd r) (fst (fst r)), snd (fst r)) = govee.NewVersion zones c.
Proof.
  cbv zeta. unfold heap.NewVersion, govee.NewVersion.
  destruct (semver.Make (VersionConfig.VersionString c)) as [sv|e].
  2:{ cbn. split; [exists []; now rewrite app_nil_r|]. now split. }
  destruct (time.Parse zones time.UnixDate (VersionConfig.TStamp c))
    as [ts|e].
  2:{ cbn. split; [exists []; now rewrite app_nil_r|]. now split. }
  cbv zeta. heap_simpl.
  destruct (0 <? Z.of_nat (List.length (semver.Pre sv)));
    destruct (negb (String.eqb (VersionConfig.Release c) "production")
              && negb (String.eqb (VersionConfig.Release c) "prod"))
      eqn:Hrel;
    heap_simpl; rewrite ?append_nil; heap_simpl; rewrite ?Hrel;
    heap_simpl; rewrite ?append_nil, ?append_one; heap_simpl.
  - split; [eexists; reflexivity|]. split.
    + unfold slice.allocated. cbn [slice.array].
      rewrite !length_app. cbn [List.length]. lia.
    + unfold heap.pure. heap_simpl. rewrite read_last2. reflexivity.
  - split; [eexists; reflexivity|]. split.
    + unfold slice.allocated. cbn [slice.array].
      rewrite !length_app. cbn [List.length]. lia.
    + unfold heap.pure. heap_simpl. rewrite read_last. reflexivity.
  - split; [eexists; reflexivity|]. split.
    + unfold slice.allocated. cbn [slice.array].
      rewrite !length_app. cbn [List.length]. lia.
    + unfold heap.pure. heap_simpl. rewrite read_last. reflexivity.
  - split; [exists []; now rewrite app_nil_r|]. split; [exact I|].
    reflexivity.
Qed.

(** No method writes to the store. *)
Lemma call_store zones f v m r m' :
  heap.call zones f v m = Returns (r, m') -> m' = m.
Proof.
  destruct f; cbn [heap.call]; try (intros H; now injection H).
  destruct (semver.Pre (heap.semver v)); [discriminate|].
  intros H. now injection H.
Qed.

(** A use of the package writes to no array of the store: it adds arrays
    at most. *)
Lemma after_extends zones u m :
  exists new, heap.after zones u m = (m ++ new)%list.
Proof.
  destruct u as [c | f v]; cbn [heap.after].
  - exact (proj1 (heap_NewVersion_spec zones c m)).
  - destruct (heap.call zones f v m) as [[r m']|msg] eqn:Hc.
    + rewrite (call_store _ _ _ _ _ _ Hc). exists []. now rewrite app_nil_r.
    + exists []. now rewrite app_nil_r.
Qed.

Lemma afterAll_extends zones us : forall m,
  exists new, heap.afterAll zones us m = (m ++ new)%list.
Proof.
  induction us as [|u us IH]; intros m.
  - exists []. cbn. now rewrite app_nil_r.
  - change (heap.afterAll zones (u :: us) m)
      with (heap.afterAll zones us (heap.after zones u m)).
    destruct (after_extends zones u m) as [new1 ->].
    destruct (IH (m ++ new1)%list) as [new2 ->].
    exists (new1 ++ new2)%list. now rewrite app_assoc.
Qed.

(** Whatever use is made of the package, a record whose warnings are in
    the store reads as before. *)
Lemma pure_afterAll zones us m v :
  slice.allocated m (heap.warnings v) ->
  heap.pure (heap.afterAll zones us m) v = heap.pure m v.
Proof.
  intros Ha. destruct (afterAll_extends zones us m) as [new ->].
  unfold heap.pure. now rewrite read_app.
Qed.

(** ** Accessors and the record *)

(** C8, as amended.  On success the seven opaque strings of the
    configuration are in the record as they were given and each accessor
    returns its field.  In memory, the record [NewVersion] builds reads
    as that record; no method writes to the store; and whatever use is
    made of [NewVersion] and of the methods afterwards, the record reads
    the same.  (What is not so: that nothing can change the record; see
    the counterexample.) *)
Theorem accessors_project_config zones c v :
  govee.NewVersion zones c = (v, None) ->
  (govee.GitHash v = VersionConfig.GitHash c /\
   govee.GitBranch v = VersionConfig.GitBranch c /\
   govee.GitUser v = VersionConfig.GitUser c /\
   govee.OS v = VersionConfig.OS c /\
   govee.Arch v = VersionConfig.Arch c /\
   govee.Compiler v = VersionConfig.Compiler c /\
   govee.Release v = VersionConfig.Release c)
  /\
  forall m : slice.store,
    let hv := fst (fst (heap.NewVersion zones c m)) in
    let m1 := snd (heap.NewVersion zones c m) in
    heap.pure m1 hv = v /\
    (forall f r m2, heap.call zones f hv m1 = Returns (r, m2) -> m2 = m1) /\
    (forall us, heap.pure (heap.afterAll zones us m1) hv = v).
Proof.
  intros H. split.
  - destruct (NewVersion_success_inv _ _ _ H)
      as (sv & ts & _ & _ & _ & _ & H1 & H2 & H3 & H4 & H5 & H6 & H7 & _).
    unfold govee.GitHash, govee.GitBranch, govee.GitUser, govee.OS,
      govee.Arch, govee.Compiler, govee.Release.
    now rewrite H1, H2, H3, H4, H5, H6, H7.
  - intros m. cbv zeta.
    destruct (heap_NewVersion_spec zones c m) as (_ & Ha & Hp).
    rewrite H in Hp. injection Hp as Hp _.
    split; [exact Hp|]. split.
    + intros f r m2. apply call_store.
    + intros us. rewrite pure_afterAll by exact Ha. exact Hp.
Qed.

Lemma accessors_project_config_witness :
  exists v,
    govee.NewVersion utcZones (testConfig "1.2.3" "test") = (v, None) /\
    govee.GitHash v = "1234567890abcdef" /\
    govee.GitBranch v = "testing" /\
    govee.GitUser v = "Jane Doe" /\
    govee.OS v = "linux" /\
    govee.Arch v = "amd64" /\
    govee.Compiler v = "go1.11.1" /\
    govee.Release v = "test" /\
    heap.pure
      (heap.afterAll utcZones
         [heap.New (testConfig "1.2.4" "test")]
         (snd (heap.NewVersion utcZones (testConfig "1.2.3" "test") [])))
      (fst (fst (heap.NewVersion utcZones (testConfig "1.2.3" "test") [])))
    = v.
Proof.
  exists (built "1.2.3" "test").
  assert (Hv : govee.NewVersion utcZones (testConfig "1.2.3" "test")
               = (built "1.2.3" "test", None))
    by (vm_compute; reflexivity).
  split; [exact Hv|].
  destruct (accessors_project_config utcZones _ _ Hv) as [Hs Hm].
  destruct Hs as (H1 & H2 & H3 & H4 & H5 & H6 & H7).
  repeat (split; [assumption|]).
  exact (proj2 (proj2 (Hm [])) [heap.New (testConfig "1.2.4" "test")]).
Defined.

(** C8 as stated fails on its last part: the record is not read-only.
    [Warnings] returns the slice the record holds; a caller that assigns
    to its first element has changed the first warning of the record, as
    the next call of [Warnings] shows. *)
Lemma accessors_project_config_counterexample :
  let c := testConfig "1.2.3" "test" in
  let r := heap.NewVersion utcZones c [] in
  let v := fst (fst r) in
  let m := snd r in
  snd (fst r) = None /\
  govee.Warnings (heap.pure m v) = [releaseWarningText "test"] /\
  exists w m',
    heap.call utcZones heap.Warnings v m = Returns (heap.RSlice w, m) /\
    slice.assign m w 0 "all is well" = Returns m' /\
    heap.call utcZones heap.Warnings v m' = Returns (heap.RSlice w, m') /\
    slice.read m' w = ["all is well"] /\
    govee.Warnings (heap.pure m' v) = ["all is well"] /\
    heap.pure m' v <> heap.pure m v.
Proof.
  cbv zeta.
  split; [vm_compute; reflexivity|]. split; [vm_compute; reflexivity|].
  exists (slice.mk (Some 0%nat) 1 1), [["all is well"]].
  split; [vm_compute; reflexivity|]. split; [vm_compute; reflexivity|].
  split; [vm_compute; reflexivity|]. split; [vm_compute; reflexivity|].
  split; [vm_compute; reflexivity|].
  vm_compute. discriminate.
Qed.
